(** * polymarket-go-client: order amounts, typed-data hashing, signing, headers

    A shallow embedding of the order-construction core of the client
    (packages [types], [utils], [signer], [orderbuilder], [auth] and the
    price gate of [client]) and the properties proved about it, followed by
    the constructors, the Level-1 authentication, the market-data retrieval
    with its caches and the API-key calls of [client].

    Conventions.
    - [float64] is Rocq's primitive binary64 [float]; every operation is
      rounded on its own (no fused multiply-add), as the gc compiler does on
      amd64.
    - [int] and [int64] are [Z] with the 64-bit wrap-around written out.
    - A float-to-int conversion whose operand is NaN or outside the int64
      range is implementation-dependent in Go; the value modelled is the
      amd64 one (the "integer indefinite" -2^63).
    - Go errors are their message strings.
    - Wall-clock readings and random draws are inputs of the functions that
      make them; the time fields of a performance metric are not modelled.
    - Module [Spec] is the specification side. Its roundings are written
      from the words - the greatest, the least and the nearest multiple of
      [10^-d] next to a value - on the exact value of the float64 scaled by
      [10^d]; what the rounding helpers of the code compute stands next to
      them under names that begin with [computed_].
    - The client, its header builder and its order builder point to one
      signer: [ClientState.ClobClient] holds it once. *)

From Stdlib Require Import ZArith List String Ascii Bool Lia Floats.
From Stdlib Require Uint63.
From Stdlib Require Import Strings.Byte DecimalString.
From Stdlib Require DecimalPos.
Import ListNotations.

#[local] Set Warnings "-inexact-float".
#[local] Open Scope string_scope.
#[local] Open Scope Z_scope.

(* ================================================================== *)
(** ** The Go runtime pieces the code relies on *)

Module Go.

(** Outcome of a call that may panic. *)
Inductive outcome (A : Type) : Type :=
| Returned (a : A)
| Panicked (msg : string).
Arguments Returned {A} a.
Arguments Panicked {A} msg.

Definition bind {A B} (x : outcome A) (k : A -> outcome B) : outcome B :=
  match x with
  | Returned a => k a
  | Panicked m => Panicked m
  end.

(** *** int64 *)

Definition int64_min : Z := - 2 ^ 63.
Definition int64_max : Z := 2 ^ 63 - 1.

Definition in_int64 (z : Z) : bool := (int64_min <=? z) && (z <=? int64_max).

(** Two's-complement wrap-around of int64 arithmetic. *)
Definition wrap64 (z : Z) : Z := (z + 2 ^ 63) mod 2 ^ 64 - 2 ^ 63.

(** *** float64 <-> int *)

(** Truncation toward zero of a finite float; [None] on NaN and infinities. *)
Definition SFtrunc (x : spec_float) : option Z :=
  match x with
  | S754_zero _ => Some 0
  | S754_finite s m e =>
      let a := match e with
               | Zneg p => Z.shiftr (Zpos m) (Zpos p)
               | _ => Z.shiftl (Zpos m) e
               end in
      Some (if s then - a else a)
  | S754_infinity _ | S754_nan => None
  end.

Definition int_indefinite : Z := int64_min.

(** [int(x)] for [x float64]. *)
Definition int_of_float (x : float) : Z :=
  match SFtrunc (Prim2SF x) with
  | Some z => if in_int64 z then z else int_indefinite
  | None => int_indefinite
  end.

(** The conversion [int(x)] is specified by the language: [x] is finite and
    its integer part is an int64. *)
Definition int_conversion_defined (x : float) : bool :=
  match SFtrunc (Prim2SF x) with
  | Some z => in_int64 z
  | None => false
  end.

(** [float64(n)] for [n int]: round to nearest, ties to even. *)
Definition float_of_int (n : Z) : float :=
  SF2Prim (binary_normalize prec emax n 0 false).

(** *** Decimal text *)

Definition digit_char (d : Z) : ascii := ascii_of_nat (48 + Z.to_nat d).

(** [k] decimal digits of [n], most significant first, zero padded. *)
Fixpoint fixed_digits (k : nat) (n : Z) : string :=
  match k with
  | O => EmptyString
  | S k' => fixed_digits k' (n / 10) ++ String (digit_char (n mod 10)) EmptyString
  end.

(** [fmt.Sprintf("%d", n)]. *)
Definition Sprintf_d (n : Z) : string := NilZero.string_of_int (Z.to_int n).

(** Nearest integer to [num / den], ties to even ([0 <= num], [0 < den]). *)
Definition div_round_even (num den : Z) : Z :=
  let q := num / den in
  let r := num mod den in
  match 2 * r ?= den with
  | Lt => q
  | Gt => q + 1
  | Eq => if Z.even q then q else q + 1
  end.

(** The magnitude of a finite float times [10^digits], rounded to the
    nearest integer (ties to even): strconv converts the exact binary
    value. *)
Definition scaled_decimal (digits : nat) (m : positive) (e : Z) : Z :=
  match e with
  | Zneg p => div_round_even (Zpos m * 10 ^ Z.of_nat digits) (2 ^ Zpos p)
  | _ => Zpos m * 2 ^ e * 10 ^ Z.of_nat digits
  end.

Definition sign_text (s : bool) : string := if s then "-" else "".

(** [fmt.Sprintf("%.<digits>f", x)] for [0 < digits]. *)
Definition Sprintf_f (digits : nat) (x : float) : string :=
  match Prim2SF x with
  | S754_nan => "NaN"
  | S754_infinity false => "+Inf"
  | S754_infinity true => "-Inf"
  | S754_zero s => sign_text s ++ "0." ++ fixed_digits digits 0
  | S754_finite s m e =>
      let n := scaled_decimal digits m e in
      sign_text s ++ Sprintf_d (n / 10 ^ Z.of_nat digits) ++ "."
        ++ fixed_digits digits (n mod 10 ^ Z.of_nat digits)
  end.

(** *** math/big *)

(** A [*big.Int]: [None] is the nil pointer. *)
Definition bigInt := option Z.

(** big.Float keeps a 53-bit mantissa here and an int32 exponent, far
    beyond the float64 range. *)
Definition big_emax : Z := 2 ^ 31.

(** [big.NewFloat(x)]: panics on NaN; the value is kept exactly. *)
Definition big_NewFloat (x : float) : outcome spec_float :=
  match Prim2SF x with
  | S754_nan => Panicked "NewFloat(NaN)"
  | v => Returned v
  end.

(** [z.Mul(z, y)] with [z] of precision 53: the product rounded to 53 bits,
    ties to even. *)
Definition bigFloat_Mul (z y : spec_float) : spec_float := SFmul prec big_emax z y.

(** [x.Int(nil)]: truncation toward zero; nil for an infinity. *)
Definition bigFloat_Int (x : spec_float) : bigInt := SFtrunc x.

(** A Go result pair [(value, error)]: the error is its message. *)
Inductive result (A : Type) : Type :=
| Ok (a : A)
| Err (msg : string).
Arguments Ok {A} a.
Arguments Err {A} msg.

(** *** Bytes and slices *)

(** [byte(n)]: the low eight bits. *)
Definition byte_of_Z (n : Z) : byte :=
  match Byte.of_N (Z.to_N (n mod 256)) with
  | Some b => b
  | None => x00
  end.

Definition Z_of_byte (b : byte) : Z := Z.of_N (Byte.to_N b).

(** [make([]byte, n)] *)
Definition make (n : nat) : list byte := repeat x00 n.

(** [copy(dst[off:], src)]: as many bytes as both sides hold. *)
Definition copy_at (dst : list byte) (off : nat) (src : list byte) : list byte :=
  let n := Nat.min (List.length dst - off) (List.length src) in
  (firstn off dst ++ firstn n src ++ skipn (off + n) dst)%list.

(** [buf[i] = b]; out of range panics. *)
Definition store (buf : list byte) (i : nat) (b : byte) : outcome (list byte) :=
  if (i <? List.length buf)%nat
  then Returned (firstn i buf ++ b :: skipn (S i) buf)%list
  else Panicked "index out of range".

(** [buf[i]]; out of range panics. *)
Definition load (buf : list byte) (i : nat) : outcome byte :=
  match nth_error buf i with
  | Some b => Returned b
  | None => Panicked "index out of range"
  end.

Definition hex_digit (d : Z) : ascii :=
  if d <? 10 then ascii_of_nat (48 + Z.to_nat d) else ascii_of_nat (87 + Z.to_nat d).

(** A lower-case hexadecimal digit. *)
Definition is_hex (c : ascii) : bool :=
  existsb (Ascii.eqb c) (list_ascii_of_string "0123456789abcdef").

(** [fmt.Sprintf("%x", bytes)]: two lower-case digits per byte. *)
Fixpoint Sprintf_x (bytes : list byte) : string :=
  match bytes with
  | [] => EmptyString
  | b :: rest =>
      String (hex_digit (Z_of_byte b / 16))
        (String (hex_digit (Z_of_byte b mod 16)) (Sprintf_x rest))
  end.

(** *** big.Int *)

(** Little-endian base-256 digits of [n], [fuel] digits at most. *)
Fixpoint le_bytes (fuel : nat) (n : Z) : list byte :=
  match fuel with
  | O => []
  | S fuel' => if n <=? 0 then [] else byte_of_Z n :: le_bytes fuel' (n / 256)
  end.

(** The minimal big-endian byte string of [|n|] (empty for zero). *)
Definition abs_bytes (n : Z) : list byte :=
  rev (le_bytes (S (Z.to_nat (Z.log2 (Z.abs n)))) (Z.abs n)).

(** [x.FillBytes(buf)]: the absolute value, zero-extended, big-endian;
    panics when it does not fit or when [x] is nil. *)
Definition FillBytes (x : bigInt) (buf : list byte) : outcome (list byte) :=
  match x with
  | None => Panicked "nil pointer dereference"
  | Some n =>
      let b := abs_bytes n in
      if (List.length b <=? List.length buf)%nat
      then Returned (repeat x00 (List.length buf - List.length b) ++ b)%list
      else Panicked "math/big: buffer too small to fit value"
  end.

(** [x.String()] *)
Definition bigInt_String (x : bigInt) : string :=
  match x with
  | None => "<nil>"
  | Some n => Sprintf_d n
  end.

Definition digit_value (c : ascii) : option Z :=
  let n := Z.of_nat (nat_of_ascii c) in
  if (48 <=? n) && (n <=? 57) then Some (n - 48) else None.

(** Base-10 digits read left to right onto [acc]; [None] on any other
    character. *)
Fixpoint scan_digits (acc : Z) (s : string) : option Z :=
  match s with
  | EmptyString => Some acc
  | String c rest =>
      match digit_value c with
      | Some d => scan_digits (10 * acc + d) rest
      | None => None
      end
  end.

(** [z.SetString(s, 10)] when it succeeds: an optional sign, then one or
    more digits up to the end of [s]. *)
Definition SetString10 (s : string) : option Z :=
  match s with
  | EmptyString => None
  | String c rest =>
      if Ascii.eqb c "-" then
        match rest with
        | EmptyString => None
        | _ => option_map Z.opp (scan_digits 0 rest)
        end
      else if Ascii.eqb c "+" then
        match rest with
        | EmptyString => None
        | _ => scan_digits 0 rest
        end
      else scan_digits 0 s
  end.

End Go.

Export Go.

(* ================================================================== *)
(** ** Package types *)

Module types.

(** [type OrderSide string] *)
Definition OrderSide := string.
Definition BUY : OrderSide := "BUY".
Definition SELL : OrderSide := "SELL".

(** [type AuthLevel int] *)
Definition AuthLevel := Z.
Definition L0 : AuthLevel := 0.
Definition L1 : AuthLevel := 1.
Definition L2 : AuthLevel := 2.

(** [type TickSize string] *)
Definition TickSize := string.
Definition TickSize01 : TickSize := "0.1".
Definition TickSize001 : TickSize := "0.01".
Definition TickSize0001 : TickSize := "0.001".
Definition TickSize00001 : TickSize := "0.0001".

Record RoundConfig := {
  Price : Z;
  Size : Z;
  Amount : Z
}.

Record ApiCreds := {
  ApiKey : string;
  ApiSecret : string;
  ApiPassphrase : string
}.

Record OrderArgs := {
  oa_TokenID : string;
  oa_Price : float;
  oa_Size : float;
  oa_Side : OrderSide;
  oa_FeeRateBps : Z;
  oa_Nonce : Z;
  oa_Expiration : Z;
  oa_Taker : string
}.

Record MarketOrderArgs := {
  mo_TokenID : string;
  mo_Amount : float;
  mo_Side : OrderSide;
  mo_Price : float;
  mo_FeeRateBps : Z;
  mo_Nonce : Z;
  mo_Taker : string
}.

Record OrderData := {
  od_Maker : string;
  od_Taker : string;
  od_TokenID : string;
  od_MakerAmount : bigInt;
  od_TakerAmount : bigInt;
  od_Side : Z;
  od_FeeRateBps : string;
  od_Nonce : string;
  od_Signer : string;
  od_Expiration : string;
  od_SignatureType : Z
}.

Record SignedOrder := {
  so_Salt : Z;
  so_Maker : string;
  so_Signer : string;
  so_Taker : string;
  so_TokenID : string;
  so_MakerAmount : string;
  so_TakerAmount : string;
  so_Expiration : string;
  so_Nonce : string;
  so_FeeRateBps : string;
  so_Side : OrderSide;
  so_SignatureType : Z;
  so_Signature : string
}.

Record CreateOrderOptions := {
  TickSize_ : TickSize;
  NegRisk : bool
}.

Record ContractConfig := {
  Exchange : string;
  Collateral : string;
  ConditionalTokens : string
}.

(** [PerformanceMetrics] without its two time fields. *)
Record PerformanceMetrics := {
  Operation : string;
  Success : bool;
  Error : string
}.

End types.

(* ================================================================== *)
(** ** Libraries outside the repository *)

(** [common.Address]: a 20-byte array. *)
Record Address := {
  Bytes : list byte;
  Bytes_length : List.length Bytes = 20%nat
}.

(** The functions of go-ethereum and of the Go standard library that the
    code calls and whose results the properties below do not look into. *)
Class Libraries := {
  (** [crypto.Keccak256] *)
  Keccak256 : list byte -> list byte;
  (** [common.HexToAddress] *)
  HexToAddress : string -> Address;
  (** [Address.Hex] *)
  Address_Hex : Address -> string;
  (** [*ecdsa.PrivateKey] *)
  PrivateKey : Type;
  (** [crypto.Sign(digest, key)] *)
  crypto_Sign : list byte -> PrivateKey -> result (list byte);
  (** The value left in the receiver by a failed [SetString], which the
      documentation of math/big leaves undefined. *)
  SetString_undefined : string -> Z;
  (** [hmac.New(sha256.New, key)], [Write(message)], [Sum(nil)] *)
  hmac_sha256 : list byte -> list byte -> list byte;
  (** [base64.URLEncoding.DecodeString] *)
  base64_URLEncoding_DecodeString : string -> result (list byte);
  (** [base64.URLEncoding.EncodeToString] *)
  base64_URLEncoding_EncodeToString : list byte -> string;
  (** The non-nil values an [interface{}] request body can hold. *)
  body_value : Type;
  (** [json.Marshal] *)
  json_Marshal : body_value -> result string
}.

(** What go-ethereum documents of [crypto.Sign]: the signature is the 65
    bytes R, S, V with V equal to 0 or 1. *)
Definition crypto_Sign_contract `{Libraries} : Prop :=
  forall (digest : list byte) (key : PrivateKey) (raw : list byte),
    crypto_Sign digest key = Ok raw ->
    List.length raw = 65%nat /\
    (nth_error raw 64 = Some x00 \/ nth_error raw 64 = Some x01).

(* ================================================================== *)
(** ** Package utils *)

Module utils.

(** The loop [multiplier := 1.0; for i := 0; i < decimals; i++ { multiplier *= 10 }]. *)
Fixpoint times10 (n : nat) (multiplier : float) : float :=
  match n with
  | O => multiplier
  | S n' => times10 n' (multiplier * 10)%float
  end.

Definition multiplier_for (decimals : Z) : float := times10 (Z.to_nat decimals) 1%float.

(** [big.NewFloat(0).SetInt(multiplier)] holds the integer 1000000 exactly. *)
Definition ToTokenDecimals (amount : float) : outcome bigInt :=
  let multiplier := 1000000 in
  bind (big_NewFloat amount) (fun amountBig =>
  let amountBig := bigFloat_Mul amountBig (S754_finite false (Z.to_pos multiplier) 0) in
  let result := bigFloat_Int amountBig in
  Returned result).

Definition RoundDown (value : float) (decimals : Z) : float :=
  let multiplier := multiplier_for decimals in
  (float_of_int (int_of_float (value * multiplier)) / multiplier)%float.

Definition RoundUp (value : float) (decimals : Z) : float :=
  let multiplier := multiplier_for decimals in
  (float_of_int (wrap64 (int_of_float (value * multiplier) + 1)) / multiplier)%float.

Definition RoundNormal (value : float) (decimals : Z) : float :=
  let multiplier := multiplier_for decimals in
  (float_of_int (int_of_float (value * multiplier + 0.5)) / multiplier)%float.

(** [for len(str) > 0 && str[len(str)-1] == '0' { str = str[:len(str)-1] }],
    run on the reversed text. *)
Fixpoint drop_zeros (rev_str : list ascii) : list ascii :=
  match rev_str with
  | c :: rest => if Ascii.eqb c "0" then drop_zeros rest else rev_str
  | [] => []
  end.

Definition trim_trailing_zeros (str : list ascii) : list ascii :=
  rev (drop_zeros (rev str)).

(** [for i, c := range str { if c == '.' { return len(str) - i - 1 } }; return 0]:
    [len_str] is [len(str)], [i] the index of the head of [rest]. *)
Fixpoint scan_point (len_str i : Z) (rest : list ascii) : Z :=
  match rest with
  | c :: rest' => if Ascii.eqb c "." then len_str - i - 1 else scan_point len_str (i + 1) rest'
  | [] => 0
  end.

Definition DecimalPlaces (value : float) : Z :=
  let str := list_ascii_of_string (Sprintf_f 10 value) in
  let str := trim_trailing_zeros str in
  scan_point (Z.of_nat (List.length str)) 0 str.

Definition ParseTickSize (tickSize : types.TickSize) : float :=
  if String.eqb tickSize types.TickSize01 then 0.1%float
  else if String.eqb tickSize types.TickSize001 then 0.01%float
  else if String.eqb tickSize types.TickSize0001 then 0.001%float
  else if String.eqb tickSize types.TickSize00001 then 0.0001%float
  else 0.01%float.

Definition ValidatePrice (price : float) (tickSize : types.TickSize) : bool :=
  let tickSizeFloat := ParseTickSize tickSize in
  (tickSizeFloat <=? price)%float && (price <=? 1.0 - tickSizeFloat)%float.

Definition GetRoundingConfig (tickSize : types.TickSize) : types.RoundConfig :=
  if String.eqb tickSize types.TickSize01 then
    {| types.Price := 1; types.Size := 2; types.Amount := 3 |}
  else if String.eqb tickSize types.TickSize001 then
    {| types.Price := 2; types.Size := 2; types.Amount := 4 |}
  else if String.eqb tickSize types.TickSize0001 then
    {| types.Price := 3; types.Size := 2; types.Amount := 5 |}
  else if String.eqb tickSize types.TickSize00001 then
    {| types.Price := 4; types.Size := 2; types.Amount := 6 |}
  else
    {| types.Price := 2; types.Size := 2; types.Amount := 4 |}.

(** *** Typed-data hashing *)

Section Hashing.
Context `{Libraries}.

Definition bytes_of_string (s : string) : list byte := list_byte_of_string s.

Definition CreateEIP712Hash (domainSeparator structHash : list byte) : list byte :=
  let prefix := [x19; x01] in
  let data := [] in
  let data := (data ++ prefix)%list in
  let data := (data ++ domainSeparator)%list in
  let data := (data ++ structHash)%list in
  Keccak256 data.

(** [new(big.Int)] then [SetString(s, 10)], the returned flag dropped. *)
Definition parse_big (s : string) : bigInt :=
  match SetString10 s with
  | Some n => Some n
  | None => Some (SetString_undefined s)
  end.

(** [make([]byte, 32)] then [copy(buf[12:], addr.Bytes())]. *)
Definition pad_address (addr : Address) : list byte :=
  copy_at (make 32) 12 (Bytes addr).

Definition CreatePolymarketDomain (chainID : Z) (exchangeAddress : string)
  : outcome (list byte) :=
  let domainTypeHash := Keccak256 (bytes_of_string
    "EIP712Domain(string name,string version,uint256 chainId,address verifyingContract)") in
  let nameHash := Keccak256 (bytes_of_string "Polymarket CTF Exchange") in
  let versionHash := Keccak256 (bytes_of_string "1") in
  bind (FillBytes (Some chainID) (make 32)) (fun chainIDBytes =>
  let exchangeAddr := HexToAddress exchangeAddress in
  let exchangeBytes := pad_address exchangeAddr in
  let domain := [] in
  let domain := (domain ++ domainTypeHash)%list in
  let domain := (domain ++ nameHash)%list in
  let domain := (domain ++ versionHash)%list in
  let domain := (domain ++ chainIDBytes)%list in
  let domain := (domain ++ exchangeBytes)%list in
  Returned (Keccak256 domain)).

Definition order_type_string : string :=
  "Order(uint256 salt,address maker,address signer,address taker,uint256 tokenId,uint256 makerAmount,uint256 takerAmount,uint256 expiration,uint256 nonce,uint256 feeRateBps,uint8 side,uint8 signatureType)".

Definition CreateOrderStructHash (orderData : types.OrderData) (salt : Z)
  : outcome (list byte) :=
  let orderTypeHash := Keccak256 (bytes_of_string order_type_string) in
  bind (FillBytes (Some salt) (make 32)) (fun saltBytes =>
  let makerBytes := pad_address (HexToAddress (types.od_Maker orderData)) in
  let signerBytes := pad_address (HexToAddress (types.od_Signer orderData)) in
  let takerBytes := pad_address (HexToAddress (types.od_Taker orderData)) in
  bind (FillBytes (parse_big (types.od_TokenID orderData)) (make 32)) (fun tokenIdBytes =>
  bind (FillBytes (types.od_MakerAmount orderData) (make 32)) (fun makerAmountBytes =>
  bind (FillBytes (types.od_TakerAmount orderData) (make 32)) (fun takerAmountBytes =>
  bind (FillBytes (parse_big (types.od_Expiration orderData)) (make 32)) (fun expirationBytes =>
  bind (FillBytes (parse_big (types.od_Nonce orderData)) (make 32)) (fun nonceBytes =>
  bind (FillBytes (parse_big (types.od_FeeRateBps orderData)) (make 32)) (fun feeRateBytes =>
  bind (store (make 32) 31 (byte_of_Z (types.od_Side orderData))) (fun sideBytes =>
  bind (store (make 32) 31 (byte_of_Z (types.od_SignatureType orderData))) (fun sigTypeBytes =>
  let encoded := [] in
  let encoded := (encoded ++ orderTypeHash)%list in
  let encoded := (encoded ++ saltBytes)%list in
  let encoded := (encoded ++ makerBytes)%list in
  let encoded := (encoded ++ signerBytes)%list in
  let encoded := (encoded ++ takerBytes)%list in
  let encoded := (encoded ++ tokenIdBytes)%list in
  let encoded := (encoded ++ makerAmountBytes)%list in
  let encoded := (encoded ++ takerAmountBytes)%list in
  let encoded := (encoded ++ expirationBytes)%list in
  let encoded := (encoded ++ nonceBytes)%list in
  let encoded := (encoded ++ feeRateBytes)%list in
  let encoded := (encoded ++ sideBytes)%list in
  let encoded := (encoded ++ sigTypeBytes)%list in
  Returned (Keccak256 encoded)))))))))).

Definition CreateOrderEIP712Hash (orderData : types.OrderData) (salt : Z)
    (exchangeAddress : string) (chainID : Z) : outcome (list byte) :=
  bind (CreatePolymarketDomain chainID exchangeAddress) (fun domainSeparator =>
  bind (CreateOrderStructHash orderData salt) (fun orderStructHash =>
  Returned (CreateEIP712Hash domainSeparator orderStructHash))).

End Hashing.

End utils.

(* ================================================================== *)
(** ** Package signer *)

Module signer.
Section Signer.
Context `{Libraries}.

Record Signer := {
  privateKey : PrivateKey;
  address : Address;
  chainID : Z;
  metrics : list types.PerformanceMetrics
}.

Definition recordMetric (s : Signer) (operation : string) (success : bool)
    (errorMsg : string) : Signer :=
  let metric := {| types.Operation := operation;
                   types.Success := success;
                   types.Error := errorMsg |} in
  {| privateKey := privateKey s;
     address := address s;
     chainID := chainID s;
     metrics := (metrics s ++ [metric])%list |}.

Definition AddressHex (s : Signer) : string := Address_Hex (address s).

Definition ChainID (s : Signer) : Z := chainID s.

Definition Sign (s : Signer) (messageHash : list byte)
  : outcome (result (list byte) * Signer) :=
  match crypto_Sign messageHash (privateKey s) with
  | Err err =>
      let s := recordMetric s "message_signing" false err in
      Returned (Err ("failed to sign message: " ++ err), s)
  | Ok signature =>
      bind (load signature 64) (fun v =>
      bind (if Z_of_byte v <? 27
            then store signature 64 (byte_of_Z (Z_of_byte v + 27))
            else Returned signature) (fun signature =>
      let s := recordMetric s "message_signing" true "" in
      Returned (Ok signature, s)))
  end.

End Signer.
End signer.

(* ================================================================== *)
(** ** Package orderbuilder *)

Module orderbuilder.
Section OrderBuilder.
Context `{Libraries}.

(** The builder holds a pointer to its signer; the signer's state is
    threaded with the builder's. *)
Record OrderBuilder := {
  signer_ : signer.Signer;
  signatureType : Z;
  funder : string;
  metrics : list types.PerformanceMetrics
}.

Definition with_signer (ob : OrderBuilder) (s : signer.Signer) : OrderBuilder :=
  {| signer_ := s;
     signatureType := signatureType ob;
     funder := funder ob;
     metrics := metrics ob |}.

Definition recordMetric (ob : OrderBuilder) (operation : string) (success : bool)
    (errorMsg : string) : OrderBuilder :=
  let metric := {| types.Operation := operation;
                   types.Success := success;
                   types.Error := errorMsg |} in
  {| signer_ := signer_ ob;
     signatureType := signatureType ob;
     funder := funder ob;
     metrics := (metrics ob ++ [metric])%list |}.

Definition getOrderAmounts (ob : OrderBuilder) (side : types.OrderSide)
    (size price : float) (tickSize : types.TickSize)
  : outcome (result (Z * bigInt * bigInt) * OrderBuilder) :=
  let roundConfig := utils.GetRoundingConfig tickSize in
  let rawPrice := utils.RoundNormal price (types.Price roundConfig) in
  if String.eqb side types.BUY then
    let sideInt := 0 in
    let rawTakerAmt := utils.RoundDown size (types.Size roundConfig) in
    let rawMakerAmt := (rawTakerAmt * rawPrice)%float in
    let rawMakerAmt :=
      if utils.DecimalPlaces rawMakerAmt >? types.Amount roundConfig then
        let rawMakerAmt := utils.RoundUp rawMakerAmt (wrap64 (types.Amount roundConfig + 4)) in
        if utils.DecimalPlaces rawMakerAmt >? types.Amount roundConfig then
          utils.RoundDown rawMakerAmt (types.Amount roundConfig)
        else rawMakerAmt
      else rawMakerAmt in
    bind (utils.ToTokenDecimals rawMakerAmt) (fun makerAmount =>
    bind (utils.ToTokenDecimals rawTakerAmt) (fun takerAmount =>
    let ob := recordMetric ob "order_amounts_calculation" true "" in
    Returned (Ok (sideInt, makerAmount, takerAmount), ob)))
  else if String.eqb side types.SELL then
    let sideInt := 1 in
    let rawMakerAmt := utils.RoundDown size (types.Size roundConfig) in
    let rawTakerAmt := (rawMakerAmt * rawPrice)%float in
    let rawTakerAmt :=
      if utils.DecimalPlaces rawTakerAmt >? types.Amount roundConfig then
        let rawTakerAmt := utils.RoundUp rawTakerAmt (wrap64 (types.Amount roundConfig + 4)) in
        if utils.DecimalPlaces rawTakerAmt >? types.Amount roundConfig then
          utils.RoundDown rawTakerAmt (types.Amount roundConfig)
        else rawTakerAmt
      else rawTakerAmt in
    bind (utils.ToTokenDecimals rawMakerAmt) (fun makerAmount =>
    bind (utils.ToTokenDecimals rawTakerAmt) (fun takerAmount =>
    let ob := recordMetric ob "order_amounts_calculation" true "" in
    Returned (Ok (sideInt, makerAmount, takerAmount), ob)))
  else
    let ob := recordMetric ob "order_amounts_calculation" false "invalid side" in
    Returned (Err ("invalid order side: " ++ side), ob).

Definition getMarketOrderAmounts (ob : OrderBuilder) (side : types.OrderSide)
    (amount price : float) (tickSize : types.TickSize)
  : outcome (result (Z * bigInt * bigInt) * OrderBuilder) :=
  let roundConfig := utils.GetRoundingConfig tickSize in
  let rawPrice := utils.RoundNormal price (types.Price roundConfig) in
  if String.eqb side types.BUY then
    let sideInt := 0 in
    let rawMakerAmt := utils.RoundDown amount (types.Size roundConfig) in
    let rawTakerAmt := (rawMakerAmt / rawPrice)%float in
    let rawTakerAmt :=
      if utils.DecimalPlaces rawTakerAmt >? types.Amount roundConfig then
        let rawTakerAmt := utils.RoundUp rawTakerAmt (wrap64 (types.Amount roundConfig + 4)) in
        if utils.DecimalPlaces rawTakerAmt >? types.Amount roundConfig then
          utils.RoundDown rawTakerAmt (types.Amount roundConfig)
        else rawTakerAmt
      else rawTakerAmt in
    bind (utils.ToTokenDecimals rawMakerAmt) (fun makerAmount =>
    bind (utils.ToTokenDecimals rawTakerAmt) (fun takerAmount =>
    let ob := recordMetric ob "market_order_amounts_calculation" true "" in
    Returned (Ok (sideInt, makerAmount, takerAmount), ob)))
  else if String.eqb side types.SELL then
    let sideInt := 1 in
    let rawMakerAmt := utils.RoundDown amount (types.Size roundConfig) in
    let rawTakerAmt := (rawMakerAmt * rawPrice)%float in
    let rawTakerAmt :=
      if utils.DecimalPlaces rawTakerAmt >? types.Amount roundConfig then
        let rawTakerAmt := utils.RoundUp rawTakerAmt (wrap64 (types.Amount roundConfig + 4)) in
        if utils.DecimalPlaces rawTakerAmt >? types.Amount roundConfig then
          utils.RoundDown rawTakerAmt (types.Amount roundConfig)
        else rawTakerAmt
      else rawTakerAmt in
    bind (utils.ToTokenDecimals rawMakerAmt) (fun makerAmount =>
    bind (utils.ToTokenDecimals rawTakerAmt) (fun takerAmount =>
    let ob := recordMetric ob "market_order_amounts_calculation" true "" in
    Returned (Ok (sideInt, makerAmount, takerAmount), ob)))
  else
    let ob := recordMetric ob "market_order_amounts_calculation" false "invalid side" in
    Returned (Err ("invalid order side: " ++ side), ob).

(** [now] is what [time.Now().Unix()] returns and [random] what
    [rand.Float64()] returns during the call. *)
Definition signOrder (ob : OrderBuilder) (now : Z) (random : float)
    (orderData : types.OrderData) (exchangeAddress : string)
  : outcome (result types.SignedOrder * OrderBuilder) :=
  let now := float_of_int now in
  let salt := int_of_float (now * random) in
  bind (utils.CreateOrderEIP712Hash orderData salt exchangeAddress
          (signer.ChainID (signer_ ob))) (fun orderHash =>
  bind (signer.Sign (signer_ ob) orderHash) (fun '(signed, s) =>
  let ob := with_signer ob s in
  match signed with
  | Err err =>
      let ob := recordMetric ob "order_signing" false err in
      Returned (Err ("failed to sign order hash: " ++ err), ob)
  | Ok signature =>
      let sideStr := if types.od_Side orderData =? 0 then types.BUY else types.SELL in
      let signedOrder :=
        {| types.so_Salt := salt;
           types.so_Maker := types.od_Maker orderData;
           types.so_Signer := types.od_Signer orderData;
           types.so_Taker := types.od_Taker orderData;
           types.so_TokenID := types.od_TokenID orderData;
           types.so_MakerAmount := bigInt_String (types.od_MakerAmount orderData);
           types.so_TakerAmount := bigInt_String (types.od_TakerAmount orderData);
           types.so_Expiration := types.od_Expiration orderData;
           types.so_Nonce := types.od_Nonce orderData;
           types.so_FeeRateBps := types.od_FeeRateBps orderData;
           types.so_Side := sideStr;
           types.so_SignatureType := types.od_SignatureType orderData;
           types.so_Signature := "0x" ++ Sprintf_x signature |} in
      let ob := recordMetric ob "order_signing" true "" in
      Returned (Ok signedOrder, ob)
  end)).

Definition CreateOrder (ob : OrderBuilder) (now : Z) (random : float)
    (orderArgs : types.OrderArgs) (options : types.CreateOrderOptions)
    (exchangeAddress : string)
  : outcome (result types.SignedOrder * OrderBuilder) :=
  bind (getOrderAmounts ob (types.oa_Side orderArgs) (types.oa_Size orderArgs)
          (types.oa_Price orderArgs) (types.TickSize_ options)) (fun '(amounts, ob) =>
  match amounts with
  | Err err =>
      let ob := recordMetric ob "order_creation" false err in
      Returned (Err ("failed to calculate order amounts: " ++ err), ob)
  | Ok (side, makerAmount, takerAmount) =>
      let orderData :=
        {| types.od_Maker := funder ob;
           types.od_Taker := types.oa_Taker orderArgs;
           types.od_TokenID := types.oa_TokenID orderArgs;
           types.od_MakerAmount := makerAmount;
           types.od_TakerAmount := takerAmount;
           types.od_Side := side;
           types.od_FeeRateBps := Sprintf_d (types.oa_FeeRateBps orderArgs);
           types.od_Nonce := Sprintf_d (types.oa_Nonce orderArgs);
           types.od_Signer := signer.AddressHex (signer_ ob);
           types.od_Expiration := Sprintf_d (types.oa_Expiration orderArgs);
           types.od_SignatureType := signatureType ob |} in
      bind (signOrder ob now random orderData exchangeAddress) (fun '(signed, ob) =>
      match signed with
      | Err err =>
          let ob := recordMetric ob "order_creation" false err in
          Returned (Err ("failed to sign order: " ++ err), ob)
      | Ok signedOrder =>
          let ob := recordMetric ob "order_creation" true "" in
          Returned (Ok signedOrder, ob)
      end)
  end).

Definition CreateMarketOrder (ob : OrderBuilder) (now : Z) (random : float)
    (orderArgs : types.MarketOrderArgs) (options : types.CreateOrderOptions)
    (exchangeAddress : string)
  : outcome (result types.SignedOrder * OrderBuilder) :=
  bind (getMarketOrderAmounts ob (types.mo_Side orderArgs) (types.mo_Amount orderArgs)
          (types.mo_Price orderArgs) (types.TickSize_ options)) (fun '(amounts, ob) =>
  match amounts with
  | Err err =>
      let ob := recordMetric ob "market_order_creation" false err in
      Returned (Err ("failed to calculate market order amounts: " ++ err), ob)
  | Ok (side, makerAmount, takerAmount) =>
      let orderData :=
        {| types.od_Maker := funder ob;
           types.od_Taker := types.mo_Taker orderArgs;
           types.od_TokenID := types.mo_TokenID orderArgs;
           types.od_MakerAmount := makerAmount;
           types.od_TakerAmount := takerAmount;
           types.od_Side := side;
           types.od_FeeRateBps := Sprintf_d (types.mo_FeeRateBps orderArgs);
           types.od_Nonce := Sprintf_d (types.mo_Nonce orderArgs);
           types.od_Signer := signer.AddressHex (signer_ ob);
           types.od_Expiration := "0";
           types.od_SignatureType := signatureType ob |} in
      bind (signOrder ob now random orderData exchangeAddress) (fun '(signed, ob) =>
      match signed with
      | Err err =>
          let ob := recordMetric ob "market_order_creation" false err in
          Returned (Err ("failed to sign market order: " ++ err), ob)
      | Ok signedOrder =>
          let ob := recordMetric ob "market_order_creation" true "" in
          Returned (Ok signedOrder, ob)
      end)
  end).

End OrderBuilder.
End orderbuilder.

(* ================================================================== *)
(** ** Package auth *)

Module auth.

Definition PolyAddress := "POLY_ADDRESS".
Definition PolySignature := "POLY_SIGNATURE".
Definition PolyTimestamp := "POLY_TIMESTAMP".
Definition PolyApiKey := "POLY_API_KEY".
Definition PolyPassphrase := "POLY_PASSPHRASE".

(** [strings.ReplaceAll] of every single quote by a double quote. *)
Fixpoint replace_quotes (s : string) : string :=
  match s with
  | EmptyString => EmptyString
  | String c rest =>
      String (if Ascii.eqb c "'" then ascii_of_nat 34 else c) (replace_quotes rest)
  end.

Section HeaderBuilder.
Context `{Libraries}.

(** [types.RequestArgs]; a nil [Body] is [None]. *)
Record RequestArgs := {
  Method : string;
  RequestPath : string;
  Body : option body_value
}.

Record HeaderBuilder := {
  signer_ : signer.Signer;
  metrics : list types.PerformanceMetrics
}.

Definition recordMetric (h : HeaderBuilder) (operation : string) (success : bool)
    (errorMsg : string) : HeaderBuilder :=
  let metric := {| types.Operation := operation;
                   types.Success := success;
                   types.Error := errorMsg |} in
  {| signer_ := signer_ h;
     metrics := (metrics h ++ [metric])%list |}.

Definition buildHMACSignature (h : HeaderBuilder) (secret : string) (timestamp : Z)
    (requestArgs : RequestArgs) : result string * HeaderBuilder :=
  match base64_URLEncoding_DecodeString secret with
  | Err err =>
      let h := recordMetric h "hmac_signature_build" false err in
      (Err ("failed to decode secret: " ++ err), h)
  | Ok decodedSecret =>
      let message := Sprintf_d timestamp ++ Method requestArgs ++ RequestPath requestArgs in
      let with_body :=
        match Body requestArgs with
        | Some body =>
            match json_Marshal body with
            | Err err => Err err
            | Ok bodyBytes =>
                let bodyStr := replace_quotes bodyBytes in
                Ok (message ++ bodyStr)
            end
        | None => Ok message
        end in
      match with_body with
      | Err err =>
          let h := recordMetric h "hmac_signature_build" false err in
          (Err ("failed to marshal body: " ++ err), h)
      | Ok message =>
          let signature := hmac_sha256 decodedSecret (list_byte_of_string message) in
          let encodedSignature := base64_URLEncoding_EncodeToString signature in
          let h := recordMetric h "hmac_signature_build" true "" in
          (Ok encodedSignature, h)
      end
  end.

(** [timestamp] is what [time.Now().Unix()] returns during the call; the
    header map is the list of its entries. *)
Definition CreateLevel2Headers (h : HeaderBuilder) (timestamp : Z)
    (creds : types.ApiCreds) (requestArgs : RequestArgs)
  : result (list (string * string)) * HeaderBuilder :=
  let '(built, h) := buildHMACSignature h (types.ApiSecret creds) timestamp requestArgs in
  match built with
  | Err err =>
      let h := recordMetric h "level2_headers_creation" false err in
      (Err ("failed to build HMAC signature: " ++ err), h)
  | Ok hmacSig =>
      let headers :=
        [ (PolyAddress, signer.AddressHex (signer_ h));
          (PolySignature, hmacSig);
          (PolyTimestamp, Sprintf_d timestamp);
          (PolyApiKey, types.ApiKey creds);
          (PolyPassphrase, types.ApiPassphrase creds) ] in
      let h := recordMetric h "level2_headers_creation" true "" in
      (Ok headers, h)
  end.

End HeaderBuilder.
End auth.

(* ================================================================== *)
(** ** Package client: the price gate of order creation *)

Module client.

(** [contractConfigs] *)
Definition contractConfigs (chainID : Z) : option types.ContractConfig :=
  if chainID =? 80002 then
    Some {| types.Exchange := "0xdFE02Eb6733538f8Ea35D585af8DE5958AD99E40";
            types.Collateral := "0x9c4e1703476e875070ee25b56a58b008cfb8fa78";
            types.ConditionalTokens := "0x69308FB512518e39F9b16112fA8d994F4e2Bf8bB" |}
  else if chainID =? 137 then
    Some {| types.Exchange := "0x4bFb41d5B3570DeFd03C39a9A4D8dE6Bd8B8982E";
            types.Collateral := "0x2791Bca1f2de4661ED88A30C99A7a9449Aa84174";
            types.ConditionalTokens := "0x4D97DCd97eC945f40cF65F87097ACe5EA0476045" |}
  else None.

(** [negRiskContractConfigs] *)
Definition negRiskContractConfigs (chainID : Z) : option types.ContractConfig :=
  if chainID =? 80002 then
    Some {| types.Exchange := "0xd91E80cF2E7be2e162c6513ceD06f1dD0dA35296";
            types.Collateral := "0x9c4e1703476e875070ee25b56a58b008cfb8fa78";
            types.ConditionalTokens := "0x69308FB512518e39F9b16112fA8d994F4e2Bf8bB" |}
  else if chainID =? 137 then
    Some {| types.Exchange := "0xC5d563A36AE78145C45a50134d48A1215220f80a";
            types.Collateral := "0x2791bca1f2de4661ed88a30c99a7a9449aa84174";
            types.ConditionalTokens := "0x4D97DCd97eC945f40cF65F87097ACe5EA0476045" |}
  else None.

Section ClobClient.
Context `{Libraries}.

(** The fields order creation reads or writes; [orderBuilder] is nil
    when the client was made without a private key. *)
Record ClobClient := {
  chainID : Z;
  authLevel : types.AuthLevel;
  orderBuilder : option orderbuilder.OrderBuilder;
  metrics : list types.PerformanceMetrics
}.

Definition recordMetric (c : ClobClient) (operation : string) (success : bool)
    (errorMsg : string) : ClobClient :=
  let metric := {| types.Operation := operation;
                   types.Success := success;
                   types.Error := errorMsg |} in
  {| chainID := chainID c;
     authLevel := authLevel c;
     orderBuilder := orderBuilder c;
     metrics := (metrics c ++ [metric])%list |}.

Definition with_orderBuilder (c : ClobClient) (ob : orderbuilder.OrderBuilder)
  : ClobClient :=
  {| chainID := chainID c;
     authLevel := authLevel c;
     orderBuilder := Some ob;
     metrics := metrics c |}.

(** Market-data retrieval (HTTP and its caches) is a collaborator of
    order creation: [GetTickSize] and [GetNegRisk] are taken as given. *)
Variable GetTickSize : ClobClient -> string -> result types.TickSize * ClobClient.
Variable GetNegRisk : ClobClient -> string -> result bool * ClobClient.

(** A nil [options] is [None]. *)
Definition resolveOrderOptions (c : ClobClient) (tokenID : string)
    (options : option types.CreateOrderOptions)
  : result types.CreateOrderOptions * ClobClient :=
  let options :=
    match options with
    | None => {| types.TickSize_ := ""; types.NegRisk := false |}
    | Some o => o
    end in
  let '(ticked, c) :=
    if String.eqb (types.TickSize_ options) "" then
      let '(got, c) := GetTickSize c tokenID in
      match got with
      | Err err => (Err err, c)
      | Ok tickSize =>
          (Ok {| types.TickSize_ := tickSize; types.NegRisk := types.NegRisk options |}, c)
      end
    else (Ok options, c) in
  match ticked with
  | Err err => (Err err, c)
  | Ok options =>
      let '(got, c) := GetNegRisk c tokenID in
      match got with
      | Err err => (Err err, c)
      | Ok negRisk =>
          (Ok {| types.TickSize_ := types.TickSize_ options; types.NegRisk := negRisk |}, c)
      end
  end.

Definition CreateOrder (c : ClobClient) (now : Z) (random : float)
    (orderArgs : types.OrderArgs) (options : option types.CreateOrderOptions)
  : outcome (result types.SignedOrder * ClobClient) :=
  if authLevel c <? types.L1 then
    let c := recordMetric c "order_creation" false "insufficient auth level" in
    Returned (Err "Level 1 authentication required", c)
  else
    let '(resolved, c) := resolveOrderOptions c (types.oa_TokenID orderArgs) options in
    match resolved with
    | Err err =>
        let c := recordMetric c "order_creation" false err in
        Returned (Err ("failed to resolve order options: " ++ err), c)
    | Ok resolvedOptions =>
        if negb (utils.ValidatePrice (types.oa_Price orderArgs)
                   (types.TickSize_ resolvedOptions)) then
          let c := recordMetric c "order_creation" false "invalid price" in
          Returned (Err ("invalid price " ++ Sprintf_f 6 (types.oa_Price orderArgs)
                           ++ " for tick size " ++ types.TickSize_ resolvedOptions), c)
        else
          let found :=
            if types.NegRisk resolvedOptions
            then negRiskContractConfigs (chainID c)
            else contractConfigs (chainID c) in
          match found with
          | None =>
              let c := recordMetric c "order_creation" false "unsupported chain" in
              Returned (Err ("unsupported chain ID: " ++ Sprintf_d (chainID c)), c)
          | Some contractConfig =>
              match orderBuilder c with
              | None => Panicked "nil pointer dereference"
              | Some ob =>
                  bind (orderbuilder.CreateOrder ob now random orderArgs resolvedOptions
                          (types.Exchange contractConfig)) (fun '(created, ob) =>
                  let c := with_orderBuilder c ob in
                  match created with
                  | Err err =>
                      let c := recordMetric c "order_creation" false err in
                      Returned (Err ("failed to create order: " ++ err), c)
                  | Ok signedOrder =>
                      let c := recordMetric c "order_creation" true "" in
                      Returned (Ok signedOrder, c)
                  end)
              end
          end
    end.

End ClobClient.
End client.

(* ================================================================== *)
(** ** The specification side: the algorithms as worded, and what the code computes *)

Module Spec.

(** [10^decimals] as a float64. *)
Definition scale (decimals : Z) : float := float_of_int (10 ^ decimals).

(** *** Rounding to a number of decimals *)

(** The greatest whole number that is at most a finite float. *)
Definition SFfloor (v : spec_float) : option Z :=
  match v with
  | S754_zero _ => Some 0
  | S754_finite s m e =>
      match e with
      | Zneg p =>
          let q := Zpos m / 2 ^ Zpos p in
          let r := Zpos m mod 2 ^ Zpos p in
          Some (if s then (if r =? 0 then - q else - q - 1) else q)
      | _ => Some (if s then - (Zpos m * 2 ^ e) else Zpos m * 2 ^ e)
      end
  | S754_infinity _ | S754_nan => None
  end.

(** The least whole number that is at least a finite float. *)
Definition SFceiling (v : spec_float) : option Z :=
  match v with
  | S754_zero _ => Some 0
  | S754_finite s m e =>
      match e with
      | Zneg p =>
          let q := Zpos m / 2 ^ Zpos p in
          let r := Zpos m mod 2 ^ Zpos p in
          Some (if s then - q else (if r =? 0 then q else q + 1))
      | _ => Some (if s then - (Zpos m * 2 ^ e) else Zpos m * 2 ^ e)
      end
  | S754_infinity _ | S754_nan => None
  end.


(** [x] moved onto the grid of [decimals] decimals: its scaled value
    [x * 10^decimals] gives way to the whole number [whole] finds for it,
    which is divided by [10^decimals] again; a scaled value that is a NaN or
    an infinity has no whole number and is divided as it is. *)
Definition to_grid (whole : spec_float -> option Z) (x : float) (decimals : Z) : float :=
  let scaled := (x * scale decimals)%float in
  match whole (Prim2SF scaled) with
  | Some n => (float_of_int n / scale decimals)%float
  | None => (scaled / scale decimals)%float
  end.

(** Rounding down: to the greatest multiple of [10^-decimals] at most [x]. *)
Definition round_down : float -> Z -> float := to_grid SFfloor.

(** Rounding up: to the least multiple of [10^-decimals] at least [x]. *)
Definition round_up : float -> Z -> float := to_grid SFceiling.



(** How many of the [k] low decimal digits of [n] are zero, counted from the
    last one up to the first that is not. *)
Fixpoint trailing_zeros (k : nat) (n : Z) : nat :=
  match k with
  | O => O
  | S k' => if n mod 10 =? 0 then S (trailing_zeros k' (n / 10)) else O
  end.

(** The decimal-place count of [x]: [x] is taken to the nearest decimal
    with ten fractional digits (ties to even) and the count is the position
    of its last fractional digit that is not zero; it is zero for a zero, a
    NaN and an infinity. *)
Definition decimal_places (x : float) : Z :=
  match Prim2SF x with
  | S754_finite _ m e =>
      10 - Z.of_nat (trailing_zeros 10 (scaled_decimal 10 m e mod 10 ^ 10))
  | _ => 0
  end.

(** The two-stage precision repair of a derived leg, [raise] being its
    first stage. *)
Definition repair (raise : float -> Z -> float) (profile : types.RoundConfig)
    (leg : float) : float :=
  if types.Amount profile <? decimal_places leg then
    let raised := raise leg (types.Amount profile + 4) in
    if types.Amount profile <? decimal_places raised
    then round_down raised (types.Amount profile)
    else raised
  else leg.

(** The repair as the specification words it: round up, then round down. *)
Definition precision_repair : types.RoundConfig -> float -> float := repair round_up.

(** A decimal leg as a [10^6]-scaled integer: the product with [10^6] in
    53-bit arithmetic, truncated toward zero; NaN has no integer and an
    infinity gives none. *)
Definition scaled_integer (leg : float) : outcome bigInt :=
  match Prim2SF leg with
  | S754_nan => Panicked "NewFloat(NaN)"
  | v => Returned (SFtrunc (SFmul prec big_emax v (S754_finite false 1000000 0)))
  end.

(** What an amount computation yields: side ordinal, maker amount, taker
    amount. *)
Definition amounts (side_ordinal : Z) (maker_leg taker_leg : float)
  : outcome (Z * bigInt * bigInt) :=
  bind (scaled_integer maker_leg) (fun maker =>
  bind (scaled_integer taker_leg) (fun taker =>
  Returned (side_ordinal, maker, taker))).

Inductive side := Buy | Sell.

(** The transport string of a side. *)
Definition wire (s : side) : types.OrderSide :=
  match s with
  | Buy => "BUY"
  | Sell => "SELL"
  end.

(** The ordinal of a side inside the signed struct. *)
Definition ordinal (s : side) : Z :=
  match s with
  | Buy => 0
  | Sell => 1
  end.





(** *** What the rounding helpers of the code compute

    The float64 expressions of [utils.RoundDown], [utils.RoundUp] and
    [utils.RoundNormal] with [10^decimals] for the multiplier their loop
    builds, and the two amount computations made of them. *)

(** [float64(int(x * 10^d)) / 10^d] *)
Definition computed_round_down (x : float) (decimals : Z) : float :=
  (float_of_int (int_of_float (x * scale decimals)) / scale decimals)%float.

(** [float64(int(x * 10^d) + 1) / 10^d] *)
Definition computed_round_up (x : float) (decimals : Z) : float :=
  (float_of_int (int_of_float (x * scale decimals) + 1) / scale decimals)%float.

(** [float64(int(x * 10^d + 0.5)) / 10^d] *)
Definition computed_round_normal (x : float) (decimals : Z) : float :=
  (float_of_int (int_of_float (x * scale decimals + 0.5)) / scale decimals)%float.

Definition computed_repair (profile : types.RoundConfig) (leg : float) : float :=
  if types.Amount profile <? decimal_places leg then
    let raised := computed_round_up leg (types.Amount profile + 4) in
    if types.Amount profile <? decimal_places raised
    then computed_round_down raised (types.Amount profile)
    else raised
  else leg.

Definition computed_limit_amounts (s : side) (size price : float)
    (profile : types.RoundConfig) : outcome (Z * bigInt * bigInt) :=
  let rounded_price := computed_round_normal price (types.Price profile) in
  match s with
  | Buy =>
      let taker_leg := computed_round_down size (types.Size profile) in
      let maker_leg := computed_repair profile (taker_leg * rounded_price)%float in
      amounts 0 maker_leg taker_leg
  | Sell =>
      let maker_leg := computed_round_down size (types.Size profile) in
      let taker_leg := computed_repair profile (maker_leg * rounded_price)%float in
      amounts 1 maker_leg taker_leg
  end.

Definition computed_market_amounts (s : side) (amount price : float)
    (profile : types.RoundConfig) : outcome (Z * bigInt * bigInt) :=
  let rounded_price := computed_round_normal price (types.Price profile) in
  let maker_leg := computed_round_down amount (types.Size profile) in
  match s with
  | Buy =>
      let taker_leg := computed_repair profile (maker_leg / rounded_price)%float in
      amounts 0 maker_leg taker_leg
  | Sell =>
      let taker_leg := computed_repair profile (maker_leg * rounded_price)%float in
      amounts 1 maker_leg taker_leg
  end.

(** The four tick sizes the venue publishes. *)
Definition recognized (tickSize : types.TickSize) : Prop :=
  In tickSize ["0.1"; "0.01"; "0.001"; "0.0001"].

(** The least price of a recognized tick size: the tick itself. *)
Definition least_price (tickSize : types.TickSize) : float :=
  if String.eqb tickSize "0.1" then 0.1
  else if String.eqb tickSize "0.01" then 0.01
  else if String.eqb tickSize "0.001" then 0.001
  else 0.0001.

(** The greatest price of a recognized tick size: one minus the tick. *)
Definition greatest_price (tickSize : types.TickSize) : float :=
  if String.eqb tickSize "0.1" then 0.9
  else if String.eqb tickSize "0.01" then 0.99
  else if String.eqb tickSize "0.001" then 0.999
  else 0.9999.

(** [price] lies strictly outside the closed interval of [tickSize]. *)
Definition strictly_outside (price : float) (tickSize : types.TickSize) : Prop :=
  (price <? least_price tickSize)%float = true \/
  (greatest_price tickSize <? price)%float = true.

(** The text before the first point of [text], and the text after it. *)
Fixpoint split_at_point (text : string) : string * string :=
  match text with
  | EmptyString => (EmptyString, EmptyString)
  | String c rest =>
      if Ascii.eqb c "." then (EmptyString, rest)
      else let '(whole, fraction) := split_at_point rest in (String c whole, fraction)
  end.

(** The number a decimal text denotes, as the nearest float64: its digits
    read as one integer, divided by ten to the number of digits after the
    point; none when a character is no digit (the first point apart) or the
    text is empty. *)
Definition decimal_value (text : string) : option float :=
  let '(whole, fraction) := split_at_point text in
  match whole ++ fraction with
  | EmptyString => None
  | digits =>
      match scan_digits 0 digits with
      | Some n => Some (float_of_int n / scale (Z.of_nat (String.length fraction)))%float
      | None => None
      end
  end.

(** The specification's boundary property, read literally: whatever number
    the tick size is, validation accepts exactly the prices from the tick
    to one minus the tick. *)
Definition price_gate_as_worded : Prop :=
  forall (price : float) (tickSize : types.TickSize) (tick : float),
    decimal_value tickSize = Some tick ->
    (utils.ValidatePrice price tickSize = true <->
       (tick <=? price)%float = true /\ (price <=? 1 - tick)%float = true).

(** The error order creation gives for a rejected price. *)
Definition InvalidPrice (price : float) (tickSize : types.TickSize) : string :=
  "invalid price " ++ Sprintf_f 6 price ++ " for tick size " ++ tickSize.

(** *** Typed-data encoding *)

Definition uint256 (n : Z) : Prop := 0 <= n < 2 ^ 256.
Definition uint8 (n : Z) : Prop := 0 <= n < 2 ^ 8.

(** The [width] low base-256 digits of [n], most significant first. *)
Fixpoint big_endian (width : nat) (n : Z) : list byte :=
  match width with
  | O => []
  | S width' => (big_endian width' (n / 256) ++ [byte_of_Z n])%list
  end.

(** The integer a big-endian byte string denotes. *)
Definition big_endian_value (bytes : list byte) : Z :=
  fold_left (fun acc b => 256 * acc + Z_of_byte b) bytes 0.

Definition encode_uint256 (n : Z) : list byte := big_endian 32 n.

Definition encode_address (a : Address) : list byte := (repeat x00 12 ++ Bytes a)%list.

Definition encode_uint8 (n : Z) : list byte := (repeat x00 31 ++ [byte_of_Z n])%list.

(** The order struct with its fields typed as the venue's schema types them. *)
Record Order := {
  salt : Z;
  maker : Address;
  signer : Address;
  taker : Address;
  tokenId : Z;
  makerAmount : Z;
  takerAmount : Z;
  expiration : Z;
  nonce : Z;
  feeRateBps : Z;
  order_side : Z;
  signatureType : Z
}.

Definition well_typed (o : Order) : Prop :=
  uint256 (salt o) /\ uint256 (tokenId o) /\ uint256 (makerAmount o) /\
  uint256 (takerAmount o) /\ uint256 (expiration o) /\ uint256 (nonce o) /\
  uint256 (feeRateBps o) /\ uint8 (order_side o) /\ uint8 (signatureType o).

(** The twelve encoded fields in their declared order. *)
Definition order_fields (o : Order) : list (list byte) :=
  [ encode_uint256 (salt o);
    encode_address (maker o);
    encode_address (signer o);
    encode_address (taker o);
    encode_uint256 (tokenId o);
    encode_uint256 (makerAmount o);
    encode_uint256 (takerAmount o);
    encode_uint256 (expiration o);
    encode_uint256 (nonce o);
    encode_uint256 (feeRateBps o);
    encode_uint8 (order_side o);
    encode_uint8 (signatureType o) ].

Section TypedData.
Context `{Libraries}.

Definition order_type_hash : list byte :=
  Keccak256 (list_byte_of_string utils.order_type_string).

Definition struct_hash (o : Order) : list byte :=
  Keccak256 (order_type_hash ++ List.concat (order_fields o))%list.

Definition order_domain (chainID : Z) (exchange : Address) : list byte :=
  Keccak256
    (Keccak256 (list_byte_of_string
       "EIP712Domain(string name,string version,uint256 chainId,address verifyingContract)")
     ++ Keccak256 (list_byte_of_string "Polymarket CTF Exchange")
     ++ Keccak256 (list_byte_of_string "1")
     ++ encode_uint256 chainID
     ++ encode_address exchange)%list.

Definition signing_digest (domainSeparator structHash : list byte) : list byte :=
  Keccak256 ([x19; x01] ++ domainSeparator ++ structHash)%list.

(** The order data of the code, with its decimal strings and hex addresses,
    read as the typed order [o] with the given salt. *)
Definition reads_as (orderData : types.OrderData) (order_salt : Z) (o : Order) : Prop :=
  salt o = order_salt
  /\ maker o = HexToAddress (types.od_Maker orderData)
  /\ signer o = HexToAddress (types.od_Signer orderData)
  /\ taker o = HexToAddress (types.od_Taker orderData)
  /\ SetString10 (types.od_TokenID orderData) = Some (tokenId o)
  /\ types.od_MakerAmount orderData = Some (makerAmount o)
  /\ types.od_TakerAmount orderData = Some (takerAmount o)
  /\ SetString10 (types.od_Expiration orderData) = Some (expiration o)
  /\ SetString10 (types.od_Nonce orderData) = Some (nonce o)
  /\ SetString10 (types.od_FeeRateBps orderData) = Some (feeRateBps o)
  /\ order_side o = types.od_Side orderData
  /\ signatureType o = types.od_SignatureType orderData.

End TypedData.


(** *** Level-2 headers *)

Section Level2.
Context `{Libraries}.

(** The error of header construction for a secret that does not decode. *)
Definition InvalidCredentialSecret (err : string) : string :=
  "failed to build HMAC signature: failed to decode secret: " ++ err.

(** base64url(HMAC-SHA256(key, message)). *)
Definition level2_signature (key : list byte) (message : string) : string :=
  base64_URLEncoding_EncodeToString (hmac_sha256 key (list_byte_of_string message)).

Definition level2_headers (h : auth.HeaderBuilder) (timestamp : Z)
    (creds : types.ApiCreds) (signature : string) : list (string * string) :=
  [ ("POLY_ADDRESS", signer.AddressHex (auth.signer_ h));
    ("POLY_SIGNATURE", signature);
    ("POLY_TIMESTAMP", Sprintf_d timestamp);
    ("POLY_API_KEY", types.ApiKey creds);
    ("POLY_PASSPHRASE", types.ApiPassphrase creds) ].

(** The specification's sentence on Level-2 headers, read literally:
    construction fails with
    [InvalidCredentialSecret] when the secret does not decode and otherwise
    yields the signature over timestamp, method, path and the body term,
    which is empty when no body is supplied. *)
Definition level2_as_worded (h : auth.HeaderBuilder) (timestamp : Z)
    (creds : types.ApiCreds) (requestArgs : auth.RequestArgs) : Prop :=
  match base64_URLEncoding_DecodeString (types.ApiSecret creds) with
  | Err err =>
      fst (auth.CreateLevel2Headers h timestamp creds requestArgs)
        = Err (InvalidCredentialSecret err)
  | Ok key =>
      exists body_term : string,
        (auth.Body requestArgs = None -> body_term = "")
        /\ fst (auth.CreateLevel2Headers h timestamp creds requestArgs)
           = Ok (level2_headers h timestamp creds
                   (level2_signature key
                      (Sprintf_d timestamp ++ auth.Method requestArgs
                         ++ auth.RequestPath requestArgs ++ body_term)))
  end.

End Level2.

(** *** Salts *)

Section Salts.
Context `{Libraries}.

(** The specification's invariant on salts, read literally: two distinct
    signed orders that one
    builder produces one after the other have different salts. *)
Definition salts_unique_as_worded : Prop :=
  forall (ob ob1 ob2 : orderbuilder.OrderBuilder)
         (now1 now2 : Z) (random1 random2 : float)
         (orderData1 orderData2 : types.OrderData) (exchangeAddress : string)
         (signed1 signed2 : types.SignedOrder),
    orderbuilder.signOrder ob now1 random1 orderData1 exchangeAddress
      = Returned (Ok signed1, ob1) ->
    orderbuilder.signOrder ob1 now2 random2 orderData2 exchangeAddress
      = Returned (Ok signed2, ob2) ->
    signed1 <> signed2 ->
    types.so_Salt signed1 <> types.so_Salt signed2.

End Salts.

(** *** The float-to-integer conversions of an amount computation *)

(** The float whose sign bit is clear or that is a zero or a NaN. *)
Definition SFnonneg (v : spec_float) : Prop :=
  match v with
  | S754_zero _ | S754_nan => True
  | S754_infinity s | S754_finite s _ _ => s = false
  end.

(** The float whose sign bit is clear, or that is a NaN: negative zero is
    left out. *)
Definition SFsign_clear (v : spec_float) : Prop :=
  match v with
  | S754_nan => True
  | S754_zero s | S754_infinity s | S754_finite s _ _ => s = false
  end.

(** A float64 that is at least zero, or a NaN. *)
Definition nonneg (x : float) : Prop := SFnonneg (Prim2SF x).

(** A float64 with a clear sign bit, or a NaN. *)
Definition sign_clear (x : float) : Prop := SFsign_clear (Prim2SF x).

(** The operands of the conversions the repair of [leg] makes. *)
Definition repair_conversions (profile : types.RoundConfig) (leg : float) : list float :=
  if types.Amount profile <? decimal_places leg then
    (leg * scale (types.Amount profile + 4))%float ::
      (let raised := computed_round_up leg (types.Amount profile + 4) in
       if types.Amount profile <? decimal_places raised
       then [(raised * scale (types.Amount profile))%float]
       else [])
  else [].

(** The leg derived from the rounded input and the rounded price: their
    quotient for a market BUY, their product otherwise. *)
Definition derived_leg (market : bool) (s : side) (input_leg rounded_price : float)
  : float :=
  match market, s with
  | true, Buy => (input_leg / rounded_price)%float
  | _, _ => (input_leg * rounded_price)%float
  end.

(** The operands of every conversion of a limit ([market = false]) or
    market amount computation. *)
Definition conversions (market : bool) (s : side) (size price : float)
    (profile : types.RoundConfig) : list float :=
  (price * scale (types.Price profile) + 0.5)%float
  :: (size * scale (types.Size profile))%float
  :: repair_conversions profile
       (derived_leg market s
          (computed_round_down size (types.Size profile))
          (computed_round_normal price (types.Price profile))).

(** The specification's invariant on amounts, read literally: whatever the
    side, size, price
    and tick size, the amounts a limit computation returns are non-negative
    integers. *)
Definition amounts_nonnegative_as_worded `{Libraries} : Prop :=
  forall (ob ob' : orderbuilder.OrderBuilder) (s : side) (size price : float)
         (tickSize : types.TickSize) (side_ordinal : Z) (maker taker : bigInt),
    orderbuilder.getOrderAmounts ob (wire s) size price tickSize
      = Returned (Ok (side_ordinal, maker, taker), ob') ->
    (exists m, maker = Some m /\ 0 <= m) /\ (exists t, taker = Some t /\ 0 <= t).



End Spec.

(* ================================================================== *)
(** ** A concrete setting to run the embedding in *)

Module Sample.

Definition zero_address : Address :=
  {| Bytes := repeat x00 20; Bytes_length := eq_refl |}.

(** Request bodies: a value that serializes to the given JSON text, or a
    channel, which [json.Marshal] rejects. *)
Inductive body :=
| serializable (json : string)
| channel.

(** Stand-ins for the libraries: every digest and MAC is 32 zero bytes,
    every address the zero address, a signature is 64 zero bytes followed by
    the recovery id 1, and the only secret that decodes is the base64url
    text of the word secret. *)
Definition libraries : Libraries :=
  {| Keccak256 := fun _ => repeat x00 32;
     HexToAddress := fun _ => zero_address;
     Address_Hex := fun _ => "0x0000000000000000000000000000000000000000";
     PrivateKey := unit;
     crypto_Sign := fun digest _ =>
       if (List.length digest =? 32)%nat
       then Ok (repeat x00 64 ++ [x01])%list
       else Err "hash is required to be exactly 32 bytes";
     SetString_undefined := fun _ => 0;
     hmac_sha256 := fun _ _ => repeat x00 32;
     base64_URLEncoding_DecodeString := fun s =>
       if String.eqb s "c2VjcmV0"
       then Ok (list_byte_of_string "secret")
       else Err "illegal base64 data at input byte 0";
     base64_URLEncoding_EncodeToString := fun _ =>
       "AAAAAAAAAAAAAAAAAAAAAAAAAAAAAAAAAAAAAAAAAAA=";
     body_value := body;
     json_Marshal := fun b =>
       match b with
       | serializable json => Ok json
       | channel => Err "json: unsupported type: chan int"
       end |}.

Definition a_signer : @signer.Signer libraries :=
  {| signer.privateKey := tt : @PrivateKey libraries;
     signer.address := zero_address;
     signer.chainID := 137;
     signer.metrics := [] |}.

Definition a_builder : @orderbuilder.OrderBuilder libraries :=
  {| orderbuilder.signer_ := a_signer;
     orderbuilder.signatureType := 0;
     orderbuilder.funder := "0x0000000000000000000000000000000000000000";
     orderbuilder.metrics := [] |}.

Definition a_header_builder : @auth.HeaderBuilder libraries :=
  {| auth.signer_ := a_signer; auth.metrics := [] |}.

Definition a_client : @client.ClobClient libraries :=
  {| client.chainID := 137;
     client.authLevel := types.L1;
     client.orderBuilder := Some a_builder;
     client.metrics := [] |}.

(** A BUY of ten shares of token 1234 at [price]. *)
Definition order_at (price : float) : types.OrderArgs :=
  {| types.oa_TokenID := "1234"; types.oa_Price := price; types.oa_Size := 10;
     types.oa_Side := "BUY"; types.oa_FeeRateBps := 0; types.oa_Nonce := 0;
     types.oa_Expiration := 0;
     types.oa_Taker := "0x0000000000000000000000000000000000000000" |}.

(** Market data that answers tick size "0.01" and no neg-risk. *)
Definition tick_001 (c : @client.ClobClient libraries) (tokenID : string)
  : result types.TickSize * @client.ClobClient libraries := (Ok "0.01", c).

Definition not_neg_risk (c : @client.ClobClient libraries) (tokenID : string)
  : result bool * @client.ClobClient libraries := (Ok false, c).

(** The order data of scenario A and the typed order it reads as. *)
Definition order_data : types.OrderData :=
  {| types.od_Maker := "0x0000000000000000000000000000000000000000";
     types.od_Taker := "0x0000000000000000000000000000000000000000";
     types.od_TokenID := "1234";
     types.od_MakerAmount := Some 5500000;
     types.od_TakerAmount := Some 10000000;
     types.od_Side := 0;
     types.od_FeeRateBps := "0";
     types.od_Nonce := "0";
     types.od_Signer := "0x0000000000000000000000000000000000000000";
     types.od_Expiration := "0";
     types.od_SignatureType := 0 |}.

(** The typed order that [order_data] with salt 850000000 reads as. *)
Definition typed_order : Spec.Order :=
  {| Spec.salt := 850000000;
     Spec.maker := zero_address;
     Spec.signer := zero_address;
     Spec.taker := zero_address;
     Spec.tokenId := 1234;
     Spec.makerAmount := 5500000;
     Spec.takerAmount := 10000000;
     Spec.expiration := 0;
     Spec.nonce := 0;
     Spec.feeRateBps := 0;
     Spec.order_side := 0;
     Spec.signatureType := 0 |}.

(** The same order data for another token. *)
Definition other_order_data : types.OrderData :=
  {| types.od_Maker := "0x0000000000000000000000000000000000000000";
     types.od_Taker := "0x0000000000000000000000000000000000000000";
     types.od_TokenID := "5678";
     types.od_MakerAmount := Some 5500000;
     types.od_TakerAmount := Some 10000000;
     types.od_Side := 0;
     types.od_FeeRateBps := "0";
     types.od_Nonce := "0";
     types.od_Signer := "0x0000000000000000000000000000000000000000";
     types.od_Expiration := "0";
     types.od_SignatureType := 0 |}.

Definition credentials : types.ApiCreds :=
  {| types.ApiKey := "key"; types.ApiSecret := "c2VjcmV0";
     types.ApiPassphrase := "passphrase" |}.

(** A POST to /order whose body is a channel. *)
Definition post_of_channel : @auth.RequestArgs libraries :=
  {| auth.Method := "POST"; auth.RequestPath := "/order";
     auth.Body := Some (channel : @body_value libraries) |}.

End Sample.

(* ================================================================== *)
(** ** Level-1 authentication: the signed CLOB auth message *)

Module ClobAuth.
Section ClobAuth.
Context `{Libraries}.

Definition ClobDomainName := "ClobAuthDomain".
Definition ClobVersion := "1".
Definition PolyNonce := "POLY_NONCE".

(** [types.ClobAuth] *)
Record ClobAuth := {
  ca_Address : string;
  ca_Timestamp : string;
  ca_Nonce : Z;
  ca_Message : string
}.

(** [utils.CreateClobAuthDomain] *)
Definition CreateClobAuthDomain (chainID : Z) : outcome (list byte) :=
  let domainTypeHash := Keccak256 (utils.bytes_of_string
    "EIP712Domain(string name,string version,uint256 chainId)") in
  let nameHash := Keccak256 (utils.bytes_of_string ClobDomainName) in
  let versionHash := Keccak256 (utils.bytes_of_string ClobVersion) in
  bind (FillBytes (Some chainID) (make 32)) (fun chainIDBytes =>
  let domain := [] in
  let domain := (domain ++ domainTypeHash)%list in
  let domain := (domain ++ nameHash)%list in
  let domain := (domain ++ versionHash)%list in
  let domain := (domain ++ chainIDBytes)%list in
  Returned (Keccak256 domain)).

(** [utils.EncodeClobAuth] *)
Definition EncodeClobAuth (auth : ClobAuth) : outcome (list byte) :=
  let typeHash := Keccak256 (utils.bytes_of_string
    "ClobAuth(address address,string timestamp,uint256 nonce,string message)") in
  let addressBytes := Bytes (HexToAddress (ca_Address auth)) in
  let addressPadded := copy_at (make 32) 12 addressBytes in
  let timestampHash := Keccak256 (utils.bytes_of_string (ca_Timestamp auth)) in
  bind (FillBytes (Some (ca_Nonce auth)) (make 32)) (fun nonceBytes =>
  let messageHash := Keccak256 (utils.bytes_of_string (ca_Message auth)) in
  let encoded := [] in
  let encoded := (encoded ++ typeHash)%list in
  let encoded := (encoded ++ addressPadded)%list in
  let encoded := (encoded ++ timestampHash)%list in
  let encoded := (encoded ++ nonceBytes)%list in
  let encoded := (encoded ++ messageHash)%list in
  Returned (Keccak256 encoded)).

(** [Signer.SignEIP712] *)
Definition SignEIP712 (s : signer.Signer) (domainSeparator structHash : list byte)
  : outcome (result (list byte) * signer.Signer) :=
  let eip712Hash := utils.CreateEIP712Hash domainSeparator structHash in
  bind (signer.Sign s eip712Hash) (fun '(signed, s) =>
  match signed with
  | Err err =>
      let s := signer.recordMetric s "eip712_signing" false err in
      Returned (Err err, s)
  | Ok signature =>
      let s := signer.recordMetric s "eip712_signing" true "" in
      Returned (Ok signature, s)
  end).

(** [Signer.SignClobAuth] *)
Definition SignClobAuth (s : signer.Signer) (timestamp nonce : Z)
  : outcome (result string * signer.Signer) :=
  let clobAuth :=
    {| ca_Address := signer.AddressHex s;
       ca_Timestamp := Sprintf_d timestamp;
       ca_Nonce := nonce;
       ca_Message := "This message attests that I control the given wallet" |} in
  bind (CreateClobAuthDomain (signer.chainID s)) (fun domainSeparator =>
  bind (EncodeClobAuth clobAuth) (fun structHash =>
  bind (SignEIP712 s domainSeparator structHash) (fun '(signed, s) =>
  match signed with
  | Err err =>
      let s := signer.recordMetric s "clob_auth_signing" false err in
      Returned (Err err, s)
  | Ok signature =>
      let signatureHex := "0x" ++ Sprintf_x signature in
      let s := signer.recordMetric s "clob_auth_signing" true "" in
      Returned (Ok signatureHex, s)
  end))).

(** [HeaderBuilder.CreateLevel1Headers]; [timestamp] is what
    [time.Now().Unix()] returns during the call, and the header map is the
    list of its entries. *)
Definition CreateLevel1Headers (h : auth.HeaderBuilder) (timestamp nonce : Z)
  : outcome (result (list (string * string)) * auth.HeaderBuilder) :=
  bind (SignClobAuth (auth.signer_ h) timestamp nonce) (fun '(signed, s) =>
  let h := {| auth.signer_ := s; auth.metrics := auth.metrics h |} in
  match signed with
  | Err err =>
      let h := auth.recordMetric h "level1_headers_creation" false err in
      Returned (Err ("failed to sign CLOB auth: " ++ err), h)
  | Ok signature =>
      let headers :=
        [ (auth.PolyAddress, signer.AddressHex (auth.signer_ h));
          (auth.PolySignature, signature);
          (auth.PolyTimestamp, Sprintf_d timestamp);
          (PolyNonce, Sprintf_d nonce) ] in
      let h := auth.recordMetric h "level1_headers_creation" true "" in
      Returned (Ok headers, h)
  end).

(** *** The CLOB auth message as typed data *)

Definition attestation : string :=
  "This message attests that I control the given wallet".

Definition auth_type_hash : list byte :=
  Keccak256 (list_byte_of_string
    "ClobAuth(address address,string timestamp,uint256 nonce,string message)").

(** hashStruct of [ClobAuth(address,string,uint256,string)]: the two
    strings enter as their hashes. *)
Definition auth_struct_hash (wallet : Address) (timestamp : string) (nonce : Z)
    (message : string) : list byte :=
  Keccak256 (auth_type_hash
             ++ Spec.encode_address wallet
             ++ Keccak256 (list_byte_of_string timestamp)
             ++ Spec.encode_uint256 nonce
             ++ Keccak256 (list_byte_of_string message))%list.

Definition auth_domain (chainID : Z) : list byte :=
  Keccak256
    (Keccak256 (list_byte_of_string
       "EIP712Domain(string name,string version,uint256 chainId)")
     ++ Keccak256 (list_byte_of_string "ClobAuthDomain")
     ++ Keccak256 (list_byte_of_string "1")
     ++ Spec.encode_uint256 chainID)%list.

(** The digest a wallet signs to attest control at [timestamp] with [nonce]. *)
Definition auth_digest (s : signer.Signer) (timestamp nonce : Z) : list byte :=
  Spec.signing_digest (auth_domain (signer.chainID s))
    (auth_struct_hash (HexToAddress (signer.AddressHex s))
       (Sprintf_d timestamp) nonce attestation).

End ClobAuth.
End ClobAuth.

(* ================================================================== *)
(** ** Constructors *)

Module Construction.
Section Construction.
Context `{Libraries}.

(** [crypto.HexToECDSA] and [crypto.PubkeyToAddress] of the key's public
    part. *)
Variable crypto_HexToECDSA : string -> result PrivateKey.
Variable crypto_PubkeyToAddress : PrivateKey -> Address.

(** [signer.NewSigner] *)
Definition NewSigner (privateKeyHex : string) (chainID : Z) : result signer.Signer :=
  let privateKeyHex :=
    if (2 <? String.length privateKeyHex)%nat
       && String.eqb (substring 0 2 privateKeyHex) "0x"
    then substring 2 (String.length privateKeyHex - 2) privateKeyHex
    else privateKeyHex in
  match crypto_HexToECDSA privateKeyHex with
  | Err err => Err ("invalid private key: " ++ err)
  | Ok privateKey =>
      let address := crypto_PubkeyToAddress privateKey in
      let signer :=
        {| signer.privateKey := privateKey;
           signer.address := address;
           signer.chainID := chainID;
           signer.metrics := [] |} in
      let signer := signer.recordMetric signer "signer_creation" true "" in
      Ok signer
  end.

(** [auth.NewHeaderBuilder] *)
Definition NewHeaderBuilder (s : signer.Signer) : auth.HeaderBuilder :=
  {| auth.signer_ := s; auth.metrics := [] |}.

Definition EOAType : Z := 0.

(** [orderbuilder.NewOrderBuilder]; a nil pointer argument is [None]. *)
Definition NewOrderBuilder (s : signer.Signer) (signatureType : option Z)
    (funder : option string) : orderbuilder.OrderBuilder :=
  let sigType := EOAType in
  let sigType :=
    match signatureType with
    | Some t => t
    | None => sigType
    end in
  let funderAddr := signer.AddressHex s in
  let funderAddr :=
    match funder with
    | Some f => f
    | None => funderAddr
    end in
  {| orderbuilder.signer_ := s;
     orderbuilder.signatureType := sigType;
     orderbuilder.funder := funderAddr;
     orderbuilder.metrics := [] |}.

End Construction.
End Construction.

(* ================================================================== *)
(** ** Package client: construction, credentials and market data *)

Module ClientState.

(** The values [json.Unmarshal] stores in an [interface{}]; the elements of
    arrays and objects are not looked into. *)
Inductive any :=
| nil_value
| bool_value (b : bool)
| float64_value (x : float)
| string_value (s : string)
| slice_value
| map_value.

(** What [%T] prints. *)
Definition type_name (v : any) : string :=
  match v with
  | nil_value => "<nil>"
  | bool_value _ => "bool"
  | float64_value _ => "float64"
  | string_value _ => "string"
  | slice_value => "[]interface {}"
  | map_value => "map[string]interface {}"
  end.

(** The dynamic type as the runtime error of a failed type assertion
    names it. *)
Definition dynamic_type (v : any) : string :=
  match v with
  | nil_value => "nil"
  | _ => type_name v
  end.

(** [strings.TrimRight(s, cutset)] for a cutset of one character, run on
    the reversed text. *)
Fixpoint drop_trailing (c : ascii) (rev_str : list ascii) : list ascii :=
  match rev_str with
  | d :: rest => if Ascii.eqb d c then drop_trailing c rest else rev_str
  | [] => []
  end.

Definition TrimRight (s : string) (c : ascii) : string :=
  string_of_list_ascii (rev (drop_trailing c (rev (list_ascii_of_string s)))).

(** [strings.HasSuffix(s, "/")] *)
Definition HasSuffix_slash (s : string) : bool :=
  (1 <=? String.length s)%nat && String.eqb (substring (String.length s - 1) 1 s) "/".

(** The response of the HTTP server: its status code and what reading its
    body gives. *)
Record Response := {
  StatusCode : Z;
  ReadAll : result (list byte)
}.

Section ClientState.
Context `{Libraries}.

Variable crypto_HexToECDSA : string -> result PrivateKey.
Variable crypto_PubkeyToAddress : PrivateKey -> Address.

(** net/http: [http.NewRequest], [Header.Set] and [httpClient.Do]. *)
Variable Request : Type.
Variable http_NewRequest : string -> string -> option string -> result Request.
Variable Header_Set : Request -> string -> string -> Request.
Variable httpClient_Do : Request -> result Response.

(** [json.Unmarshal] into a [map[string]interface{}]; a key the object
    lacks reads as nil, as in a Go map. *)
Variable json_Unmarshal : list byte -> result (string -> any).

(** A header builder but for its pointer to the signer. *)
Record HeaderBuilderState := {
  hb_metrics : list types.PerformanceMetrics
}.

(** An order builder but for its pointer to the signer. *)
Record OrderBuilderState := {
  ob_signatureType : Z;
  ob_funder : string;
  ob_metrics : list types.PerformanceMetrics
}.

(** The client but for its HTTP handle; the two caches are maps from token
    ids. In Go the client, its header builder and its order builder each
    hold a pointer to one and the same [Signer]: the record holds that
    signer once, in [signer_], and of each builder what is the builder's
    own; a nil pointer is [None]. *)
Record ClobClient := {
  host : string;
  chainID : Z;
  signer_ : option signer.Signer;
  creds : option types.ApiCreds;
  authLevel : types.AuthLevel;
  headerBuilder_ : option HeaderBuilderState;
  orderBuilder_ : option OrderBuilderState;
  metrics : list types.PerformanceMetrics;
  tickSizes : string -> option types.TickSize;
  negRisks : string -> option bool
}.

(** The header builder as package auth sees it: its own state and the
    signer it points to, which is the client's. *)
Definition headerBuilder (c : ClobClient) : option auth.HeaderBuilder :=
  match headerBuilder_ c, signer_ c with
  | Some h, Some s => Some {| auth.signer_ := s; auth.metrics := hb_metrics h |}
  | _, _ => None
  end.

(** The order builder as package orderbuilder sees it, with the same
    signer. *)
Definition orderBuilder (c : ClobClient) : option orderbuilder.OrderBuilder :=
  match orderBuilder_ c, signer_ c with
  | Some ob, Some s =>
      Some {| orderbuilder.signer_ := s;
              orderbuilder.signatureType := ob_signatureType ob;
              orderbuilder.funder := ob_funder ob;
              orderbuilder.metrics := ob_metrics ob |}
  | _, _ => None
  end.

(** What a builder keeps for itself. *)
Definition header_state (h : auth.HeaderBuilder) : HeaderBuilderState :=
  {| hb_metrics := auth.metrics h |}.

Definition order_state (ob : orderbuilder.OrderBuilder) : OrderBuilderState :=
  {| ob_signatureType := orderbuilder.signatureType ob;
     ob_funder := orderbuilder.funder ob;
     ob_metrics := orderbuilder.metrics ob |}.

(** Two clients that differ in their metrics at most. *)
Definition same_but_metrics (c c' : ClobClient) : Prop :=
  host c' = host c
  /\ chainID c' = chainID c
  /\ signer_ c' = signer_ c
  /\ creds c' = creds c
  /\ authLevel c' = authLevel c
  /\ headerBuilder_ c' = headerBuilder_ c
  /\ orderBuilder_ c' = orderBuilder_ c
  /\ tickSizes c' = tickSizes c
  /\ negRisks c' = negRisks c.

(** The part of the client that order creation reads and writes. *)
Definition order_part (c : ClobClient) : client.ClobClient :=
  {| client.chainID := chainID c;
     client.authLevel := authLevel c;
     client.orderBuilder := orderBuilder c;
     client.metrics := metrics c |}.

Definition recordMetric (c : ClobClient) (operation : string) (success : bool)
    (errorMsg : string) : ClobClient :=
  let metric := {| types.Operation := operation;
                   types.Success := success;
                   types.Error := errorMsg |} in
  {| host := host c; chainID := chainID c; signer_ := signer_ c; creds := creds c;
     authLevel := authLevel c; headerBuilder_ := headerBuilder_ c;
     orderBuilder_ := orderBuilder_ c;
     metrics := (metrics c ++ [metric])%list;
     tickSizes := tickSizes c; negRisks := negRisks c |}.

Definition getAuthLevel (c : ClobClient) : types.AuthLevel :=
  match signer_ c, creds c with
  | Some _, Some _ => types.L2
  | Some _, None => types.L1
  | None, _ => types.L0
  end.

Definition with_authLevel (c : ClobClient) (level : types.AuthLevel) : ClobClient :=
  {| host := host c; chainID := chainID c; signer_ := signer_ c; creds := creds c;
     authLevel := level; headerBuilder_ := headerBuilder_ c;
     orderBuilder_ := orderBuilder_ c; metrics := metrics c;
     tickSizes := tickSizes c; negRisks := negRisks c |}.

(** A nil [creds], [signatureType] or [funder] is [None]. *)
Definition NewClobClient (host : string) (chainID : Z) (privateKey : string)
    (creds : option types.ApiCreds) (signatureType : option Z)
    (funder : option string) : result ClobClient :=
  let host :=
    if HasSuffix_slash host then substring 0 (String.length host - 1) host else host in
  let client :=
    {| host := host; chainID := chainID; signer_ := None; creds := creds;
       authLevel := 0; headerBuilder_ := None; orderBuilder_ := None;
       metrics := [];
       tickSizes := fun _ => None; negRisks := fun _ => None |} in
  let made :=
    if negb (String.eqb privateKey "") then
      match Construction.NewSigner crypto_HexToECDSA crypto_PubkeyToAddress
              privateKey chainID with
      | Err err => Err ("failed to create signer: " ++ err)
      | Ok s =>
          let headerBuilder := Construction.NewHeaderBuilder s in
          let orderBuilder := Construction.NewOrderBuilder s signatureType funder in
          Ok {| host := host; chainID := chainID; signer_ := Some s; creds := creds;
                authLevel := 0;
                headerBuilder_ := Some (header_state headerBuilder);
                orderBuilder_ := Some (order_state orderBuilder);
                metrics := [];
                tickSizes := fun _ => None; negRisks := fun _ => None |}
      end
    else Ok client in
  match made with
  | Err err => Err err
  | Ok client =>
      let client := with_authLevel client (getAuthLevel client) in
      let client := recordMetric client "client_creation" true "" in
      Ok client
  end.

Definition GetAddress (c : ClobClient) : string :=
  match signer_ c with
  | None => ""
  | Some s => signer.AddressHex s
  end.

Definition SetAPICredentials (c : ClobClient) (creds : option types.ApiCreds)
  : ClobClient :=
  let c :=
    {| host := host c; chainID := chainID c; signer_ := signer_ c; creds := creds;
       authLevel := authLevel c; headerBuilder_ := headerBuilder_ c;
       orderBuilder_ := orderBuilder_ c; metrics := metrics c;
       tickSizes := tickSizes c; negRisks := negRisks c |} in
  with_authLevel c (getAuthLevel c).

(** [makeRequest]; the header map is the list of its entries. *)
Definition makeRequest (c : ClobClient) (method url : string)
    (headers : list (string * string)) (body : option body_value)
  : result (list byte) * ClobClient :=
  let marshalled :=
    match body with
    | Some b =>
        match json_Marshal b with
        | Err err => Err err
        | Ok bodyBytes => Ok (Some bodyBytes)
        end
    | None => Ok None
    end in
  match marshalled with
  | Err err =>
      let c := recordMetric c "http_request" false err in
      (Err ("failed to marshal body: " ++ err), c)
  | Ok reqBody =>
      match http_NewRequest method url reqBody with
      | Err err =>
          let c := recordMetric c "http_request" false err in
          (Err ("failed to create request: " ++ err), c)
      | Ok req =>
          let req := Header_Set req "Content-Type" "application/json" in
          let req := fold_left (fun req kv => Header_Set req (fst kv) (snd kv)) headers req in
          match httpClient_Do req with
          | Err err =>
              let c := recordMetric c "http_request" false err in
              (Err ("failed to make request: " ++ err), c)
          | Ok resp =>
              match ReadAll resp with
              | Err err =>
                  let c := recordMetric c "http_request" false err in
                  (Err ("failed to read response: " ++ err), c)
              | Ok respBody =>
                  if StatusCode resp >=? 400 then
                    let msg := "HTTP " ++ Sprintf_d (StatusCode resp) ++ ": "
                                 ++ string_of_list_byte respBody in
                    let c := recordMetric c "http_request" false msg in
                    (Err msg, c)
                  else
                    let c := recordMetric c "http_request" true "" in
                    (Ok respBody, c)
              end
          end
      end
  end.

Definition with_tickSize (c : ClobClient) (tokenID : string) (tickSize : types.TickSize)
  : ClobClient :=
  {| host := host c; chainID := chainID c; signer_ := signer_ c; creds := creds c;
     authLevel := authLevel c; headerBuilder_ := headerBuilder_ c;
     orderBuilder_ := orderBuilder_ c; metrics := metrics c;
     tickSizes := fun k => if String.eqb k tokenID then Some tickSize else tickSizes c k;
     negRisks := negRisks c |}.

Definition with_negRisk (c : ClobClient) (tokenID : string) (negRisk : bool)
  : ClobClient :=
  {| host := host c; chainID := chainID c; signer_ := signer_ c; creds := creds c;
     authLevel := authLevel c; headerBuilder_ := headerBuilder_ c;
     orderBuilder_ := orderBuilder_ c; metrics := metrics c;
     tickSizes := tickSizes c;
     negRisks := fun k => if String.eqb k tokenID then Some negRisk else negRisks c k |}.

Definition GetTickSize (c : ClobClient) (tokenID : string)
  : result types.TickSize * ClobClient :=
  match tickSizes c tokenID with
  | Some tickSize =>
      let c := recordMetric c "tick_size_retrieval" true "from_cache" in
      (Ok tickSize, c)
  | None =>
      let url := host c ++ "/tick-size" ++ "?token_id=" ++ tokenID in
      let '(resp, c) := makeRequest c "GET" url [] None in
      match resp with
      | Err err =>
          let c := recordMetric c "tick_size_retrieval" false err in
          (Err ("failed to get tick size: " ++ err), c)
      | Ok resp =>
          match json_Unmarshal resp with
          | Err err =>
              let c := recordMetric c "tick_size_retrieval" false err in
              (Err ("failed to parse tick size response: " ++ err), c)
          | Ok result =>
              let switch :=
                match result "minimum_tick_size" with
                | string_value v => Ok v
                | float64_value v =>
                    let tickSizeStr := Sprintf_f 4 v in
                    let tickSizeStr := TrimRight tickSizeStr "0" in
                    let tickSizeStr := TrimRight tickSizeStr "." in
                    Ok tickSizeStr
                | v => Err ("invalid tick size type: " ++ type_name v)
                end in
              match switch with
              | Err err =>
                  let c := recordMetric c "tick_size_retrieval" false "invalid tick size type" in
                  (Err err, c)
              | Ok tickSizeStr =>
                  let tickSize := tickSizeStr in
                  let c := with_tickSize c tokenID tickSize in
                  let c := recordMetric c "tick_size_retrieval" true "" in
                  (Ok tickSize, c)
              end
          end
      end
  end.

(** The type assertion [result["neg_risk"].(bool)] panics on any other
    dynamic type. *)
Definition GetNegRisk (c : ClobClient) (tokenID : string)
  : outcome (result bool * ClobClient) :=
  match negRisks c tokenID with
  | Some negRisk =>
      let c := recordMetric c "neg_risk_retrieval" true "from_cache" in
      Returned (Ok negRisk, c)
  | None =>
      let url := host c ++ "/neg-risk" ++ "?token_id=" ++ tokenID in
      let '(resp, c) := makeRequest c "GET" url [] None in
      match resp with
      | Err err =>
          let c := recordMetric c "neg_risk_retrieval" false err in
          Returned (Err ("failed to get neg risk: " ++ err), c)
      | Ok resp =>
          match json_Unmarshal resp with
          | Err err =>
              let c := recordMetric c "neg_risk_retrieval" false err in
              Returned (Err ("failed to parse neg risk response: " ++ err), c)
          | Ok result =>
              match result "neg_risk" with
              | bool_value negRisk =>
                  let c := with_negRisk c tokenID negRisk in
                  let c := recordMetric c "neg_risk_retrieval" true "" in
                  Returned (Ok negRisk, c)
              | v =>
                  Panicked ("interface conversion: interface {} is "
                              ++ dynamic_type v ++ ", not bool")
              end
          end
      end
  end.

(** [result[key].(string)]: the type assertion panics on any other dynamic
    type. *)
Definition assert_string (v : any) : outcome string :=
  match v with
  | string_value s => Returned s
  | _ => Panicked ("interface conversion: interface {} is "
                     ++ dynamic_type v ++ ", not string")
  end.

(** The client after a call on its header builder: the builder's own state
    is what the call left, and so is the signer the builder points to, which
    is the signer of the client and of the order builder as well. *)
Definition with_headerBuilder (c : ClobClient) (h : auth.HeaderBuilder) : ClobClient :=
  {| host := host c; chainID := chainID c; signer_ := Some (auth.signer_ h);
     creds := creds c;
     authLevel := authLevel c; headerBuilder_ := Some (header_state h);
     orderBuilder_ := orderBuilder_ c; metrics := metrics c;
     tickSizes := tickSizes c; negRisks := negRisks c |}.

(** [now] is what [time.Now().Unix()] returns while the headers are made. *)
Definition CreateAPIKey (c : ClobClient) (now nonce : Z)
  : outcome (result types.ApiCreds * ClobClient) :=
  if authLevel c <? types.L1 then
    let c := recordMetric c "api_key_creation" false "insufficient auth level" in
    Returned (Err "Level 1 authentication required", c)
  else
    match headerBuilder c with
    | None => Panicked "nil pointer dereference"
    | Some h =>
        bind (ClobAuth.CreateLevel1Headers h now nonce) (fun '(made, h) =>
        let c := with_headerBuilder c h in
        match made with
        | Err err =>
            let c := recordMetric c "api_key_creation" false err in
            Returned (Err ("failed to create headers: " ++ err), c)
        | Ok headers =>
            let url := host c ++ "/auth/api-key" in
            let '(resp, c) := makeRequest c "POST" url headers None in
            match resp with
            | Err err =>
                let c := recordMetric c "api_key_creation" false err in
                Returned (Err ("failed to make request: " ++ err), c)
            | Ok resp =>
                match json_Unmarshal resp with
                | Err err =>
                    let c := recordMetric c "api_key_creation" false err in
                    Returned (Err ("failed to parse response: " ++ err), c)
                | Ok result =>
                    bind (assert_string (result "apiKey")) (fun apiKey =>
                    bind (assert_string (result "secret")) (fun secret =>
                    bind (assert_string (result "passphrase")) (fun passphrase =>
                    let creds :=
                      {| types.ApiKey := apiKey;
                         types.ApiSecret := secret;
                         types.ApiPassphrase := passphrase |} in
                    let c := recordMetric c "api_key_creation" true "" in
                    Returned (Ok creds, c))))
                end
            end
        end)
    end.

Definition DeriveAPIKey (c : ClobClient) (now nonce : Z)
  : outcome (result types.ApiCreds * ClobClient) :=
  if authLevel c <? types.L1 then
    let c := recordMetric c "api_key_derivation" false "insufficient auth level" in
    Returned (Err "Level 1 authentication required", c)
  else
    match headerBuilder c with
    | None => Panicked "nil pointer dereference"
    | Some h =>
        bind (ClobAuth.CreateLevel1Headers h now nonce) (fun '(made, h) =>
        let c := with_headerBuilder c h in
        match made with
        | Err err =>
            let c := recordMetric c "api_key_derivation" false err in
            Returned (Err ("failed to create headers: " ++ err), c)
        | Ok headers =>
            let url := host c ++ "/auth/derive-api-key" in
            let '(resp, c) := makeRequest c "GET" url headers None in
            match resp with
            | Err err =>
                let c := recordMetric c "api_key_derivation" false err in
                Returned (Err ("failed to make request: " ++ err), c)
            | Ok resp =>
                match json_Unmarshal resp with
                | Err err =>
                    let c := recordMetric c "api_key_derivation" false err in
                    Returned (Err ("failed to parse response: " ++ err), c)
                | Ok result =>
                    bind (assert_string (result "apiKey")) (fun apiKey =>
                    bind (assert_string (result "secret")) (fun secret =>
                    bind (assert_string (result "passphrase")) (fun passphrase =>
                    let creds :=
                      {| types.ApiKey := apiKey;
                         types.ApiSecret := secret;
                         types.ApiPassphrase := passphrase |} in
                    let c := recordMetric c "api_key_derivation" true "" in
                    Returned (Ok creds, c))))
                end
            end
        end)
    end.

(** [now] and [later] are the clock readings of the creation and of the
    derivation. *)
Definition CreateOrDeriveAPIKey (c : ClobClient) (now later nonce : Z)
  : outcome (result types.ApiCreds * ClobClient) :=
  bind (CreateAPIKey c now nonce) (fun '(created, c) =>
  match created with
  | Err err => DeriveAPIKey c later nonce
  | Ok creds => Returned (Ok creds, c)
  end).

(** Two signers with the same key, address and chain: they differ in their
    metrics at most. *)
Definition same_key (s s' : option signer.Signer) : Prop :=
  match s, s' with
  | None, None => True
  | Some a, Some b =>
      signer.privateKey b = signer.privateKey a
      /\ signer.address b = signer.address a
      /\ signer.chainID b = signer.chainID a
  | _, _ => False
  end.

(** Two clients that agree on all but metrics: their own, those of their
    signer and those of their header builder. *)
Definition same_but_headers (c c' : ClobClient) : Prop :=
  host c' = host c
  /\ chainID c' = chainID c
  /\ same_key (signer_ c) (signer_ c')
  /\ creds c' = creds c
  /\ authLevel c' = authLevel c
  /\ (headerBuilder_ c' = None <-> headerBuilder_ c = None)
  /\ orderBuilder_ c' = orderBuilder_ c
  /\ tickSizes c' = tickSizes c
  /\ negRisks c' = negRisks c.

End ClientState.

Arguments makeRequest {H Request} http_NewRequest Header_Set httpClient_Do
  c method url headers body.
Arguments GetTickSize {H Request} http_NewRequest Header_Set httpClient_Do
  json_Unmarshal c tokenID.
Arguments GetNegRisk {H Request} http_NewRequest Header_Set httpClient_Do
  json_Unmarshal c tokenID.
Arguments CreateAPIKey {H Request} http_NewRequest Header_Set httpClient_Do
  json_Unmarshal c now nonce.
Arguments DeriveAPIKey {H Request} http_NewRequest Header_Set httpClient_Do
  json_Unmarshal c now nonce.
Arguments CreateOrDeriveAPIKey {H Request} http_NewRequest Header_Set httpClient_Do
  json_Unmarshal c now later nonce.

End ClientState.

(* ================================================================== *)
(** ** Magnitudes of floats *)

Module Magnitude.

(** A zero, or a finite float of magnitude below [2^B]: its mantissa is
    below [2^(B - e)]. *)
Definition SFbelow (B : Z) (v : spec_float) : Prop :=
  match v with
  | S754_zero _ => True
  | S754_finite _ m e => Zpos m < 2 ^ (B - e)
  | _ => False
  end.

(** A float64 that is finite and below [2^B] in magnitude. *)
Definition below (B : Z) (x : float) : Prop := SFbelow B (Prim2SF x).

(** A finite float of magnitude one at least. *)
Definition SFat_least_one (v : spec_float) : Prop :=
  match v with
  | S754_finite _ m e => e <= 0 /\ 2 ^ (- e) <= Zpos m
  | _ => False
  end.

End Magnitude.

(* ================================================================== *)
(** ** The order data a builder hands to signing *)

Module Built.
Section Built.
Context `{Libraries}.

(** The order data [CreateOrder] assembles from the arguments and the
    computed side and amounts. *)
Definition limit_order_data (ob : orderbuilder.OrderBuilder)
    (orderArgs : types.OrderArgs) (side : Z) (makerAmount takerAmount : bigInt)
  : types.OrderData :=
  {| types.od_Maker := orderbuilder.funder ob;
     types.od_Taker := types.oa_Taker orderArgs;
     types.od_TokenID := types.oa_TokenID orderArgs;
     types.od_MakerAmount := makerAmount;
     types.od_TakerAmount := takerAmount;
     types.od_Side := side;
     types.od_FeeRateBps := Sprintf_d (types.oa_FeeRateBps orderArgs);
     types.od_Nonce := Sprintf_d (types.oa_Nonce orderArgs);
     types.od_Signer := signer.AddressHex (orderbuilder.signer_ ob);
     types.od_Expiration := Sprintf_d (types.oa_Expiration orderArgs);
     types.od_SignatureType := orderbuilder.signatureType ob |}.

(** The order data [CreateMarketOrder] assembles. *)
Definition market_order_data (ob : orderbuilder.OrderBuilder)
    (orderArgs : types.MarketOrderArgs) (side : Z) (makerAmount takerAmount : bigInt)
  : types.OrderData :=
  {| types.od_Maker := orderbuilder.funder ob;
     types.od_Taker := types.mo_Taker orderArgs;
     types.od_TokenID := types.mo_TokenID orderArgs;
     types.od_MakerAmount := makerAmount;
     types.od_TakerAmount := takerAmount;
     types.od_Side := side;
     types.od_FeeRateBps := Sprintf_d (types.mo_FeeRateBps orderArgs);
     types.od_Nonce := Sprintf_d (types.mo_Nonce orderArgs);
     types.od_Signer := signer.AddressHex (orderbuilder.signer_ ob);
     types.od_Expiration := "0";
     types.od_SignatureType := orderbuilder.signatureType ob |}.

(** Whether a result is a success. *)
Definition succeeded {A : Type} (r : result A) : bool :=
  match r with
  | Ok _ => true
  | Err _ => false
  end.

(** The magnitude of a [*big.Int] fits the 32 bytes of a typed-data word. *)
Definition fits_word (x : bigInt) : Prop :=
  exists n : Z, x = Some n /\ Z.abs n < 2 ^ 256.

(** The numbers of an order that hashing turns into 32-byte words all fit. *)
Definition hashed_numbers_fit (orderData : types.OrderData) (salt : Z) : Prop :=
  fits_word (Some salt)
  /\ fits_word (utils.parse_big (types.od_TokenID orderData))
  /\ fits_word (types.od_MakerAmount orderData)
  /\ fits_word (types.od_TakerAmount orderData)
  /\ fits_word (utils.parse_big (types.od_Expiration orderData))
  /\ fits_word (utils.parse_big (types.od_Nonce orderData))
  /\ fits_word (utils.parse_big (types.od_FeeRateBps orderData)).

(** The order data with its numbers negated: the amounts, and the decimal
    strings of fee rate, nonce and expiration. *)
Definition negated (orderData : types.OrderData) (fee nonce expiration : Z)
    (negate : bool) : types.OrderData :=
  let sign := fun n : Z => if negate then - n else n in
  {| types.od_Maker := types.od_Maker orderData;
     types.od_Taker := types.od_Taker orderData;
     types.od_TokenID := types.od_TokenID orderData;
     types.od_MakerAmount := option_map sign (types.od_MakerAmount orderData);
     types.od_TakerAmount := option_map sign (types.od_TakerAmount orderData);
     types.od_Side := types.od_Side orderData;
     types.od_FeeRateBps := Sprintf_d (sign fee);
     types.od_Nonce := Sprintf_d (sign nonce);
     types.od_Signer := types.od_Signer orderData;
     types.od_Expiration := Sprintf_d (sign expiration);
     types.od_SignatureType := types.od_SignatureType orderData |}.

End Built.
End Built.

(* ================================================================== *)
(** ** More of the concrete setting *)

Module Fixture.

(** A key decoder that accepts the one key [ab] and an address derivation
    that gives the zero address. *)
Definition HexToECDSA (hexkey : string) : result (@PrivateKey Sample.libraries) :=
  if String.eqb hexkey "ab" then Ok (tt : @PrivateKey Sample.libraries)
  else Err "invalid hex data for private key".

Definition PubkeyToAddress (key : @PrivateKey Sample.libraries) : Address :=
  Sample.zero_address.

(** A server that answers every request with [status] and [text]. *)
Definition NewRequest (method url : string) (body : option string)
  : result (string * string) := Ok (method, url).

Definition keep_header (req : string * string) (key value : string) : string * string := req.

Definition Do (status : Z) (text : string) (req : string * string)
  : result ClientState.Response :=
  Ok {| ClientState.StatusCode := status;
        ClientState.ReadAll := Ok (list_byte_of_string text) |}.

(** A decoder that reads every text as the object whose every field holds
    [v]. *)
Definition Unmarshal (v : ClientState.any) (text : list byte)
  : result (string -> ClientState.any) := Ok (fun _ => v).

(** A client with no key, no credentials and empty caches. *)
Definition a_client : @ClientState.ClobClient Sample.libraries :=
  {| ClientState.host := "https://clob.example";
     ClientState.chainID := 137;
     ClientState.signer_ := None;
     ClientState.creds := None;
     ClientState.authLevel := types.L0;
     ClientState.headerBuilder_ := None;
     ClientState.orderBuilder_ := None;
     ClientState.metrics := [];
     ClientState.tickSizes := fun _ => None;
     ClientState.negRisks := fun _ => None |}.

(** The libraries of [Sample.libraries] with a digest function that gives
    31 bytes, which the signing function refuses. *)
Definition short_digest_libraries : Libraries :=
  {| Keccak256 := fun _ => repeat x00 31;
     HexToAddress := @HexToAddress Sample.libraries;
     Address_Hex := @Address_Hex Sample.libraries;
     PrivateKey := @PrivateKey Sample.libraries;
     crypto_Sign := @crypto_Sign Sample.libraries;
     SetString_undefined := @SetString_undefined Sample.libraries;
     hmac_sha256 := @hmac_sha256 Sample.libraries;
     base64_URLEncoding_DecodeString := @base64_URLEncoding_DecodeString Sample.libraries;
     base64_URLEncoding_EncodeToString :=
       @base64_URLEncoding_EncodeToString Sample.libraries;
     body_value := @body_value Sample.libraries;
     json_Marshal := @json_Marshal Sample.libraries |}.

Definition failing_builder : @orderbuilder.OrderBuilder short_digest_libraries :=
  {| orderbuilder.signer_ :=
       {| signer.privateKey := tt : @PrivateKey short_digest_libraries;
          signer.address := Sample.zero_address;
          signer.chainID := 137;
          signer.metrics := [] |};
     orderbuilder.signatureType := 0;
     orderbuilder.funder := "0x0000000000000000000000000000000000000000";
     orderbuilder.metrics := [] |}.

(** Market data that answers the tick size "0.05". *)
Definition tick_005 (c : @client.ClobClient Sample.libraries) (tokenID : string)
  : result types.TickSize * @client.ClobClient Sample.libraries := (Ok "0.05", c).

(** A market BUY of ten units of token 1234 at [price]. *)
Definition market_buy_at (price : float) : types.MarketOrderArgs :=
  {| types.mo_TokenID := "1234"; types.mo_Amount := 10; types.mo_Side := "BUY";
     types.mo_Price := price; types.mo_FeeRateBps := 0; types.mo_Nonce := 0;
     types.mo_Taker := "0x0000000000000000000000000000000000000000" |}.

Definition options_001 : types.CreateOrderOptions :=
  {| types.TickSize_ := "0.01"; types.NegRisk := false |}.

End Fixture.

(* ================================================================== *)
(** ** Facts about the runtime model *)

Section RuntimeFacts.

Lemma digits2_pos_bound (m : positive) : Zpos m < 2 ^ Zpos (digits2_pos m).
Proof.
  induction m as [m IH | m IH | ]; cbn [digits2_pos].
  - rewrite Pos2Z.inj_succ, Z.pow_succ_r by lia. lia.
  - rewrite Pos2Z.inj_succ, Z.pow_succ_r by lia. lia.
  - reflexivity.
Qed.

(** A float64 mantissa has at most 53 bits and its exponent is at least -1074. *)
Lemma finite_float_shape (x : float) s m e :
  Prim2SF x = S754_finite s m e -> Zpos m < 2 ^ 53 /\ -1074 <= e <= 971.
Proof.
  intro E. pose proof (Prim2SF_valid x) as V. rewrite E in V.
  unfold valid_binary, bounded, canonical_mantissa, fexp, SpecFloat.emin in V.
  apply andb_prop in V. destruct V as [C B].
  apply Z.eqb_eq in C. apply Z.leb_le in B.
  unfold prec, emax in *.
  pose proof (digits2_pos_bound m) as D.
  assert (Zpos (digits2_pos m) <= 53) by lia.
  split; [ | lia ].
  eapply Z.lt_le_trans; [ exact D | ].
  apply Z.pow_le_mono_r; lia.
Qed.

Lemma int_of_float_range (x : float) :
  int64_min <= int_of_float x <= int64_max.
Proof.
  unfold int_of_float, int_indefinite.
  destruct (SFtrunc (Prim2SF x)) as [z | ].
  - destruct (in_int64 z) eqn:R.
    + unfold in_int64 in R. apply andb_prop in R. lia.
    + unfold int64_min, int64_max. lia.
  - unfold int64_min, int64_max. lia.
Qed.

(** No float64 truncates to [2^63 - 1]: the increment of [RoundUp] never
    wraps. *)
Lemma int_of_float_below_max (x : float) : int_of_float x < int64_max.
Proof.
  pose proof (int_of_float_range x) as R.
  assert (int_of_float x <> int64_max); [ | lia ].
  unfold int_of_float, int_indefinite in *.
  destruct (Prim2SF x) as [s | s | | s m e] eqn:E; cbn [SFtrunc];
    try (unfold in_int64, int64_min, int64_max; cbn; lia).
  destruct (finite_float_shape x s m e E) as [M _].
  match goal with |- (if in_int64 ?z then _ else _) <> _ => destruct (in_int64 z) eqn:I end;
    [ | unfold int64_min, int64_max; lia ].
  assert (A : forall a, (0 <= a < 2 ^ 53 \/ a mod 2 = 0) ->
              (if s then - a else a) <> int64_max).
  { unfold int64_max.
    change (2 ^ 63) with 9223372036854775808.
    change (2 ^ 53) with 9007199254740992.
    intros a [Ha | Ha]; destruct s; try lia.
    - intro Q. assert (a = - 9223372036854775807) by lia. subst a.
      vm_compute in Ha. discriminate.
    - intro Q. subst a. vm_compute in Ha. discriminate. }
  apply A. destruct e as [ | p | p ].
  - left. rewrite Z.shiftl_0_r. lia.
  - right. rewrite Z.shiftl_mul_pow2 by lia.
    replace (Zpos p) with (Z.succ (Z.pred (Zpos p))) by lia.
    rewrite Z.pow_succ_r by lia.
    replace (Zpos m * (2 * 2 ^ Z.pred (Zpos p))) with (Zpos m * 2 ^ Z.pred (Zpos p) * 2) by ring.
    apply Z.mod_mul. lia.
  - left. rewrite Z.shiftr_div_pow2 by lia. split.
    + apply Z.div_pos; lia.
    + eapply Z.le_lt_trans; [ | exact M ].
      apply Z.div_le_upper_bound; [ lia | ].
      assert (1 <= 2 ^ Zpos p) by (apply (Z.pow_le_mono_r 2 0); lia). nia.
Qed.

Lemma wrap64_id (z : Z) : int64_min <= z <= int64_max -> wrap64 z = z.
Proof.
  unfold wrap64, int64_min, int64_max. intro R.
  rewrite Z.mod_small; lia.
Qed.

Lemma increment_does_not_wrap (x : float) :
  wrap64 (int_of_float x + 1) = int_of_float x + 1.
Proof.
  apply wrap64_id.
  pose proof (int_of_float_range x). pose proof (int_of_float_below_max x). lia.
Qed.

End RuntimeFacts.

(* ================================================================== *)
(** ** The decimal-place count *)

Section DecimalText.

Lemma chars_app (a b : string) :
  list_ascii_of_string (a ++ b)
  = (list_ascii_of_string a ++ list_ascii_of_string b)%list.
Proof.
  induction a as [ | c a IH]; cbn; [ reflexivity | now rewrite IH ].
Qed.

Lemma trim_snoc (l : list ascii) (c : ascii) :
  utils.trim_trailing_zeros (l ++ [c])
  = if Ascii.eqb c "0" then utils.trim_trailing_zeros l else (l ++ [c])%list.
Proof.
  unfold utils.trim_trailing_zeros. rewrite rev_app_distr.
  cbn [rev app utils.drop_zeros].
  destruct (Ascii.eqb c "0"); [ reflexivity | ].
  cbn [rev]. now rewrite rev_involutive.
Qed.

Lemma digit_char_zero (d : Z) :
  0 <= d < 10 -> Ascii.eqb (digit_char d) "0" = (d =? 0).
Proof.
  intro R.
  assert (C : In d [0; 1; 2; 3; 4; 5; 6; 7; 8; 9]) by (cbn [In]; lia).
  cbn [In] in C.
  repeat (destruct C as [C | C]; [ subst d; reflexivity | ]).
  contradiction.
Qed.

Lemma fixed_digits_chars_length (k : nat) (n : Z) :
  List.length (list_ascii_of_string (fixed_digits k n)) = k.
Proof.
  revert n. induction k as [ | k IH]; intro n; cbn [fixed_digits];
    [ reflexivity | ].
  rewrite chars_app, length_app, IH. cbn. lia.
Qed.

(** Trimming the zeros at the end of a text that closes with a point and
    [k] digits keeps the point and drops the trailing zeros of the digits. *)
Lemma trim_fraction (pre : list ascii) (k : nat) (n : Z) :
  utils.trim_trailing_zeros
    (pre ++ "."%char :: list_ascii_of_string (fixed_digits k n))
  = (pre ++ "."%char ::
       firstn (k - Spec.trailing_zeros k n) (list_ascii_of_string (fixed_digits k n)))%list.
Proof.
  revert n. induction k as [ | k IH]; intro n.
  - cbn [fixed_digits list_ascii_of_string Spec.trailing_zeros firstn Nat.sub].
    change (pre ++ ["."%char])%list with (pre ++ ["."%char])%list.
    rewrite trim_snoc. reflexivity.
  - cbn [fixed_digits Spec.trailing_zeros].
    rewrite chars_app. cbn [list_ascii_of_string].
    change (pre ++ "."%char :: list_ascii_of_string (fixed_digits k (n / 10))
                ++ [digit_char (n mod 10)])%list
      with (pre ++ ("."%char :: list_ascii_of_string (fixed_digits k (n / 10)))
                ++ [digit_char (n mod 10)])%list.
    rewrite app_assoc, trim_snoc.
    rewrite digit_char_zero by (apply Z.mod_pos_bound; lia).
    pose proof (fixed_digits_chars_length k (n / 10)) as L.
    destruct (n mod 10 =? 0).
    + rewrite IH. cbn [Nat.sub].
      rewrite firstn_app.
      replace (k - Spec.trailing_zeros k (n / 10)
               - List.length (list_ascii_of_string (fixed_digits k (n / 10))))%nat
        with 0%nat by lia.
      cbn [firstn]. rewrite app_nil_r. reflexivity.
    + rewrite Nat.sub_0_r.
      rewrite firstn_all2 by (rewrite length_app, L; cbn [List.length]; lia).
      rewrite <- app_assoc. reflexivity.
Qed.

Lemma trailing_zeros_le (k : nat) (n : Z) : (Spec.trailing_zeros k n <= k)%nat.
Proof.
  revert n. induction k as [ | k IH]; intro n; cbn [Spec.trailing_zeros];
    [ lia | ].
  destruct (n mod 10 =? 0); [ specialize (IH (n / 10)) | ]; lia.
Qed.

(** Scanning past a prefix without a point stops at the point. *)
Lemma scan_point_at_point (len i : Z) (pre rest : list ascii) :
  existsb (Ascii.eqb "."%char) pre = false ->
  utils.scan_point len i (pre ++ "."%char :: rest)
  = len - (i + Z.of_nat (List.length pre)) - 1.
Proof.
  revert i. induction pre as [ | c pre IH]; intros i N.
  - cbn. f_equal. lia.
  - cbn [existsb] in N. apply orb_false_elim in N. destruct N as [Nc Np].
    cbn [app utils.scan_point].
    rewrite Ascii.eqb_sym in Nc. rewrite Nc, (IH _ Np).
    cbn [List.length]. lia.
Qed.

Lemma no_point_in_uint (d : Decimal.uint) :
  existsb (Ascii.eqb "."%char) (list_ascii_of_string (NilEmpty.string_of_uint d)) = false.
Proof.
  induction d as [ | d IH | d IH | d IH | d IH | d IH | d IH | d IH | d IH | d IH | d IH];
    cbn [NilEmpty.string_of_uint list_ascii_of_string existsb];
    [ reflexivity | .. ]; rewrite IH; reflexivity.
Qed.

Lemma no_point_in_Sprintf_d (n : Z) :
  existsb (Ascii.eqb "."%char) (list_ascii_of_string (Sprintf_d n)) = false.
Proof.
  unfold Sprintf_d, NilZero.string_of_int, NilZero.string_of_uint.
  destruct (Z.to_int n) as [d | d]; destruct d;
    cbn [list_ascii_of_string existsb]; try reflexivity;
    rewrite ?no_point_in_uint; reflexivity.
Qed.

(** The loops of [DecimalPlaces] over the text of [%.10f] compute the
    decimal-place count. *)
Lemma DecimalPlaces_decimal_places (x : float) :
  utils.DecimalPlaces x = Spec.decimal_places x.
Proof.
  unfold utils.DecimalPlaces, Spec.decimal_places, Sprintf_f.
  destruct (Prim2SF x) as [s | s | | s m e]; cbv zeta.
  - destruct s; reflexivity.
  - destruct s; reflexivity.
  - reflexivity.
  - set (n := scaled_decimal 10 m e).
    set (q := n / 10 ^ Z.of_nat 10). set (r := n mod 10 ^ Z.of_nat 10).
    rewrite !chars_app.
    change (list_ascii_of_string ".") with ["."%char].
    rewrite app_assoc. cbn [app].
    set (pre := (list_ascii_of_string (sign_text s)
                   ++ list_ascii_of_string (Sprintf_d q))%list).
    rewrite trim_fraction.
    rewrite scan_point_at_point.
    + rewrite length_app. cbn [List.length].
      rewrite length_firstn, fixed_digits_chars_length.
      pose proof (trailing_zeros_le 10 r).
      change (10 ^ Z.of_nat 10) with (10 ^ 10) in r. fold r. lia.
    + unfold pre. rewrite existsb_app, no_point_in_Sprintf_d.
      destruct s; reflexivity.
Qed.

End DecimalText.

(* ================================================================== *)
(** ** The rounding helpers of the code with their multiplier closed *)

Section Rounding.

Lemma multiplier_for_scale (d : Z) :
  0 <= d <= 22 -> utils.multiplier_for d = Spec.scale d.
Proof.
  intro R.
  assert (C : In d [0; 1; 2; 3; 4; 5; 6; 7; 8; 9; 10; 11; 12; 13; 14; 15;
                    16; 17; 18; 19; 20; 21; 22]).
  { cbn [In]. lia. }
  cbn [In] in C.
  repeat (destruct C as [C | C]; [ subst d; vm_compute; reflexivity | ]).
  contradiction.
Qed.

Lemma RoundDown_computed (x : float) (d : Z) :
  0 <= d <= 22 -> utils.RoundDown x d = Spec.computed_round_down x d.
Proof.
  intro R. unfold utils.RoundDown, Spec.computed_round_down.
  now rewrite multiplier_for_scale.
Qed.

Lemma RoundUp_computed (x : float) (d : Z) :
  0 <= d <= 22 -> utils.RoundUp x d = Spec.computed_round_up x d.
Proof.
  intro R. unfold utils.RoundUp, Spec.computed_round_up.
  now rewrite increment_does_not_wrap, multiplier_for_scale.
Qed.

Lemma RoundNormal_computed (x : float) (d : Z) :
  0 <= d <= 22 -> utils.RoundNormal x d = Spec.computed_round_normal x d.
Proof.
  intro R. unfold utils.RoundNormal, Spec.computed_round_normal.
  now rewrite multiplier_for_scale.
Qed.

Lemma ToTokenDecimals_scaled_integer (x : float) :
  utils.ToTokenDecimals x = Spec.scaled_integer x.
Proof.
  unfold utils.ToTokenDecimals, Spec.scaled_integer, big_NewFloat, bind,
    bigFloat_Mul, bigFloat_Int.
  destruct (Prim2SF x); reflexivity.
Qed.

(** Every profile the lookup returns keeps its decimals small. *)
Lemma GetRoundingConfig_small (tickSize : types.TickSize) :
  let profile := utils.GetRoundingConfig tickSize in
  1 <= types.Price profile <= 4 /\
  types.Size profile = 2 /\
  types.Amount profile = types.Price profile + 2.
Proof.
  unfold utils.GetRoundingConfig.
  repeat match goal with
         | |- context [ String.eqb ?a ?b ] => destruct (String.eqb a b)
         end; cbn; lia.
Qed.

(** The repair block of the source, as it stands in each branch. *)
Lemma repair_block (profile : types.RoundConfig) (leg : float) :
  3 <= types.Amount profile <= 6 ->
  (if utils.DecimalPlaces leg >? types.Amount profile then
     let leg := utils.RoundUp leg (wrap64 (types.Amount profile + 4)) in
     if utils.DecimalPlaces leg >? types.Amount profile
     then utils.RoundDown leg (types.Amount profile)
     else leg
   else leg) = Spec.computed_repair profile leg.
Proof.
  intro R. unfold Spec.computed_repair. cbv zeta.
  rewrite wrap64_id by (unfold int64_min, int64_max; lia).
  rewrite !Z.gtb_ltb, !DecimalPlaces_decimal_places.
  rewrite RoundUp_computed by lia.
  rewrite RoundDown_computed by lia.
  reflexivity.
Qed.

End Rounding.

(* ================================================================== *)
(** ** Limit and market order amounts *)

Section Amounts.
Context `{Libraries}.

(** The limit computation, branch by branch, is the computation of
    [Spec.computed_limit_amounts] followed by the success metric. *)
Lemma getOrderAmounts_computes
    (ob : orderbuilder.OrderBuilder) (s : Spec.side) (size price : float)
    (tickSize : types.TickSize) :
  orderbuilder.getOrderAmounts ob (Spec.wire s) size price tickSize =
    bind (Spec.computed_limit_amounts s size price (utils.GetRoundingConfig tickSize))
      (fun r => Returned (Ok r,
         orderbuilder.recordMetric ob "order_amounts_calculation" true "")).
Proof.
  pose proof (GetRoundingConfig_small tickSize) as G. cbv zeta in G.
  destruct G as (P & S & A).
  unfold orderbuilder.getOrderAmounts, Spec.computed_limit_amounts, Spec.amounts.
  cbv zeta.
  rewrite !repair_block by lia.
  rewrite !ToTokenDecimals_scaled_integer.
  rewrite RoundNormal_computed by lia.
  rewrite !RoundDown_computed by lia.
  destruct s; cbn [Spec.wire String.eqb Ascii.eqb Bool.eqb types.BUY types.SELL].
  - destruct (Spec.scaled_integer _); cbn [bind]; [ | reflexivity ].
    destruct (Spec.scaled_integer _); reflexivity.
  - destruct (Spec.scaled_integer _); cbn [bind]; [ | reflexivity ].
    destruct (Spec.scaled_integer _); reflexivity.
Qed.

(** The same for the market computation. *)
Lemma getMarketOrderAmounts_computes
    (ob : orderbuilder.OrderBuilder) (s : Spec.side) (amount price : float)
    (tickSize : types.TickSize) :
  orderbuilder.getMarketOrderAmounts ob (Spec.wire s) amount price tickSize =
    bind (Spec.computed_market_amounts s amount price (utils.GetRoundingConfig tickSize))
      (fun r => Returned (Ok r,
         orderbuilder.recordMetric ob "market_order_amounts_calculation" true "")).
Proof.
  pose proof (GetRoundingConfig_small tickSize) as G. cbv zeta in G.
  destruct G as (P & S & A).
  unfold orderbuilder.getMarketOrderAmounts, Spec.computed_market_amounts, Spec.amounts.
  cbv zeta.
  rewrite !repair_block by lia.
  rewrite !ToTokenDecimals_scaled_integer.
  rewrite RoundNormal_computed by lia.
  rewrite !RoundDown_computed by lia.
  destruct s; cbn [Spec.wire String.eqb Ascii.eqb Bool.eqb types.BUY types.SELL].
  - destruct (Spec.scaled_integer _); cbn [bind]; [ | reflexivity ].
    destruct (Spec.scaled_integer _); reflexivity.
  - destruct (Spec.scaled_integer _); cbn [bind]; [ | reflexivity ].
    destruct (Spec.scaled_integer _); reflexivity.
Qed.


(** C2. Scenario A: tick size "0.01" has the profile price=2, size=2,
    amount=4, and BUY of size 10.0 at price 0.55 gives side ordinal 0,
    makerAmount 5,500,000 and takerAmount 10,000,000. *)
Theorem scenario_A_buy_10_at_055 (ob : orderbuilder.OrderBuilder) :
  utils.GetRoundingConfig "0.01"
    = {| types.Price := 2; types.Size := 2; types.Amount := 4 |}
  /\
  orderbuilder.getOrderAmounts ob types.BUY 10 0.55 "0.01"
    = Returned (Ok (0, Some 5500000, Some 10000000),
                orderbuilder.recordMetric ob "order_amounts_calculation" true "").
Proof.
  split; reflexivity.
Qed.

(** Scenario B, the SELL companion of scenario A. *)
Lemma scenario_B_sell_10_at_033333 (ob : orderbuilder.OrderBuilder) :
  orderbuilder.getOrderAmounts ob types.SELL 10 0.33333 "0.01"
    = Returned (Ok (1, Some 10000000, Some 3300000),
                orderbuilder.recordMetric ob "order_amounts_calculation" true "").
Proof.
  reflexivity.
Qed.

End Amounts.


(* ================================================================== *)
(** ** Tick sizes and the price gate *)

Section FloatOrder.

Lemma SFcompare_swap (x y : spec_float) :
  SFcompare y x = option_map CompOpp (SFcompare x y).
Proof.
  destruct x as [sx | sx | | sx mx ex], y as [sy | sy | | sy my ey];
    cbn [SFcompare option_map]; try reflexivity;
    try (destruct sx; reflexivity); try (destruct sy; reflexivity);
    try (destruct sx, sy; reflexivity).
  destruct sx, sy; cbn [CompOpp]; try reflexivity.
  - rewrite (Z.compare_antisym ex ey).
    destruct (ex ?= ey); cbn [CompOpp]; try reflexivity.
    change (Pos.compare_cont Eq my mx) with (Pos.compare my mx).
    change (Pos.compare_cont Eq mx my) with (Pos.compare mx my).
    rewrite (Pos.compare_antisym mx my). reflexivity.
  - rewrite (Z.compare_antisym ex ey).
    destruct (ex ?= ey); cbn [CompOpp]; try reflexivity.
    change (Pos.compare_cont Eq my mx) with (Pos.compare my mx).
    change (Pos.compare_cont Eq mx my) with (Pos.compare mx my).
    rewrite (Pos.compare_antisym mx my). reflexivity.
Qed.

(** On float64, [x < y] excludes [y <= x]. *)
Lemma ltb_excludes_leb (x y : float) :
  (x <? y)%float = true -> (y <=? x)%float = false.
Proof.
  rewrite ltb_spec, leb_spec. unfold SFltb, SFleb.
  rewrite (SFcompare_swap (Prim2SF x) (Prim2SF y)).
  destruct (SFcompare (Prim2SF x) (Prim2SF y)) as [[ | | ] | ];
    cbn [option_map CompOpp]; congruence.
Qed.

End FloatOrder.

Section Ticks.
Context `{Libraries}.

Lemma unrecognized_eqb (tickSize : types.TickSize) :
  ~ Spec.recognized tickSize ->
  String.eqb tickSize "0.1" = false /\ String.eqb tickSize "0.01" = false /\
  String.eqb tickSize "0.001" = false /\ String.eqb tickSize "0.0001" = false.
Proof.
  unfold Spec.recognized. cbn [In]. intro N.
  repeat split; apply String.eqb_neq; intro E; apply N; auto.
Qed.

(** C10. A tick-size string outside "0.1", "0.01", "0.001", "0.0001" parses
    to 0.01 and looks up the profile price=2, size=2, amount=4; price
    validation and both amount computations then behave exactly as for the
    tick size "0.01". *)
Theorem unrecognized_tick_behaves_as_001 (tickSize : types.TickSize) :
  ~ Spec.recognized tickSize ->
  utils.ParseTickSize tickSize = 0.01%float
  /\ utils.GetRoundingConfig tickSize
       = {| types.Price := 2; types.Size := 2; types.Amount := 4 |}
  /\ (forall price, utils.ValidatePrice price tickSize = utils.ValidatePrice price "0.01")
  /\ (forall ob side size price,
        orderbuilder.getOrderAmounts ob side size price tickSize
          = orderbuilder.getOrderAmounts ob side size price "0.01")
  /\ (forall ob side amount price,
        orderbuilder.getMarketOrderAmounts ob side amount price tickSize
          = orderbuilder.getMarketOrderAmounts ob side amount price "0.01").
Proof.
  intro N. destruct (unrecognized_eqb tickSize N) as (E1 & E2 & E3 & E4).
  assert (P : utils.ParseTickSize tickSize = 0.01%float).
  { unfold utils.ParseTickSize, types.TickSize01, types.TickSize001,
      types.TickSize0001, types.TickSize00001.
    now rewrite E1, E2, E3, E4. }
  assert (G : utils.GetRoundingConfig tickSize = utils.GetRoundingConfig "0.01").
  { unfold utils.GetRoundingConfig, types.TickSize01, types.TickSize001,
      types.TickSize0001, types.TickSize00001.
    now rewrite E1, E2, E3, E4. }
  split; [ exact P | ].
  split; [ rewrite G; reflexivity | ].
  split; [ | split ].
  - intro price. unfold utils.ValidatePrice. rewrite P. reflexivity.
  - intros. unfold orderbuilder.getOrderAmounts. rewrite G. reflexivity.
  - intros. unfold orderbuilder.getMarketOrderAmounts. rewrite G. reflexivity.
Qed.

End Ticks.

(** The tick size "0.05" is not a recognized one. *)
Lemma unrecognized_tick_behaves_as_001_at_005 :
  utils.ParseTickSize "0.05" = 0.01%float
  /\ utils.GetRoundingConfig "0.05"
       = {| types.Price := 2; types.Size := 2; types.Amount := 4 |}
  /\ (forall price, utils.ValidatePrice price "0.05" = utils.ValidatePrice price "0.01")
  /\ (forall ob side size price,
        @orderbuilder.getOrderAmounts Sample.libraries ob side size price "0.05"
          = orderbuilder.getOrderAmounts ob side size price "0.01")
  /\ (forall ob side amount price,
        @orderbuilder.getMarketOrderAmounts Sample.libraries ob side amount price "0.05"
          = orderbuilder.getMarketOrderAmounts ob side amount price "0.01").
Proof.
  apply (@unrecognized_tick_behaves_as_001 Sample.libraries "0.05").
  unfold Spec.recognized. cbn [In].
  intros [E | [E | [E | [E | []]]]]; discriminate E.
Defined.

Section PriceGate.
Context `{Libraries}.
Variable GetTickSize :
  client.ClobClient -> string -> result types.TickSize * client.ClobClient.
Variable GetNegRisk :
  client.ClobClient -> string -> result bool * client.ClobClient.

(** On a recognized tick size the gate compares the price with the tick and
    with one minus the tick, the latter being exactly the float64 written
    0.9, 0.99, 0.999 or 0.9999. *)
Lemma ValidatePrice_interval (price : float) (tickSize : types.TickSize) :
  Spec.recognized tickSize ->
  utils.ValidatePrice price tickSize
    = ((Spec.least_price tickSize <=? price)%float
       && (price <=? Spec.greatest_price tickSize)%float).
Proof.
  unfold Spec.recognized. cbn [In].
  intros [E | [E | [E | [E | []]]]]; subst tickSize; vm_compute; reflexivity.
Qed.

Lemma strictly_outside_rejected (price : float) (tickSize : types.TickSize) :
  Spec.recognized tickSize ->
  Spec.strictly_outside price tickSize ->
  utils.ValidatePrice price tickSize = false.
Proof.
  intros R [O | O]; rewrite (ValidatePrice_interval _ _ R);
    apply ltb_excludes_leb in O; rewrite O.
  - reflexivity.
  - apply andb_false_r.
Qed.

(** C3, amended. For every price and each of the four recognized tick
    sizes, the tick being the number the text denotes: validation accepts
    exactly the prices between the tick and one minus the tick, both ends
    included; a price strictly outside is rejected, and order creation then
    returns an error and no signed order, the invalid-price error once the
    caller is authenticated and the order options are resolved. For any
    other tick-size text, whatever number it denotes, validation accepts
    exactly the prices between 0.01 and 0.99. *)
Theorem price_gate_closed_interval (price : float) (tickSize : types.TickSize) :
  (Spec.recognized tickSize ->
   (utils.ValidatePrice price tickSize = true <->
      (Spec.least_price tickSize <=? price)%float = true /\
      (price <=? Spec.greatest_price tickSize)%float = true)
   /\ Spec.decimal_value tickSize = Some (Spec.least_price tickSize)
   /\ utils.ParseTickSize tickSize = Spec.least_price tickSize
   /\ (1.0 - utils.ParseTickSize tickSize)%float = Spec.greatest_price tickSize
   /\ utils.ValidatePrice (Spec.least_price tickSize) tickSize = true
   /\ utils.ValidatePrice (Spec.greatest_price tickSize) tickSize = true
   /\ (Spec.strictly_outside price tickSize ->
       utils.ValidatePrice price tickSize = false
       /\ forall (c c' : client.ClobClient) (now : Z) (random : float)
                 (orderArgs : types.OrderArgs)
                 (options : option types.CreateOrderOptions)
                 (resolved : types.CreateOrderOptions),
            types.oa_Price orderArgs = price ->
            client.resolveOrderOptions GetTickSize GetNegRisk c
                (types.oa_TokenID orderArgs) options = (Ok resolved, c') ->
            types.TickSize_ resolved = tickSize ->
            (exists (msg : string) (c'' : client.ClobClient),
               client.CreateOrder GetTickSize GetNegRisk c now random orderArgs options
                 = Returned (Err msg, c''))
            /\ (types.L1 <= client.authLevel c ->
                client.CreateOrder GetTickSize GetNegRisk c now random orderArgs options
                  = Returned (Err (Spec.InvalidPrice price tickSize),
                              client.recordMetric c' "order_creation" false
                                "invalid price"))))
  /\
  (~ Spec.recognized tickSize ->
   (utils.ValidatePrice price tickSize = true <->
      (0.01 <=? price)%float = true /\ (price <=? 0.99)%float = true)).
Proof.
  split.
  - intro R.
    split; [ rewrite (ValidatePrice_interval _ _ R); apply andb_true_iff | ].
    split; [ | split; [ | split; [ | split; [ | split ] ] ] ].
    + revert R. unfold Spec.recognized. cbn [In].
      intros [E | [E | [E | [E | []]]]]; subst tickSize; vm_compute; reflexivity.
    + revert R. unfold Spec.recognized. cbn [In].
      intros [E | [E | [E | [E | []]]]]; subst tickSize; reflexivity.
    + revert R. unfold Spec.recognized. cbn [In].
      intros [E | [E | [E | [E | []]]]]; subst tickSize; reflexivity.
    + revert R. unfold Spec.recognized. cbn [In].
      intros [E | [E | [E | [E | []]]]]; subst tickSize; reflexivity.
    + revert R. unfold Spec.recognized. cbn [In].
      intros [E | [E | [E | [E | []]]]]; subst tickSize; reflexivity.
    + intro O. pose proof (strictly_outside_rejected _ _ R O) as V.
      split; [ exact V | ].
      intros c c' now random orderArgs options resolved Ep Er Et.
      unfold client.CreateOrder. rewrite Er, Et, Ep, V. cbn [negb].
      destruct (client.authLevel c <? types.L1) eqn:A.
      * split; [ eauto | ]. apply Z.ltb_lt in A. lia.
      * split; [ eauto | ]. intros _. reflexivity.
  - intro N.
    assert (P : utils.ParseTickSize tickSize = 0.01%float).
    { unfold utils.ParseTickSize, types.TickSize01, types.TickSize001,
        types.TickSize0001, types.TickSize00001.
      repeat match goal with
      | |- context [ String.eqb ?a ?b ] =>
          destruct (String.eqb a b) eqn:?E;
          [ apply String.eqb_eq in E; exfalso; apply N;
            unfold Spec.recognized; cbn [In]; auto | clear E ]
      end.
      reflexivity. }
    unfold utils.ValidatePrice. cbv zeta. rewrite P.
    change (1.0 - 0.01)%float with 0.99%float. apply andb_true_iff.
Qed.

End PriceGate.

(** A rejected price at the client: 0.995 lies above 0.99, the greatest
    price of the tick size "0.01". *)
Lemma price_gate_closed_interval_at_0995 :
  Spec.recognized "0.01"
  /\ Spec.strictly_outside 0.995 "0.01"
  /\ utils.ValidatePrice 0.995 "0.01" = false
  /\ client.CreateOrder Sample.tick_001 Sample.not_neg_risk
       Sample.a_client 1700000000 0.5 (Sample.order_at 0.995) None
     = Returned (Err "invalid price 0.995000 for tick size 0.01",
                 client.recordMetric Sample.a_client "order_creation" false
                   "invalid price").
Proof.
  assert (R : Spec.recognized "0.01") by (unfold Spec.recognized; cbn [In]; auto).
  assert (O : Spec.strictly_outside 0.995 "0.01") by (right; reflexivity).
  destruct (proj1 (@price_gate_closed_interval Sample.libraries
                     Sample.tick_001 Sample.not_neg_risk 0.995 "0.01") R)
    as (_ & _ & _ & _ & _ & _ & Out).
  destruct (Out O) as (V & Gate).
  split; [ exact R | ]. split; [ exact O | ]. split; [ exact V | ].
  refine (proj2 (Gate Sample.a_client Sample.a_client 1700000000 0.5%float
                   (Sample.order_at 0.995) None
                   {| types.TickSize_ := "0.01"; types.NegRisk := false |}
                   eq_refl eq_refl eq_refl) _).
  vm_compute. discriminate.
Defined.

(** C3 as worded fails: the text "0.05", which the tick-size retrieval
    gives for a server that answers the number 0.05, denotes that number and
    is no recognized tick size; the price 0.02, which lies below that tick,
    passes validation, and the client signs the order. *)
Lemma price_below_the_tick_005_is_accepted :
  fst (@ClientState.GetTickSize Sample.libraries _ Fixture.NewRequest
         Fixture.keep_header (Fixture.Do 200 "{}")
         (Fixture.Unmarshal (ClientState.float64_value 0.05))
         Fixture.a_client "1234") = Ok "0.05"
  /\ Spec.decimal_value "0.05" = Some 0.05%float
  /\ (0.02 <? 0.05)%float = true
  /\ utils.ValidatePrice 0.02 "0.05" = true
  /\ (exists (signedOrder : types.SignedOrder) (c' : client.ClobClient),
        client.CreateOrder Fixture.tick_005 Sample.not_neg_risk
          Sample.a_client 1700000000 0.5 (Sample.order_at 0.02) None
        = Returned (Ok signedOrder, c')
        /\ types.so_MakerAmount signedOrder = "200000"
        /\ types.so_TakerAmount signedOrder = "10000000")
  /\ ~ Spec.price_gate_as_worded.
Proof.
  assert (D : Spec.decimal_value "0.05" = Some 0.05%float) by (vm_compute; reflexivity).
  assert (V : utils.ValidatePrice 0.02 "0.05" = true) by reflexivity.
  split; [ vm_compute; reflexivity | ].
  split; [ exact D | ]. split; [ reflexivity | ]. split; [ exact V | ].
  split; [ do 2 eexists; split; [ vm_compute; reflexivity | split; reflexivity ] | ].
  intro W. destruct (proj1 (W 0.02%float "0.05" 0.05%float D) V) as [L _].
  vm_compute in L. discriminate L.
Qed.

(* ================================================================== *)
(** ** Signatures *)

Section Slices.

Lemma Z_of_byte_range (b : byte) : 0 <= Z_of_byte b < 256.
Proof.
  unfold Z_of_byte. pose proof (Byte.to_N_bounded b) as B.
  apply N2Z.inj_le in B. change (Z.of_N 255) with 255 in B. lia.
Qed.

Lemma byte_of_Z_of_byte (b : byte) : byte_of_Z (Z_of_byte b) = b.
Proof.
  unfold byte_of_Z. rewrite Z.mod_small by apply Z_of_byte_range.
  unfold Z_of_byte. rewrite N2Z.id, Byte.of_to_N. reflexivity.
Qed.

Lemma Z_of_byte_of_Z (n : Z) : Z_of_byte (byte_of_Z n) = n mod 256.
Proof.
  unfold byte_of_Z, Z_of_byte.
  pose proof (Z.mod_pos_bound n 256 eq_refl) as B.
  destruct (Byte.of_N (Z.to_N (n mod 256))) as [b | ] eqn:E.
  - apply Byte.to_of_N in E. rewrite E. apply Z2N.id. lia.
  - apply Byte.of_N_None_iff in E.
    assert (Z.to_N (n mod 256) < 256)%N; [ | lia ].
    change 256%N with (Z.to_N 256). apply Z2N.inj_lt; lia.
Qed.

Lemma load_inv (buf : list byte) (i : nat) (b : byte) :
  load buf i = Returned b -> nth_error buf i = Some b /\ (i < List.length buf)%nat.
Proof.
  unfold load. destruct (nth_error buf i) as [b' | ] eqn:E; [ | discriminate ].
  intro Q. injection Q as Q. subst b'. split; [ reflexivity | ].
  apply nth_error_Some. congruence.
Qed.

Lemma store_inv (buf buf' : list byte) (i : nat) (b : byte) :
  store buf i b = Returned buf' ->
  List.length buf' = List.length buf
  /\ nth_error buf' i = Some b
  /\ firstn i buf' = firstn i buf.
Proof.
  unfold store. destruct (i <? List.length buf)%nat eqn:L; [ | discriminate ].
  apply Nat.ltb_lt in L. intro Q.
  assert (Q' : buf' = (firstn i buf ++ b :: skipn (S i) buf)%list) by congruence.
  clear Q. subst buf'.
  assert (F : List.length (firstn i buf) = i) by (rewrite length_firstn; lia).
  split; [ | split ].
  - rewrite length_app, F.
    change (List.length (b :: skipn (S i) buf))
      with (S (List.length (skipn (S i) buf))).
    rewrite length_skipn. lia.
  - rewrite nth_error_app2 by lia. rewrite F, Nat.sub_diag. reflexivity.
  - rewrite firstn_app, F, Nat.sub_diag, firstn_O, app_nil_r.
    rewrite firstn_firstn, Nat.min_id. reflexivity.
Qed.

Lemma hex_digit_is_hex (d : Z) : 0 <= d < 16 -> is_hex (hex_digit d) = true.
Proof.
  intro R.
  assert (C : In d [0; 1; 2; 3; 4; 5; 6; 7; 8; 9; 10; 11; 12; 13; 14; 15])
    by (cbn [In]; lia).
  cbn [In] in C.
  repeat (destruct C as [C | C]; [ subst d; reflexivity | ]).
  contradiction.
Qed.

Lemma Sprintf_x_length (bytes : list byte) :
  String.length (Sprintf_x bytes) = (2 * List.length bytes)%nat.
Proof.
  induction bytes as [ | b rest IH]; cbn [Sprintf_x String.length List.length];
    [ reflexivity | rewrite IH; lia ].
Qed.

Lemma Sprintf_x_hex (bytes : list byte) :
  forallb is_hex (list_ascii_of_string (Sprintf_x bytes)) = true.
Proof.
  induction bytes as [ | b rest IH]; cbn [Sprintf_x list_ascii_of_string forallb];
    [ reflexivity | ].
  pose proof (Z_of_byte_range b) as R.
  rewrite IH, !hex_digit_is_hex; [ reflexivity | | ].
  - apply Z.mod_pos_bound. lia.
  - split; [ apply Z.div_pos; lia | apply Z.div_lt_upper_bound; lia ].
Qed.

End Slices.

Section Signatures.
Context `{Libraries}.

(** What [Sign] does to the signature of the library, whatever that is: the
    65th byte is raised by 27 when it is below 27, the rest is kept. *)
Lemma Sign_raises_low_recovery_id
    (s s' : signer.Signer) (digest sig : list byte) :
  signer.Sign s digest = Returned (Ok sig, s') ->
  exists (raw : list byte) (v : byte),
    crypto_Sign digest (signer.privateKey s) = Ok raw
    /\ nth_error raw 64 = Some v
    /\ List.length sig = List.length raw
    /\ firstn 64 sig = firstn 64 raw
    /\ nth_error sig 64
         = Some (if Z_of_byte v <? 27 then byte_of_Z (Z_of_byte v + 27) else v).
Proof.
  unfold signer.Sign.
  destruct (crypto_Sign digest (signer.privateKey s)) as [raw | err];
    [ | discriminate ].
  destruct (load raw 64) as [v | ] eqn:Lv; cbn [bind]; [ | discriminate ].
  apply load_inv in Lv. destruct Lv as [Nv _].
  destruct (Z_of_byte v <? 27) eqn:Low.
  - destruct (store raw 64 (byte_of_Z (Z_of_byte v + 27))) as [stored | ] eqn:St;
      cbn [bind]; [ | discriminate ].
    apply store_inv in St. destruct St as (L & N & F).
    intro Q. injection Q as Q _. subst stored.
    exists raw, v. rewrite Low. repeat split; assumption || reflexivity.
  - cbn [bind]. intro Q. injection Q as Q _. subst sig.
    exists raw, v. rewrite Low. repeat split; assumption || reflexivity.
Qed.

(** A signature of 65 bytes from the library makes [Sign] return one. *)
Lemma Sign_returns (s : signer.Signer) (digest raw : list byte) :
  crypto_Sign digest (signer.privateKey s) = Ok raw ->
  List.length raw = 65%nat ->
  exists sig : list byte,
    signer.Sign s digest
    = Returned (Ok sig, signer.recordMetric s "message_signing" true "").
Proof.
  intros Raw Len. unfold signer.Sign. rewrite Raw.
  unfold load. destruct (nth_error raw 64) as [v | ] eqn:Nv.
  - cbn [bind]. destruct (Z_of_byte v <? 27).
    + unfold store. rewrite Len. cbn [Nat.ltb Nat.leb bind]. eauto.
    + cbn [bind]. eauto.
  - apply nth_error_None in Nv. lia.
Qed.

(** Once the digest of the order exists and the library signs it with 65
    bytes, [signOrder] returns the signed order: the order data with the
    salt and the signature [Sign] returned, as text. *)
Lemma signOrder_signs
    (ob : orderbuilder.OrderBuilder) (now : Z) (random : float)
    (orderData : types.OrderData) (exchangeAddress : string)
    (digest raw : list byte) :
  utils.CreateOrderEIP712Hash orderData (int_of_float (float_of_int now * random))
    exchangeAddress (signer.ChainID (orderbuilder.signer_ ob)) = Returned digest ->
  crypto_Sign digest (signer.privateKey (orderbuilder.signer_ ob)) = Ok raw ->
  List.length raw = 65%nat ->
  exists (sig : list byte) (s' : signer.Signer),
    signer.Sign (orderbuilder.signer_ ob) digest = Returned (Ok sig, s')
    /\ orderbuilder.signOrder ob now random orderData exchangeAddress
       = Returned
           (Ok {| types.so_Salt := int_of_float (float_of_int now * random);
                  types.so_Maker := types.od_Maker orderData;
                  types.so_Signer := types.od_Signer orderData;
                  types.so_Taker := types.od_Taker orderData;
                  types.so_TokenID := types.od_TokenID orderData;
                  types.so_MakerAmount := bigInt_String (types.od_MakerAmount orderData);
                  types.so_TakerAmount := bigInt_String (types.od_TakerAmount orderData);
                  types.so_Expiration := types.od_Expiration orderData;
                  types.so_Nonce := types.od_Nonce orderData;
                  types.so_FeeRateBps := types.od_FeeRateBps orderData;
                  types.so_Side :=
                    if types.od_Side orderData =? 0 then types.BUY else types.SELL;
                  types.so_SignatureType := types.od_SignatureType orderData;
                  types.so_Signature := "0x" ++ Sprintf_x sig |},
            orderbuilder.recordMetric (orderbuilder.with_signer ob s')
              "order_signing" true "").
Proof.
  intros Digest Raw Len.
  destruct (Sign_returns (orderbuilder.signer_ ob) digest raw Raw Len) as (sig & Sg).
  exists sig, (signer.recordMetric (orderbuilder.signer_ ob) "message_signing" true "").
  split; [ exact Sg | ].
  unfold orderbuilder.signOrder. cbv zeta. rewrite Digest. cbn [bind].
  rewrite Sg. reflexivity.
Qed.

(** C5. Under the library's contract, a successful [Sign] returns 65 bytes
    whose last byte, the recovery id, is 27 or 28: the raw 0 or 1 raised by
    27; [Sign] succeeds whenever the library signs; [signOrder] then returns
    a signed order whenever the digest of the order exists; and the
    signature of every signed order is the text 0x followed by the 130
    hexadecimal characters of such 65 bytes. *)
Theorem recovery_id_is_27_or_28 :
  crypto_Sign_contract ->
  (forall (s s' : signer.Signer) (digest sig : list byte),
     signer.Sign s digest = Returned (Ok sig, s') ->
     List.length sig = 65%nat
     /\ (nth_error sig 64 = Some x1b \/ nth_error sig 64 = Some x1c)
     /\ exists (raw : list byte) (v : byte),
          crypto_Sign digest (signer.privateKey s) = Ok raw
          /\ nth_error raw 64 = Some v
          /\ firstn 64 sig = firstn 64 raw
          /\ nth_error sig 64 = Some (byte_of_Z (Z_of_byte v + 27)))
  /\
  (forall (s : signer.Signer) (digest raw : list byte),
     crypto_Sign digest (signer.privateKey s) = Ok raw ->
     exists sig : list byte,
       signer.Sign s digest
       = Returned (Ok sig, signer.recordMetric s "message_signing" true "")
       /\ List.length sig = 65%nat
       /\ (nth_error sig 64 = Some x1b \/ nth_error sig 64 = Some x1c))
  /\
  (forall (ob : orderbuilder.OrderBuilder) (now : Z) (random : float)
          (orderData : types.OrderData) (exchangeAddress : string)
          (digest raw : list byte),
     utils.CreateOrderEIP712Hash orderData (int_of_float (float_of_int now * random))
       exchangeAddress (signer.ChainID (orderbuilder.signer_ ob)) = Returned digest ->
     crypto_Sign digest (signer.privateKey (orderbuilder.signer_ ob)) = Ok raw ->
     exists (sig : list byte) (signedOrder : types.SignedOrder)
            (ob' : orderbuilder.OrderBuilder),
       orderbuilder.signOrder ob now random orderData exchangeAddress
         = Returned (Ok signedOrder, ob')
       /\ types.so_Signature signedOrder = "0x" ++ Sprintf_x sig
       /\ List.length sig = 65%nat
       /\ (nth_error sig 64 = Some x1b \/ nth_error sig 64 = Some x1c)
       /\ String.length (Sprintf_x sig) = 130%nat
       /\ forallb is_hex (list_ascii_of_string (Sprintf_x sig)) = true)
  /\
  (forall (ob ob' : orderbuilder.OrderBuilder) (now : Z) (random : float)
          (orderData : types.OrderData) (exchangeAddress : string)
          (signedOrder : types.SignedOrder),
     orderbuilder.signOrder ob now random orderData exchangeAddress
       = Returned (Ok signedOrder, ob') ->
     exists sig : list byte,
       types.so_Signature signedOrder = "0x" ++ Sprintf_x sig
       /\ List.length sig = 65%nat
       /\ (nth_error sig 64 = Some x1b \/ nth_error sig 64 = Some x1c)
       /\ String.length (Sprintf_x sig) = 130%nat
       /\ forallb is_hex (list_ascii_of_string (Sprintf_x sig)) = true).
Proof.
  intro Contract.
  assert (S : forall (s s' : signer.Signer) (digest sig : list byte),
     signer.Sign s digest = Returned (Ok sig, s') ->
     List.length sig = 65%nat
     /\ (nth_error sig 64 = Some x1b \/ nth_error sig 64 = Some x1c)
     /\ exists (raw : list byte) (v : byte),
          crypto_Sign digest (signer.privateKey s) = Ok raw
          /\ nth_error raw 64 = Some v
          /\ firstn 64 sig = firstn 64 raw
          /\ nth_error sig 64 = Some (byte_of_Z (Z_of_byte v + 27))).
  { intros s s' digest sig E.
    destruct (Sign_raises_low_recovery_id s s' digest sig E)
      as (raw & v & Raw & Nv & L & F & N).
    destruct (Contract _ _ _ Raw) as [Len V].
    assert (V' : v = x00 \/ v = x01) by (rewrite Nv in V; destruct V; [left | right]; congruence).
    split; [ congruence | ].
    split.
    - destruct V' as [V' | V']; subst v; rewrite N; [ left | right ]; reflexivity.
    - exists raw, v. repeat split; try assumption.
      destruct V' as [V' | V']; subst v; rewrite N; reflexivity. }
  assert (T : forall (ob ob' : orderbuilder.OrderBuilder) (now : Z) (random : float)
          (orderData : types.OrderData) (exchangeAddress : string)
          (signedOrder : types.SignedOrder),
     orderbuilder.signOrder ob now random orderData exchangeAddress
       = Returned (Ok signedOrder, ob') ->
     exists sig : list byte,
       types.so_Signature signedOrder = "0x" ++ Sprintf_x sig
       /\ List.length sig = 65%nat
       /\ (nth_error sig 64 = Some x1b \/ nth_error sig 64 = Some x1c)
       /\ String.length (Sprintf_x sig) = 130%nat
       /\ forallb is_hex (list_ascii_of_string (Sprintf_x sig)) = true).
  { intros ob ob' now random orderData exchangeAddress signedOrder.
    unfold orderbuilder.signOrder. cbv zeta.
    destruct (utils.CreateOrderEIP712Hash _ _ _ _) as [orderHash | ]; cbn [bind];
      [ | discriminate ].
    destruct (signer.Sign _ _) as [[[sig | err] s'] | ] eqn:E; cbn [bind];
      try discriminate.
    intro Q. injection Q as Q _. subst signedOrder. cbn [types.so_Signature].
    destruct (S _ _ _ _ E) as (Len & V & _).
    exists sig. repeat split; try assumption.
    - rewrite Sprintf_x_length, Len. reflexivity.
    - apply Sprintf_x_hex. }
  split; [ exact S | ]. split; [ | split; [ | exact T ] ].
  - intros s digest raw Raw.
    destruct (Contract _ _ _ Raw) as [Len _].
    destruct (Sign_returns s digest raw Raw Len) as (sig & Sg).
    exists sig. split; [ exact Sg | ].
    destruct (S _ _ _ _ Sg) as (L & V & _). split; assumption.
  - intros ob now random orderData exchangeAddress digest raw Digest Raw.
    destruct (Contract _ _ _ Raw) as [Len _].
    destruct (signOrder_signs ob now random orderData exchangeAddress digest raw
                Digest Raw Len) as (sig & s' & _ & Sg).
    destruct (T _ _ _ _ _ _ _ Sg) as (sig' & Q & Rest).
    do 3 eexists. split; [ exact Sg | ]. split; [ exact Q | exact Rest ].
Qed.

End Signatures.

(** The stand-in library meets the contract, and signing the order of
    scenario A with it gives a signed order whose signature is 0x and 130
    hexadecimal characters, the recovery id being 28. *)
Lemma recovery_id_is_27_or_28_with_sample :
  @crypto_Sign_contract Sample.libraries
  /\ exists (sig : list byte) (signedOrder : types.SignedOrder)
            (ob' : @orderbuilder.OrderBuilder Sample.libraries),
       @orderbuilder.signOrder Sample.libraries Sample.a_builder 1700000000 0.5
         Sample.order_data "0x4bFb41d5B3570DeFd03C39a9A4D8dE6Bd8B8982E"
       = Returned (Ok signedOrder, ob')
       /\ types.so_Signature signedOrder = "0x" ++ Sprintf_x sig
       /\ List.length sig = 65%nat
       /\ (nth_error sig 64 = Some x1b \/ nth_error sig 64 = Some x1c)
       /\ String.length (Sprintf_x sig) = 130%nat
       /\ forallb is_hex (list_ascii_of_string (Sprintf_x sig)) = true.
Proof.
  assert (C : @crypto_Sign_contract Sample.libraries).
  { intros digest key raw. cbn.
    destruct (List.length digest =? 32)%nat; [ | discriminate ].
    intro Q. injection Q as Q. subst raw. split; [ reflexivity | right; reflexivity ]. }
  split; [ exact C | ].
  exact (proj1 (proj2 (proj2 (@recovery_id_is_27_or_28 Sample.libraries C)))
           Sample.a_builder 1700000000 0.5%float Sample.order_data
           "0x4bFb41d5B3570DeFd03C39a9A4D8dE6Bd8B8982E"
           (repeat x00 32) (repeat x00 64 ++ [x01])%list eq_refl eq_refl).
Defined.

(* ================================================================== *)
(** ** Typed-data encoding and the signed digest *)

Section Encoding.

Lemma big_endian_length (width : nat) (n : Z) :
  List.length (Spec.big_endian width n) = width.
Proof.
  revert n. induction width as [ | width IH]; intro n; cbn [Spec.big_endian];
    [ reflexivity | ].
  rewrite length_app, IH. cbn [List.length]. lia.
Qed.

Lemma big_endian_zero (width : nat) : Spec.big_endian width 0 = repeat x00 width.
Proof.
  induction width as [ | width IH]; cbn [Spec.big_endian]; [ reflexivity | ].
  change (0 / 256) with 0. rewrite IH.
  change [byte_of_Z 0] with (repeat x00 1).
  rewrite <- repeat_app. f_equal. lia.
Qed.

Lemma fold_value_app (bytes : list byte) (b : byte) (acc : Z) :
  fold_left (fun a c => 256 * a + Z_of_byte c) (bytes ++ [b]) acc
  = 256 * fold_left (fun a c => 256 * a + Z_of_byte c) bytes acc + Z_of_byte b.
Proof.
  rewrite fold_left_app. reflexivity.
Qed.

(** Decoding the big-endian form gives the integer back: it is exact below
    [256^width]. *)
Lemma big_endian_round_trip (width : nat) (n : Z) :
  0 <= n < 256 ^ Z.of_nat width ->
  Spec.big_endian_value (Spec.big_endian width n) = n.
Proof.
  unfold Spec.big_endian_value. revert n.
  induction width as [ | width IH]; intros n R.
  - cbn in *. lia.
  - cbn [Spec.big_endian]. rewrite fold_value_app, Z_of_byte_of_Z.
    rewrite Nat2Z.inj_succ, Z.pow_succ_r in R by lia.
    rewrite IH.
    + pose proof (Z.div_mod n 256). lia.
    + split; [ apply Z.div_pos; lia | apply Z.div_lt_upper_bound; lia ].
Qed.

Lemma le_bytes_padded (width : nat) :
  forall (fuel : nat) (n : Z),
    0 <= n < 256 ^ Z.of_nat width ->
    n < 256 ^ Z.of_nat fuel ->
    (List.length (le_bytes fuel n) <= width)%nat
    /\ (repeat x00 (width - List.length (le_bytes fuel n)) ++ rev (le_bytes fuel n))%list
       = Spec.big_endian width n.
Proof.
  induction width as [ | width IH]; intros fuel n R F.
  - assert (n = 0) by (cbn in R; lia). subst n.
    destruct fuel; cbn; auto.
  - destruct (Z.eq_dec n 0) as [Z | NZ].
    + subst n. rewrite big_endian_zero.
      assert (E : le_bytes fuel 0 = []) by (destruct fuel; reflexivity).
      rewrite E. cbn [List.length rev]. rewrite app_nil_r, Nat.sub_0_r.
      split; [ lia | reflexivity ].
    + destruct fuel as [ | fuel]; [ cbn in F; lia | ].
      cbn [le_bytes]. destruct (n <=? 0) eqn:P; [ apply Z.leb_le in P; lia | ].
      rewrite Nat2Z.inj_succ, Z.pow_succ_r in R, F by lia.
      destruct (IH fuel (n / 256)) as [L E].
      * split; [ apply Z.div_pos; lia | apply Z.div_lt_upper_bound; lia ].
      * apply Z.div_lt_upper_bound; lia.
      * cbn [List.length rev Spec.big_endian]. split; [ lia | ].
        rewrite <- E, <- app_assoc.
        replace (S width - S (List.length (le_bytes fuel (n / 256))))%nat
          with (width - List.length (le_bytes fuel (n / 256)))%nat by lia.
        reflexivity.
Qed.

(** [FillBytes] into 32 zero bytes is the uint256 encoding. *)
Lemma FillBytes_uint256 (n : Z) :
  Spec.uint256 n ->
  FillBytes (Some n) (make 32) = Returned (Spec.encode_uint256 n).
Proof.
  unfold Spec.uint256, FillBytes, abs_bytes, Spec.encode_uint256. intro R.
  rewrite Z.abs_eq by lia.
  destruct (le_bytes_padded 32 (S (Z.to_nat (Z.log2 n))) n) as [L E].
  - change (256 ^ Z.of_nat 32) with (2 ^ 256). exact R.
  - destruct (Z.eq_dec n 0) as [Z | NZ]; [ subst n; reflexivity | ].
    rewrite Nat2Z.inj_succ, Z2Nat.id by apply Z.log2_nonneg.
    eapply Z.lt_le_trans; [ apply Z.log2_spec; lia | ].
    change 256 with (2 ^ 8). rewrite <- Z.pow_mul_r by (pose proof (Z.log2_nonneg n); lia).
    apply Z.pow_le_mono_r; pose proof (Z.log2_nonneg n); lia.
  - rewrite length_rev.
    change (List.length (make 32)) with 32%nat.
    destruct (_ <=? 32)%nat eqn:C; [ | apply Nat.leb_gt in C; lia ].
    rewrite E. reflexivity.
Qed.

Lemma pad_address_encode `{Libraries} (a : Address) :
  utils.pad_address a = Spec.encode_address a.
Proof.
  unfold utils.pad_address, copy_at, Spec.encode_address.
  rewrite (Bytes_length a).
  change (Nat.min (List.length (make 32) - 12) 20) with 20%nat.
  change (firstn 12 (make 32)) with (repeat x00 12).
  change (skipn (12 + 20) (make 32)) with (@nil byte).
  rewrite app_nil_r.
  rewrite <- (Bytes_length a), firstn_all. reflexivity.
Qed.

Lemma store_uint8 (n : Z) :
  store (make 32) 31 (byte_of_Z n) = Returned (Spec.encode_uint8 n).
Proof. reflexivity. Qed.

Lemma order_fields_32 (o : Spec.Order) :
  Forall (fun field => List.length field = 32%nat) (Spec.order_fields o).
Proof.
  unfold Spec.order_fields, Spec.encode_uint256, Spec.encode_address,
    Spec.encode_uint8.
  repeat (apply Forall_cons || apply Forall_nil);
    rewrite ?big_endian_length, ?length_app, ?repeat_length, ?Bytes_length;
    reflexivity.
Qed.

End Encoding.

Section SignedDigest.
Context `{Libraries}.

Lemma parse_big_reads (s : string) (n : Z) :
  SetString10 s = Some n -> utils.parse_big s = Some n.
Proof.
  unfold utils.parse_big. intro E. rewrite E. reflexivity.
Qed.

Lemma CreateOrderStructHash_struct_hash
    (orderData : types.OrderData) (salt : Z) (o : Spec.Order) :
  Spec.reads_as orderData salt o ->
  Spec.well_typed o ->
  utils.CreateOrderStructHash orderData salt = Returned (Spec.struct_hash o).
Proof.
  intros (Es & Em & Esg & Et & Etok & Ema & Eta & Eex & Eno & Efe & Esi & Ety)
         (Ws & Wtok & Wma & Wta & Wex & Wno & Wfe & Wsi & Wty).
  unfold utils.CreateOrderStructHash. cbv zeta.
  rewrite (parse_big_reads _ _ Etok), (parse_big_reads _ _ Eex),
    (parse_big_reads _ _ Eno), (parse_big_reads _ _ Efe), Ema, Eta.
  rewrite <- Es, <- Em, <- Esg, <- Et, <- Esi, <- Ety.
  rewrite !FillBytes_uint256 by assumption. cbn [bind].
  rewrite !store_uint8. cbn [bind].
  rewrite !pad_address_encode.
  unfold Spec.struct_hash, Spec.order_type_hash, Spec.order_fields,
    utils.bytes_of_string.
  cbn [List.concat]. rewrite app_nil_r. rewrite !app_assoc. reflexivity.
Qed.

(** C4. For an order whose fields are values of their schema types, the
    digest that is signed is keccak256(0x19 0x01 ‖ domainSeparator ‖
    structHash), with structHash = keccak256(typeHash ‖ fields) over the
    twelve fields salt, maker, signer, taker, tokenId, makerAmount,
    takerAmount, expiration, nonce, feeRateBps, side, signatureType in this
    order, each 32 bytes: an address after twelve zero bytes, a uint256
    big-endian, a uint8 in the last byte. *)
Theorem signed_digest_is_typed_data_hash
    (orderData : types.OrderData) (salt : Z) (exchangeAddress : string)
    (chainID : Z) (o : Spec.Order) :
  Spec.reads_as orderData salt o ->
  Spec.well_typed o ->
  Spec.uint256 chainID ->
  let domainSeparator := Spec.order_domain chainID (HexToAddress exchangeAddress) in
  let structHash := Spec.struct_hash o in
  utils.CreateOrderStructHash orderData salt = Returned structHash
  /\ structHash
       = Keccak256 (Spec.order_type_hash
           ++ Spec.encode_uint256 (Spec.salt o)
           ++ Spec.encode_address (Spec.maker o)
           ++ Spec.encode_address (Spec.signer o)
           ++ Spec.encode_address (Spec.taker o)
           ++ Spec.encode_uint256 (Spec.tokenId o)
           ++ Spec.encode_uint256 (Spec.makerAmount o)
           ++ Spec.encode_uint256 (Spec.takerAmount o)
           ++ Spec.encode_uint256 (Spec.expiration o)
           ++ Spec.encode_uint256 (Spec.nonce o)
           ++ Spec.encode_uint256 (Spec.feeRateBps o)
           ++ Spec.encode_uint8 (Spec.order_side o)
           ++ Spec.encode_uint8 (Spec.signatureType o))%list
  /\ Forall (fun field => List.length field = 32%nat) (Spec.order_fields o)
  /\ utils.CreateOrderEIP712Hash orderData salt exchangeAddress chainID
       = Returned (Keccak256 ([x19; x01] ++ domainSeparator ++ structHash)%list)
  /\ forall (ob ob' : orderbuilder.OrderBuilder) (now : Z) (random : float)
            (signedOrder : types.SignedOrder),
       signer.ChainID (orderbuilder.signer_ ob) = chainID ->
       int_of_float (float_of_int now * random) = salt ->
       orderbuilder.signOrder ob now random orderData exchangeAddress
         = Returned (Ok signedOrder, ob') ->
       types.so_Salt signedOrder = salt
       /\ exists raw : list byte,
            crypto_Sign (Spec.signing_digest domainSeparator structHash)
              (signer.privateKey (orderbuilder.signer_ ob)) = Ok raw.
Proof.
  intros Reads Typed Chain. cbv zeta.
  pose proof (CreateOrderStructHash_struct_hash _ _ _ Reads Typed) as SH.
  assert (EH : utils.CreateOrderEIP712Hash orderData salt exchangeAddress chainID
       = Returned (Spec.signing_digest
                     (Spec.order_domain chainID (HexToAddress exchangeAddress))
                     (Spec.struct_hash o))).
  { unfold utils.CreateOrderEIP712Hash, utils.CreatePolymarketDomain. cbv zeta.
    rewrite FillBytes_uint256 by assumption. cbn [bind].
    rewrite SH. cbn [bind].
    rewrite pad_address_encode.
    unfold utils.CreateEIP712Hash, Spec.signing_digest, Spec.order_domain,
      utils.bytes_of_string.
    cbn [app]. rewrite !app_assoc. reflexivity. }
  split; [ exact SH | ].
  split; [ unfold Spec.struct_hash, Spec.order_fields; cbn [List.concat];
           rewrite app_nil_r; reflexivity | ].
  split; [ apply order_fields_32 | ].
  split; [ exact EH | ].
  intros ob ob' now random signedOrder Ec Esalt.
  unfold orderbuilder.signOrder. cbv zeta. rewrite Ec, Esalt, EH. cbn [bind].
  destruct (signer.Sign _ _) as [[[sig | err] s'] | ] eqn:E; cbn [bind];
    try discriminate.
  intro Q. injection Q as Q _. subst signedOrder. split; [ reflexivity | ].
  destruct (Sign_raises_low_recovery_id _ _ _ _ E) as (raw & v & Raw & _).
  exists raw. exact Raw.
Qed.

End SignedDigest.

(** The digest of the order of scenario A, salt 850000000, on chain 137. *)
Lemma signed_digest_is_typed_data_hash_scenario_A :
  @utils.CreateOrderEIP712Hash Sample.libraries Sample.order_data 850000000
      "0x4bFb41d5B3570DeFd03C39a9A4D8dE6Bd8B8982E" 137
    = Returned (@Spec.signing_digest Sample.libraries
        (@Spec.order_domain Sample.libraries 137
           (@HexToAddress Sample.libraries "0x4bFb41d5B3570DeFd03C39a9A4D8dE6Bd8B8982E"))
        (@Spec.struct_hash Sample.libraries Sample.typed_order)).
Proof.
  refine (proj1 (proj2 (proj2 (proj2
    (@signed_digest_is_typed_data_hash Sample.libraries Sample.order_data 850000000
       "0x4bFb41d5B3570DeFd03C39a9A4D8dE6Bd8B8982E" 137 Sample.typed_order _ _ _))))).
  - unfold Spec.reads_as. repeat split.
  - unfold Spec.well_typed, Spec.uint256, Spec.uint8. cbn.
    repeat split; (discriminate || reflexivity).
  - unfold Spec.uint256. split; (discriminate || reflexivity).
Defined.

(* ================================================================== *)
(** ** Level-2 headers *)

Section Level2Headers.
Context `{Libraries}.

(** C6, amended. Level-2 header construction fails with
    [InvalidCredentialSecret] exactly when the secret does not decode as
    base64url; when the secret decodes and a request body is supplied that
    [json.Marshal] rejects, it fails with the marshalling error; otherwise
    the signature is base64url(HMAC-SHA256(decoded secret, timestamp ++
    method ++ path ++ body)), the body term being present iff a body is
    supplied and being its JSON text with every single quote replaced by a
    double quote, nothing standing between the parts. *)
Theorem level2_signature_or_failure
    (h : auth.HeaderBuilder) (timestamp : Z) (creds : types.ApiCreds)
    (requestArgs : auth.RequestArgs) :
  let message := Sprintf_d timestamp ++ auth.Method requestArgs
                   ++ auth.RequestPath requestArgs in
  fst (auth.CreateLevel2Headers h timestamp creds requestArgs) =
    match base64_URLEncoding_DecodeString (types.ApiSecret creds) with
    | Err err => Err (Spec.InvalidCredentialSecret err)
    | Ok key =>
        match auth.Body requestArgs with
        | None =>
            Ok (Spec.level2_headers h timestamp creds
                  (Spec.level2_signature key message))
        | Some body =>
            match json_Marshal body with
            | Err err =>
                Err ("failed to build HMAC signature: failed to marshal body: " ++ err)
            | Ok json =>
                Ok (Spec.level2_headers h timestamp creds
                      (Spec.level2_signature key
                         (message ++ auth.replace_quotes json)))
            end
        end
    end.
Proof.
  cbv zeta. unfold auth.CreateLevel2Headers, auth.buildHMACSignature.
  destruct (base64_URLEncoding_DecodeString (types.ApiSecret creds)) as [key | err];
    [ | reflexivity ].
  destruct (auth.Body requestArgs) as [body | ]; [ | reflexivity ].
  destruct (json_Marshal body) as [json | err]; reflexivity.
Qed.

End Level2Headers.

(** C6 as worded fails: the secret c2VjcmV0 decodes, yet with a channel as
    request body no signature is produced. *)
Lemma level2_fails_on_unserializable_body :
  @base64_URLEncoding_DecodeString Sample.libraries
      (types.ApiSecret Sample.credentials)
    = Ok (list_byte_of_string "secret")
  /\ fst (auth.CreateLevel2Headers Sample.a_header_builder 1700000000
            Sample.credentials Sample.post_of_channel)
     = Err "failed to build HMAC signature: failed to marshal body: json: unsupported type: chan int"
  /\ ~ Spec.level2_as_worded Sample.a_header_builder 1700000000
         Sample.credentials Sample.post_of_channel.
Proof.
  split; [ reflexivity | ]. split; [ reflexivity | ].
  unfold Spec.level2_as_worded.
  change (@base64_URLEncoding_DecodeString Sample.libraries
            (types.ApiSecret Sample.credentials))
    with (@Ok (list byte) (list_byte_of_string "secret")).
  intros (body_term & _ & E).
  change (fst (auth.CreateLevel2Headers Sample.a_header_builder 1700000000
                 Sample.credentials Sample.post_of_channel))
    with (@Err (list (string * string))
            "failed to build HMAC signature: failed to marshal body: json: unsupported type: chan int")
    in E.
  discriminate E.
Qed.

(* ================================================================== *)
(** ** Salts *)

Section SaltGeneration.
Context `{Libraries}.

(** C8, amended. The salt of a signed order is the integer part of the
    product of the clock reading in seconds and the random fraction drawn
    when it is signed; it does not depend on the order, so two signed orders
    of one signer have different salts only if their clock reading or their
    random draw differ. *)
Theorem salt_is_clock_times_random :
  (forall (ob ob' : orderbuilder.OrderBuilder) (now : Z) (random : float)
          (orderData : types.OrderData) (exchangeAddress : string)
          (signedOrder : types.SignedOrder),
     orderbuilder.signOrder ob now random orderData exchangeAddress
       = Returned (Ok signedOrder, ob') ->
     types.so_Salt signedOrder = int_of_float (float_of_int now * random))
  /\
  (forall (ob ob1 ob2 : orderbuilder.OrderBuilder)
          (now1 now2 : Z) (random1 random2 : float)
          (orderData1 orderData2 : types.OrderData)
          (exchangeAddress1 exchangeAddress2 : string)
          (signed1 signed2 : types.SignedOrder),
     orderbuilder.signOrder ob now1 random1 orderData1 exchangeAddress1
       = Returned (Ok signed1, ob1) ->
     orderbuilder.signOrder ob1 now2 random2 orderData2 exchangeAddress2
       = Returned (Ok signed2, ob2) ->
     types.so_Salt signed1 <> types.so_Salt signed2 ->
     now1 <> now2 \/ random1 <> random2).
Proof.
  assert (S : forall (ob ob' : orderbuilder.OrderBuilder) (now : Z) (random : float)
          (orderData : types.OrderData) (exchangeAddress : string)
          (signedOrder : types.SignedOrder),
     orderbuilder.signOrder ob now random orderData exchangeAddress
       = Returned (Ok signedOrder, ob') ->
     types.so_Salt signedOrder = int_of_float (float_of_int now * random)).
  { intros ob ob' now random orderData exchangeAddress signedOrder.
    unfold orderbuilder.signOrder. cbv zeta.
    destruct (utils.CreateOrderEIP712Hash _ _ _ _) as [orderHash | ]; cbn [bind];
      [ | discriminate ].
    destruct (signer.Sign _ _) as [[[sig | err] s'] | ]; cbn [bind];
      try discriminate.
    intro Q. injection Q as Q _. subst signedOrder. reflexivity. }
  split; [ exact S | ].
  intros ob ob1 ob2 now1 now2 random1 random2 orderData1 orderData2
    exchangeAddress1 exchangeAddress2 signed1 signed2 E1 E2 D.
  apply S in E1. apply S in E2.
  destruct (Z.eq_dec now1 now2) as [En | Nn]; [ | left; exact Nn ].
  right. intro Er. apply D. rewrite E1, E2, En, Er. reflexivity.
Qed.

End SaltGeneration.

(** C8 as worded fails: two orders for different tokens, signed within the
    second 1700000000 with the draws 0.5 and 0.5000000002, both get the salt
    850000000. *)
Lemma equal_salts_of_distinct_orders :
  (exists (ob1 ob2 : orderbuilder.OrderBuilder) (signed1 signed2 : types.SignedOrder),
     orderbuilder.signOrder Sample.a_builder 1700000000 0.5
         Sample.order_data "0x4bFb41d5B3570DeFd03C39a9A4D8dE6Bd8B8982E"
       = Returned (Ok signed1, ob1)
     /\ orderbuilder.signOrder ob1 1700000000 0.5000000002
          Sample.other_order_data "0x4bFb41d5B3570DeFd03C39a9A4D8dE6Bd8B8982E"
        = Returned (Ok signed2, ob2)
     /\ types.so_TokenID signed1 = "1234"
     /\ types.so_TokenID signed2 = "5678"
     /\ types.so_Salt signed1 = 850000000
     /\ types.so_Salt signed2 = 850000000)
  /\ ~ @Spec.salts_unique_as_worded Sample.libraries.
Proof.
  destruct (orderbuilder.signOrder Sample.a_builder 1700000000 0.5
              Sample.order_data "0x4bFb41d5B3570DeFd03C39a9A4D8dE6Bd8B8982E")
    as [[[signed1 | err] ob1] | ] eqn:E1; try (vm_compute in E1; discriminate E1).
  destruct (orderbuilder.signOrder ob1 1700000000 0.5000000002
              Sample.other_order_data "0x4bFb41d5B3570DeFd03C39a9A4D8dE6Bd8B8982E")
    as [[[signed2 | err] ob2] | ] eqn:E2;
    try (vm_compute in E1; injection E1 as E1 E1'; subst signed1 ob1;
         vm_compute in E2; discriminate E2).
  assert (F : types.so_TokenID signed1 = "1234"
     /\ types.so_TokenID signed2 = "5678"
     /\ types.so_Salt signed1 = 850000000
     /\ types.so_Salt signed2 = 850000000).
  { vm_compute in E1. injection E1 as E1 E1'. subst signed1 ob1.
    vm_compute in E2. injection E2 as E2 E2'. subst signed2 ob2.
    repeat split. }
  destruct F as (T1 & T2 & S1 & S2).
  split.
  - exists ob1, ob2, signed1, signed2. repeat split; assumption.
  - intro U. refine (U _ _ _ _ _ _ _ _ _ _ _ _ E1 E2 _ _).
    + intro Q. rewrite Q, T2 in T1. discriminate T1.
    + rewrite S1, S2. reflexivity.
Qed.

(* ================================================================== *)
(** ** Signs of the amounts *)

Section Signs.

(** Rounding keeps the sign it is given. *)
Lemma binary_round_aux_sign (p emx : Z) (s : bool) (m e : Z) (l : location) :
  match binary_round_aux p emx s m e l with
  | S754_zero s' | S754_infinity s' | S754_finite s' _ _ => s' = s
  | S754_nan => True
  end.
Proof.
  unfold binary_round_aux.
  destruct (shr_fexp p emx m e l) as [mrs' e'].
  destruct (shr_fexp p emx _ e' loc_Exact) as [mrs'' e''].
  destruct (shr_m mrs''); [ reflexivity | | exact I ].
  destruct (e'' <=? emx - p); reflexivity.
Qed.

Lemma binary_round_aux_clear (p emx : Z) (m e : Z) (l : location) :
  Spec.SFsign_clear (binary_round_aux p emx false m e l).
Proof.
  pose proof (binary_round_aux_sign p emx false m e l) as S.
  destruct (binary_round_aux p emx false m e l); cbn; auto.
Qed.

Lemma SFsign_clear_nonneg (v : spec_float) : Spec.SFsign_clear v -> Spec.SFnonneg v.
Proof.
  destruct v; cbn; auto.
Qed.

Lemma binary_normalize_clear (p emx : Z) (m e : Z) :
  0 <= m -> Spec.SFsign_clear (binary_normalize p emx m e false).
Proof.
  intro P. destruct m as [ | m | m]; [ reflexivity | | lia ].
  cbn [binary_normalize]. unfold binary_round.
  destruct (shl_align _ _ _). apply binary_round_aux_clear.
Qed.

Lemma SFmul_nonneg (p emx : Z) (x y : spec_float) :
  Spec.SFnonneg x -> Spec.SFnonneg y -> Spec.SFnonneg (SFmul p emx x y).
Proof.
  destruct x as [sx | sx | | sx mx ex], y as [sy | sy | | sy my ey];
    cbn [Spec.SFnonneg SFmul]; intros X Y; subst; try exact I; try reflexivity.
  apply SFsign_clear_nonneg, binary_round_aux_clear.
Qed.

Lemma SFmul_clear (p emx : Z) (x y : spec_float) :
  Spec.SFsign_clear x -> Spec.SFsign_clear y -> Spec.SFsign_clear (SFmul p emx x y).
Proof.
  destruct x as [sx | sx | | sx mx ex], y as [sy | sy | | sy my ey];
    cbn [Spec.SFsign_clear SFmul]; intros X Y; subst; try exact I; try reflexivity.
  apply binary_round_aux_clear.
Qed.

Lemma SFdiv_clear (p emx : Z) (x y : spec_float) :
  Spec.SFsign_clear x -> Spec.SFsign_clear y -> Spec.SFsign_clear (SFdiv p emx x y).
Proof.
  destruct x as [sx | sx | | sx mx ex], y as [sy | sy | | sy my ey];
    cbn [Spec.SFsign_clear SFdiv]; intros X Y; subst; try exact I; try reflexivity.
  match goal with
  | |- context [ SFdiv_core_binary ?a ?b ?c ?d ?e ?f ] =>
      destruct (SFdiv_core_binary a b c d e f) as [[mz ez] lz]
  end.
  apply binary_round_aux_clear.
Qed.

Lemma SFadd_nonneg (p emx : Z) (x y : spec_float) :
  Spec.SFnonneg x -> Spec.SFnonneg y -> Spec.SFnonneg (SFadd p emx x y).
Proof.
  destruct x as [sx | sx | | sx mx ex], y as [sy | sy | | sy my ey];
    cbn [Spec.SFnonneg SFadd]; intros X Y; subst; try exact I; try reflexivity;
    try (destruct sx; exact I); try (destruct sx, sy; exact I).
  apply SFsign_clear_nonneg, binary_normalize_clear. cbn [cond_Zopp]. lia.
Qed.

Lemma SFtrunc_nonneg (v : spec_float) (z : Z) :
  Spec.SFnonneg v -> SFtrunc v = Some z -> 0 <= z.
Proof.
  destruct v as [s | s | | s m e]; cbn [Spec.SFnonneg SFtrunc]; intros N E;
    try discriminate E.
  - injection E as E. lia.
  - subst s. injection E as E. subst z.
    destruct e as [ | p | p].
    + apply Z.shiftl_nonneg. lia.
    + apply Z.shiftl_nonneg. lia.
    + apply Z.shiftr_nonneg. lia.
Qed.

Lemma leb_zero_nonneg (x : float) : (0 <=? x)%float = true -> Spec.nonneg x.
Proof.
  rewrite leb_spec. unfold Spec.nonneg.
  change (Prim2SF 0) with (S754_zero false).
  destruct (Prim2SF x) as [s | s | | s m e]; cbn; try (intros; exact I);
    destruct s; (discriminate || reflexivity).
Qed.

Lemma sign_clear_nonneg (x : float) : Spec.sign_clear x -> Spec.nonneg x.
Proof. apply SFsign_clear_nonneg. Qed.

Lemma mul_nonneg (x y : float) : Spec.nonneg x -> Spec.nonneg y -> Spec.nonneg (x * y).
Proof.
  unfold Spec.nonneg. rewrite mul_spec. apply SFmul_nonneg.
Qed.

Lemma mul_clear (x y : float) :
  Spec.sign_clear x -> Spec.sign_clear y -> Spec.sign_clear (x * y).
Proof.
  unfold Spec.sign_clear. rewrite mul_spec. apply SFmul_clear.
Qed.

Lemma div_clear (x y : float) :
  Spec.sign_clear x -> Spec.sign_clear y -> Spec.sign_clear (x / y).
Proof.
  unfold Spec.sign_clear. rewrite div_spec. apply SFdiv_clear.
Qed.

Lemma add_nonneg (x y : float) : Spec.nonneg x -> Spec.nonneg y -> Spec.nonneg (x + y).
Proof.
  unfold Spec.nonneg. rewrite add_spec. apply SFadd_nonneg.
Qed.

(** Below [2^63] the conversion of an integer is the primitive one, hence a
    valid float64. *)
Lemma Prim2SF_float_of_int (n : Z) :
  0 <= n < 2 ^ 63 ->
  Prim2SF (float_of_int n) = binary_normalize prec emax n 0 false.
Proof.
  intro R. unfold float_of_int. apply Prim2SF_SF2Prim.
  pose proof (of_uint63_spec (Uint63.of_Z n)) as S.
  pose proof (Uint63.of_Z_spec n) as Z.
  change Uint63.to_Z with Uint63Axioms.to_Z in Z.
  rewrite Z, Z.mod_small in S by (exact R).
  rewrite <- S. apply Prim2SF_valid.
Qed.

Lemma float_of_int_clear (n : Z) :
  0 <= n <= int64_max -> Spec.sign_clear (float_of_int n).
Proof.
  intro R. unfold Spec.sign_clear. rewrite Prim2SF_float_of_int.
  - apply binary_normalize_clear. lia.
  - unfold int64_max in R. lia.
Qed.

Lemma int_of_float_nonneg (x : float) :
  Spec.nonneg x -> int_conversion_defined x = true ->
  0 <= int_of_float x <= int64_max.
Proof.
  unfold Spec.nonneg, int_conversion_defined, int_of_float. intros N D.
  destruct (SFtrunc (Prim2SF x)) as [z | ] eqn:T; [ | discriminate D ].
  rewrite D. split.
  - eapply SFtrunc_nonneg; eassumption.
  - unfold in_int64 in D. apply andb_prop in D. lia.
Qed.

Lemma scale_clear (d : Z) : 0 <= d <= 18 -> Spec.sign_clear (Spec.scale d).
Proof.
  intro R. unfold Spec.scale. apply float_of_int_clear.
  split; [ apply Z.pow_nonneg; lia | ].
  apply Z.le_trans with (10 ^ 18); [ apply Z.pow_le_mono_r; lia | ].
  unfold int64_max. vm_compute. discriminate.
Qed.

End Signs.

Section NonNegativeAmounts.
Context `{Libraries}.

Lemma half_nonneg : Spec.nonneg 0.5.
Proof. reflexivity. Qed.

Lemma computed_round_down_clear (x : float) (d : Z) :
  0 <= d <= 18 -> Spec.nonneg x ->
  int_conversion_defined (x * Spec.scale d) = true ->
  Spec.sign_clear (Spec.computed_round_down x d).
Proof.
  intros R N D. unfold Spec.computed_round_down.
  pose proof (scale_clear d R) as S.
  apply div_clear; [ | exact S ].
  apply float_of_int_clear, int_of_float_nonneg; [ | exact D ].
  apply mul_nonneg; [ exact N | apply sign_clear_nonneg, S ].
Qed.

Lemma computed_round_normal_clear (x : float) (d : Z) :
  0 <= d <= 18 -> Spec.nonneg x ->
  int_conversion_defined (x * Spec.scale d + 0.5) = true ->
  Spec.sign_clear (Spec.computed_round_normal x d).
Proof.
  intros R N D. unfold Spec.computed_round_normal.
  pose proof (scale_clear d R) as S.
  apply div_clear; [ | exact S ].
  apply float_of_int_clear, int_of_float_nonneg; [ | exact D ].
  apply add_nonneg; [ | exact half_nonneg ].
  apply mul_nonneg; [ exact N | apply sign_clear_nonneg, S ].
Qed.

Lemma computed_round_up_clear (x : float) (d : Z) :
  0 <= d <= 18 -> Spec.nonneg x ->
  int_conversion_defined (x * Spec.scale d) = true ->
  Spec.sign_clear (Spec.computed_round_up x d).
Proof.
  intros R N D. unfold Spec.computed_round_up.
  pose proof (scale_clear d R) as S.
  apply div_clear; [ | exact S ].
  apply float_of_int_clear.
  assert (P : 0 <= int_of_float (x * Spec.scale d) <= int64_max).
  { apply int_of_float_nonneg; [ | exact D ].
    apply mul_nonneg; [ exact N | apply sign_clear_nonneg, S ]. }
  pose proof (int_of_float_below_max (x * Spec.scale d)). lia.
Qed.

Lemma computed_repair_clear (profile : types.RoundConfig) (leg : float) :
  3 <= types.Amount profile <= 6 ->
  Spec.sign_clear leg ->
  forallb int_conversion_defined (Spec.repair_conversions profile leg) = true ->
  Spec.sign_clear (Spec.computed_repair profile leg).
Proof.
  intros R C. unfold Spec.repair_conversions, Spec.computed_repair.
  destruct (types.Amount profile <? Spec.decimal_places leg); [ | intros _; exact C ].
  cbn [forallb]. intro D. apply andb_prop in D. destruct D as [D1 D2].
  assert (U : Spec.sign_clear (Spec.computed_round_up leg (types.Amount profile + 4))).
  { apply computed_round_up_clear; [ lia | apply sign_clear_nonneg, C | exact D1 ]. }
  cbv zeta in D2.
  destruct (types.Amount profile <? Spec.decimal_places _); [ | exact U ].
  cbn [forallb] in D2. apply andb_prop in D2. destruct D2 as [D2 _].
  apply computed_round_down_clear; [ lia | apply sign_clear_nonneg, U | exact D2 ].
Qed.

Lemma scaled_integer_nonneg (leg : float) (amount : bigInt) (z : Z) :
  Spec.nonneg leg ->
  Spec.scaled_integer leg = Returned amount -> amount = Some z -> 0 <= z.
Proof.
  unfold Spec.nonneg, Spec.scaled_integer. intros N E A. subst amount.
  assert (T : SFtrunc (SFmul prec big_emax (Prim2SF leg) (S754_finite false 1000000 0))
              = Some z)
    by (destruct (Prim2SF leg); congruence).
  eapply SFtrunc_nonneg; [ | exact T ].
  apply SFmul_nonneg; [ exact N | reflexivity ].
Qed.

Lemma amounts_nonneg (ordinal : Z) (maker_leg taker_leg : float)
    (side_ordinal : Z) (maker taker : bigInt) :
  Spec.nonneg maker_leg -> Spec.nonneg taker_leg ->
  Spec.amounts ordinal maker_leg taker_leg = Returned (side_ordinal, maker, taker) ->
  (forall m, maker = Some m -> 0 <= m) /\ (forall t, taker = Some t -> 0 <= t).
Proof.
  intros M T. unfold Spec.amounts.
  destruct (Spec.scaled_integer maker_leg) as [mk | ] eqn:Em; cbn [bind];
    [ | discriminate ].
  destruct (Spec.scaled_integer taker_leg) as [tk | ] eqn:Et; cbn [bind];
    [ | discriminate ].
  intro Q. injection Q as Qo Qm Qt. subst mk tk. split; intros z Ez.
  - exact (scaled_integer_nonneg maker_leg maker z M Em Ez).
  - exact (scaled_integer_nonneg taker_leg taker z T Et Ez).
Qed.

(** The legs of an amount computation on non-negative inputs have a clear
    sign bit, as long as every conversion is defined. *)
Lemma legs_clear (market : bool) (s : Spec.side) (size price : float)
    (tickSize : types.TickSize) :
  let profile := utils.GetRoundingConfig tickSize in
  (0 <=? size)%float = true ->
  (0 <=? price)%float = true ->
  forallb int_conversion_defined (Spec.conversions market s size price profile) = true ->
  Spec.sign_clear (Spec.computed_round_down size (types.Size profile))
  /\ Spec.sign_clear
       (Spec.computed_repair profile
          (Spec.derived_leg market s
             (Spec.computed_round_down size (types.Size profile))
             (Spec.computed_round_normal price (types.Price profile)))).
Proof.
  cbv zeta. intros Zs Zp. unfold Spec.conversions. cbn [forallb].
  pose proof (GetRoundingConfig_small tickSize) as G. cbv zeta in G.
  destruct G as (P & S & A).
  intro D. apply andb_prop in D. destruct D as [Dp D].
  apply andb_prop in D. destruct D as [Ds Dr].
  assert (Cp : Spec.sign_clear
                 (Spec.computed_round_normal price (types.Price (utils.GetRoundingConfig tickSize)))).
  { apply computed_round_normal_clear; [ lia | apply leb_zero_nonneg, Zp | exact Dp ]. }
  assert (Cs : Spec.sign_clear
                 (Spec.computed_round_down size (types.Size (utils.GetRoundingConfig tickSize)))).
  { apply computed_round_down_clear; [ lia | apply leb_zero_nonneg, Zs | exact Ds ]. }
  split; [ exact Cs | ].
  apply computed_repair_clear; [ lia | | exact Dr ].
  unfold Spec.derived_leg.
  destruct market, s; (apply div_clear || apply mul_clear); assumption.
Qed.

(** C9, amended. For a limit or market order with a recognized side, a
    size (or amount) and a price that are at least zero, and every
    float-to-integer conversion of the computation defined (the operand
    finite and within int64), each amount the computation returns is a
    non-negative integer. *)
Theorem amounts_nonnegative_on_nonnegative_inputs
    (ob ob' : orderbuilder.OrderBuilder) (market : bool) (s : Spec.side)
    (size price : float) (tickSize : types.TickSize)
    (side_ordinal : Z) (maker taker : bigInt) :
  (0 <=? size)%float = true ->
  (0 <=? price)%float = true ->
  forallb int_conversion_defined
    (Spec.conversions market s size price (utils.GetRoundingConfig tickSize)) = true ->
  (if market
   then orderbuilder.getMarketOrderAmounts ob (Spec.wire s) size price tickSize
   else orderbuilder.getOrderAmounts ob (Spec.wire s) size price tickSize)
    = Returned (Ok (side_ordinal, maker, taker), ob') ->
  (forall m, maker = Some m -> 0 <= m) /\ (forall t, taker = Some t -> 0 <= t).
Proof.
  intros Zs Zp D.
  destruct (legs_clear market s size price tickSize Zs Zp D) as [Cin Cder].
  apply sign_clear_nonneg in Cin. apply sign_clear_nonneg in Cder.
  destruct market.
  - rewrite getMarketOrderAmounts_computes. unfold Spec.computed_market_amounts.
    unfold Spec.derived_leg in Cder.
    destruct s;
      match goal with
      | |- bind ?a _ = _ -> _ => destruct a as [[[o mk] tk] | ] eqn:E
      end; cbn [bind]; try discriminate;
      intro Q; injection Q as Q1 Q2 Q3 Q4; subst;
      first [ exact (amounts_nonneg _ _ _ _ _ _ Cin Cder E)
            | exact (amounts_nonneg _ _ _ _ _ _ Cder Cin E) ].
  - rewrite getOrderAmounts_computes. unfold Spec.computed_limit_amounts.
    unfold Spec.derived_leg in Cder.
    destruct s;
      match goal with
      | |- bind ?a _ = _ -> _ => destruct a as [[[o mk] tk] | ] eqn:E
      end; cbn [bind]; try discriminate;
      intro Q; injection Q as Q1 Q2 Q3 Q4; subst;
      first [ exact (amounts_nonneg _ _ _ _ _ _ Cin Cder E)
            | exact (amounts_nonneg _ _ _ _ _ _ Cder Cin E) ].
Qed.

End NonNegativeAmounts.

(** Scenario A meets the premises: its amounts are non-negative. *)
Lemma amounts_nonnegative_in_scenario_A :
  (0 <=? 10)%float = true
  /\ (0 <=? 0.55)%float = true
  /\ forallb int_conversion_defined
       (Spec.conversions false Spec.Buy 10 0.55 (utils.GetRoundingConfig "0.01")) = true
  /\ orderbuilder.getOrderAmounts Sample.a_builder "BUY" 10 0.55 "0.01"
     = Returned (Ok (0, Some 5500000, Some 10000000),
                 orderbuilder.recordMetric Sample.a_builder
                   "order_amounts_calculation" true "")
  /\ (forall m, Some 5500000 = Some m -> 0 <= m)
  /\ (forall t, Some 10000000 = Some t -> 0 <= t).
Proof.
  split; [ reflexivity | ]. split; [ reflexivity | ].
  split; [ reflexivity | ]. split; [ reflexivity | ].
  exact (@amounts_nonnegative_on_nonnegative_inputs Sample.libraries
           Sample.a_builder
           (orderbuilder.recordMetric Sample.a_builder
              "order_amounts_calculation" true "")
           false Spec.Buy 10%float 0.55%float "0.01" 0
           (Some 5500000) (Some 10000000)
           eq_refl eq_refl eq_refl eq_refl).
Defined.

(** C9 as worded fails: a BUY of size -1 at 0.55 returns the amounts
    -550000 and -1000000. *)
Lemma negative_size_gives_negative_amounts :
  orderbuilder.getOrderAmounts Sample.a_builder "BUY" (-1) 0.55 "0.01"
    = Returned (Ok (0, Some (-550000), Some (-1000000)),
                orderbuilder.recordMetric Sample.a_builder
                  "order_amounts_calculation" true "")
  /\ ~ @Spec.amounts_nonnegative_as_worded Sample.libraries.
Proof.
  assert (E : orderbuilder.getOrderAmounts Sample.a_builder "BUY" (-1) 0.55 "0.01"
    = Returned (Ok (0, Some (-550000), Some (-1000000)),
                orderbuilder.recordMetric Sample.a_builder
                  "order_amounts_calculation" true "")) by reflexivity.
  split; [ exact E | ].
  intro W. destruct (W _ _ Spec.Buy _ _ _ _ _ _ E) as [(m & Em & Pm) _].
  injection Em as Em. subst m. apply Pm. reflexivity.
Qed.

(** A size beyond the int64 range of the scaled conversion also gives
    negative amounts: [int(1e17 * 100)] is the indefinite integer. *)
Example oversized_size_gives_negative_amounts :
  int_conversion_defined (1e17 * Spec.scale 2) = false
  /\ orderbuilder.getOrderAmounts Sample.a_builder "BUY" 1e17 0.55 "0.01"
     = Returned (Ok (0, Some (-50728546202701275332608),
                     Some (-92233720368547758080000)),
                 orderbuilder.recordMetric Sample.a_builder
                   "order_amounts_calculation" true "").
Proof.
  split; reflexivity.
Qed.
(* ================================================================== *)
(** ** What order creation returns *)

Section OrderResults.
Context `{Libraries}.

Ltac amounts_cases :=
  cbv zeta;
  match goal with
  | |- context [ String.eqb ?side types.BUY ] =>
      destruct (String.eqb side types.BUY) eqn:B;
      [ apply String.eqb_eq in B
      | apply String.eqb_neq in B;
        destruct (String.eqb side types.SELL) eqn:S;
        [ apply String.eqb_eq in S | apply String.eqb_neq in S ] ]
  end;
  repeat match goal with
  | |- context [ bind (utils.ToTokenDecimals ?x) _ ] =>
      destruct (utils.ToTokenDecimals x) as [ ? | ]; cbn [bind]; [ | discriminate ]
  end;
  let Q := fresh "Q" in
  intro Q; injection Q as Q1 Q2; subst.

(** The ways the limit computation returns. *)
Lemma getOrderAmounts_returns
    (ob ob' : orderbuilder.OrderBuilder) (side : types.OrderSide)
    (size price : float) (tickSize : types.TickSize)
    (r : result (Z * bigInt * bigInt)) :
  orderbuilder.getOrderAmounts ob side size price tickSize = Returned (r, ob') ->
  (side <> types.BUY /\ side <> types.SELL
   /\ r = Err ("invalid order side: " ++ side)
   /\ ob' = orderbuilder.recordMetric ob "order_amounts_calculation" false "invalid side")
  \/
  (exists (ordinal : Z) (maker taker : bigInt),
     r = Ok (ordinal, maker, taker)
     /\ ob' = orderbuilder.recordMetric ob "order_amounts_calculation" true ""
     /\ ((side = types.BUY /\ ordinal = 0) \/ (side = types.SELL /\ ordinal = 1))).
Proof.
  unfold orderbuilder.getOrderAmounts. amounts_cases.
  - right. do 3 eexists. split; [ reflexivity | ]. split; [ reflexivity | ].
    left. split; reflexivity.
  - right. do 3 eexists. split; [ reflexivity | ]. split; [ reflexivity | ].
    right. split; reflexivity.
  - left. repeat split; assumption.
Qed.

(** The ways [signOrder] returns: the digest was computed, [Sign] returned,
    and the signed order is the order data with the salt and the signature. *)
Lemma signOrder_returns
    (ob ob' : orderbuilder.OrderBuilder) (now : Z) (random : float)
    (orderData : types.OrderData) (exchangeAddress : string)
    (r : result types.SignedOrder) :
  orderbuilder.signOrder ob now random orderData exchangeAddress = Returned (r, ob') ->
  let salt := int_of_float (float_of_int now * random) in
  exists (orderHash : list byte) (signed : result (list byte)) (s : signer.Signer),
    utils.CreateOrderEIP712Hash orderData salt exchangeAddress
      (signer.ChainID (orderbuilder.signer_ ob)) = Returned orderHash
    /\ signer.Sign (orderbuilder.signer_ ob) orderHash = Returned (signed, s)
    /\ match signed with
       | Err err =>
           r = Err ("failed to sign order hash: " ++ err)
           /\ ob' = orderbuilder.recordMetric (orderbuilder.with_signer ob s)
                      "order_signing" false err
       | Ok signature =>
           r = Ok {| types.so_Salt := salt;
                     types.so_Maker := types.od_Maker orderData;
                     types.so_Signer := types.od_Signer orderData;
                     types.so_Taker := types.od_Taker orderData;
                     types.so_TokenID := types.od_TokenID orderData;
                     types.so_MakerAmount := bigInt_String (types.od_MakerAmount orderData);
                     types.so_TakerAmount := bigInt_String (types.od_TakerAmount orderData);
                     types.so_Expiration := types.od_Expiration orderData;
                     types.so_Nonce := types.od_Nonce orderData;
                     types.so_FeeRateBps := types.od_FeeRateBps orderData;
                     types.so_Side :=
                       if types.od_Side orderData =? 0 then types.BUY else types.SELL;
                     types.so_SignatureType := types.od_SignatureType orderData;
                     types.so_Signature := "0x" ++ Sprintf_x signature |}
           /\ ob' = orderbuilder.recordMetric (orderbuilder.with_signer ob s)
                      "order_signing" true ""
       end.
Proof.
  unfold orderbuilder.signOrder. cbv zeta.
  destruct (utils.CreateOrderEIP712Hash _ _ _ _) as [orderHash | ]; cbn [bind];
    [ | discriminate ].
  destruct (signer.Sign _ _) as [[signed s] | ] eqn:E; cbn [bind]; [ | discriminate ].
  intro Q. exists orderHash, signed, s.
  split; [ reflexivity | ]. split; [ exact E | ].
  destruct signed as [signature | err]; injection Q as Q1 Q2; subst; split; reflexivity.
Qed.

End OrderResults.

Section OrderCreation.
Context `{Libraries}.

(** The ways [CreateOrder] returns. *)
Lemma CreateOrder_returns
    (ob ob' : orderbuilder.OrderBuilder) (now : Z) (random : float)
    (orderArgs : types.OrderArgs) (options : types.CreateOrderOptions)
    (exchangeAddress : string) (r : result types.SignedOrder) :
  orderbuilder.CreateOrder ob now random orderArgs options exchangeAddress
    = Returned (r, ob') ->
  exists (amounts : result (Z * bigInt * bigInt)) (ob1 : orderbuilder.OrderBuilder),
    orderbuilder.getOrderAmounts ob (types.oa_Side orderArgs) (types.oa_Size orderArgs)
      (types.oa_Price orderArgs) (types.TickSize_ options) = Returned (amounts, ob1)
    /\ match amounts with
       | Err err =>
           r = Err ("failed to calculate order amounts: " ++ err)
           /\ ob' = orderbuilder.recordMetric ob1 "order_creation" false err
       | Ok (side, makerAmount, takerAmount) =>
           exists (signed : result types.SignedOrder) (ob2 : orderbuilder.OrderBuilder),
             orderbuilder.signOrder ob1 now random
               (Built.limit_order_data ob1 orderArgs side makerAmount takerAmount)
               exchangeAddress = Returned (signed, ob2)
             /\ match signed with
                | Err err =>
                    r = Err ("failed to sign order: " ++ err)
                    /\ ob' = orderbuilder.recordMetric ob2 "order_creation" false err
                | Ok signedOrder =>
                    r = Ok signedOrder
                    /\ ob' = orderbuilder.recordMetric ob2 "order_creation" true ""
                end
       end.
Proof.
  unfold orderbuilder.CreateOrder.
  destruct (orderbuilder.getOrderAmounts _ _ _ _ _) as [[amounts ob1] | ];
    cbn [bind]; [ | discriminate ].
  intro Q. exists amounts, ob1. split; [ reflexivity | ].
  destruct amounts as [[[side makerAmount] takerAmount] | err].
  - fold (Built.limit_order_data ob1 orderArgs side makerAmount takerAmount) in Q.
    destruct (orderbuilder.signOrder _ _ _ _ _) as [[signed ob2] | ] eqn:E;
      cbn [bind] in Q; [ | discriminate ].
    exists signed, ob2. split; [ first [ exact E | reflexivity ] | ].
    destruct signed; injection Q as Q1 Q2; subst; split; reflexivity.
  - injection Q as Q1 Q2; subst; split; reflexivity.
Qed.

(** X1. A side other than the texts BUY and SELL (the comparison is exact,
    so lower case is another side) makes limit and market order creation
    return the invalid-side error: nothing is signed, and the builder is left
    with two failure metrics more and no other change. *)
Theorem invalid_side_is_refused
    (ob : orderbuilder.OrderBuilder) (now : Z) (random : float)
    (limit : types.OrderArgs) (market : types.MarketOrderArgs)
    (options : types.CreateOrderOptions) (exchangeAddress : string) :
  (types.oa_Side limit <> types.BUY -> types.oa_Side limit <> types.SELL ->
   orderbuilder.CreateOrder ob now random limit options exchangeAddress
     = Returned
         (Err ("failed to calculate order amounts: invalid order side: "
                 ++ types.oa_Side limit),
          orderbuilder.recordMetric
            (orderbuilder.recordMetric ob "order_amounts_calculation" false "invalid side")
            "order_creation" false ("invalid order side: " ++ types.oa_Side limit)))
  /\
  (types.mo_Side market <> types.BUY -> types.mo_Side market <> types.SELL ->
   orderbuilder.CreateMarketOrder ob now random market options exchangeAddress
     = Returned
         (Err ("failed to calculate market order amounts: invalid order side: "
                 ++ types.mo_Side market),
          orderbuilder.recordMetric
            (orderbuilder.recordMetric ob "market_order_amounts_calculation" false
               "invalid side")
            "market_order_creation" false
            ("invalid order side: " ++ types.mo_Side market))).
Proof.
  split; intros B S; apply String.eqb_neq in B; apply String.eqb_neq in S.
  - unfold orderbuilder.CreateOrder, orderbuilder.getOrderAmounts. cbv zeta.
    rewrite B, S. reflexivity.
  - unfold orderbuilder.CreateMarketOrder, orderbuilder.getMarketOrderAmounts. cbv zeta.
    rewrite B, S. reflexivity.
Qed.

(** What a signed limit order carries. *)
Lemma CreateOrder_carries
    (ob ob' : orderbuilder.OrderBuilder) (now : Z) (random : float)
    (orderArgs : types.OrderArgs) (options : types.CreateOrderOptions)
    (exchangeAddress : string) (signedOrder : types.SignedOrder) :
  orderbuilder.CreateOrder ob now random orderArgs options exchangeAddress
    = Returned (Ok signedOrder, ob') ->
  types.so_Side signedOrder = types.oa_Side orderArgs
  /\ (types.so_Side signedOrder = types.BUY \/ types.so_Side signedOrder = types.SELL)
  /\ types.so_TokenID signedOrder = types.oa_TokenID orderArgs
  /\ types.so_Taker signedOrder = types.oa_Taker orderArgs
  /\ types.so_FeeRateBps signedOrder = Sprintf_d (types.oa_FeeRateBps orderArgs)
  /\ types.so_Nonce signedOrder = Sprintf_d (types.oa_Nonce orderArgs)
  /\ types.so_Expiration signedOrder = Sprintf_d (types.oa_Expiration orderArgs)
  /\ types.so_Maker signedOrder = orderbuilder.funder ob
  /\ types.so_Signer signedOrder = signer.AddressHex (orderbuilder.signer_ ob)
  /\ types.so_SignatureType signedOrder = orderbuilder.signatureType ob
  /\ types.so_Salt signedOrder = int_of_float (float_of_int now * random).
Proof.
  intro E. apply CreateOrder_returns in E.
  destruct E as (amounts & ob1 & A & E).
  apply getOrderAmounts_returns in A.
  destruct A as [(_ & _ & A & _) | (ordinal & maker & taker & A & Ob1 & Side)];
    subst amounts; [ destruct E; discriminate | ].
  destruct E as (signed & ob2 & Sg & E).
  apply signOrder_returns in Sg. cbv zeta in Sg.
  destruct Sg as (orderHash & sig & s & _ & _ & Sg).
  destruct signed as [so | err]; [ | destruct E; discriminate ].
  destruct E as [E _]. injection E as E. subst so.
  destruct sig as [signature | err]; [ | destruct Sg; discriminate ].
  destruct Sg as [Sg _]. injection Sg as Sg. subst signedOrder ob1.
  cbn [types.so_Side types.so_TokenID types.so_Taker types.so_FeeRateBps types.so_Nonce
       types.so_Expiration types.so_Maker types.so_Signer types.so_SignatureType
       types.so_Salt Built.limit_order_data types.od_Side types.od_TokenID
       types.od_Taker types.od_FeeRateBps types.od_Nonce types.od_Expiration
       types.od_Maker types.od_Signer types.od_SignatureType
       orderbuilder.recordMetric orderbuilder.funder orderbuilder.signer_
       orderbuilder.signatureType].
  destruct Side as [[S O] | [S O]]; subst ordinal; rewrite S;
    cbn [Z.eqb]; repeat split; auto.
Qed.

(** X2. A signed limit order carries what it was made from: the side text
    of the arguments (BUY or SELL, through the ordinal 0 or 1 and back), their
    token id and taker, their fee rate, nonce and expiration in decimal, the
    builder's funder as maker, the signer's address as signer, the builder's
    signature type, and the salt drawn from the clock and the random number. *)
Theorem signed_order_carries_its_arguments
    (ob ob' : orderbuilder.OrderBuilder) (now : Z) (random : float)
    (orderArgs : types.OrderArgs) (options : types.CreateOrderOptions)
    (exchangeAddress : string) (signedOrder : types.SignedOrder) :
  orderbuilder.CreateOrder ob now random orderArgs options exchangeAddress
    = Returned (Ok signedOrder, ob') ->
  types.so_Side signedOrder = types.oa_Side orderArgs
  /\ (types.so_Side signedOrder = types.BUY \/ types.so_Side signedOrder = types.SELL)
  /\ types.so_TokenID signedOrder = types.oa_TokenID orderArgs
  /\ types.so_Taker signedOrder = types.oa_Taker orderArgs
  /\ types.so_FeeRateBps signedOrder = Sprintf_d (types.oa_FeeRateBps orderArgs)
  /\ types.so_Nonce signedOrder = Sprintf_d (types.oa_Nonce orderArgs)
  /\ types.so_Expiration signedOrder = Sprintf_d (types.oa_Expiration orderArgs)
  /\ types.so_Maker signedOrder = orderbuilder.funder ob
  /\ types.so_Signer signedOrder = signer.AddressHex (orderbuilder.signer_ ob)
  /\ types.so_SignatureType signedOrder = orderbuilder.signatureType ob
  /\ types.so_Salt signedOrder = int_of_float (float_of_int now * random).
Proof.
  apply CreateOrder_carries.
Qed.

End OrderCreation.

(** The side text buy in lower case is refused. *)
Lemma invalid_side_is_refused_for_lower_case :
  exists ob',
    @orderbuilder.CreateOrder Sample.libraries Sample.a_builder 1700000000 0.5
      {| types.oa_TokenID := "1234"; types.oa_Price := 0.55; types.oa_Size := 10;
         types.oa_Side := "buy"; types.oa_FeeRateBps := 0; types.oa_Nonce := 0;
         types.oa_Expiration := 0;
         types.oa_Taker := "0x0000000000000000000000000000000000000000" |}
      Fixture.options_001 "0x4bFb41d5B3570DeFd03C39a9A4D8dE6Bd8B8982E"
    = Returned (Err "failed to calculate order amounts: invalid order side: buy", ob').
Proof.
  eexists.
  apply (proj1 (@invalid_side_is_refused Sample.libraries Sample.a_builder
                  1700000000 0.5
                  {| types.oa_TokenID := "1234"; types.oa_Price := 0.55;
                     types.oa_Size := 10; types.oa_Side := "buy";
                     types.oa_FeeRateBps := 0; types.oa_Nonce := 0;
                     types.oa_Expiration := 0;
                     types.oa_Taker := "0x0000000000000000000000000000000000000000" |}
                  (Fixture.market_buy_at 0.55) Fixture.options_001
                  "0x4bFb41d5B3570DeFd03C39a9A4D8dE6Bd8B8982E")); discriminate.
Defined.

(** A limit order that is signed carries its arguments. *)
Lemma signed_order_carries_its_arguments_scenario_A :
  match @orderbuilder.CreateOrder Sample.libraries Sample.a_builder 1700000000 0.5
          (Sample.order_at 0.55) Fixture.options_001
          "0x4bFb41d5B3570DeFd03C39a9A4D8dE6Bd8B8982E" with
  | Returned (Ok signedOrder, _) =>
      types.so_Side signedOrder = "BUY" /\ types.so_Nonce signedOrder = "0"
  | _ => False
  end.
Proof.
  destruct (@orderbuilder.CreateOrder Sample.libraries Sample.a_builder 1700000000 0.5
              (Sample.order_at 0.55) Fixture.options_001
              "0x4bFb41d5B3570DeFd03C39a9A4D8dE6Bd8B8982E")
    as [[[signedOrder | err] ob'] | ] eqn:E; try (vm_compute in E; discriminate E).
  destruct (@signed_order_carries_its_arguments Sample.libraries _ _ _ _ _ _ _ _ E)
    as (S & _ & _ & _ & _ & N & _).
  split; [ exact S | exact N ].
Defined.

(* ================================================================== *)
(** ** Decimal strings and 32-byte words *)

Section Numbers.

Lemma scan_digits_acc (d : Decimal.uint) :
  forall acc : positive,
    scan_digits (Zpos acc) (NilEmpty.string_of_uint d)
    = Some (Zpos (Pos.of_uint_acc d acc)).
Proof.
  induction d as [ | d IH | d IH | d IH | d IH | d IH | d IH | d IH | d IH | d IH | d IH ];
    intro acc; cbn [NilEmpty.string_of_uint scan_digits Pos.of_uint_acc];
    [ reflexivity | .. ];
    match goal with
    | |- context [ digit_value ?c ] =>
        let v := eval vm_compute in (digit_value c) in
        change (digit_value c) with v
    end; cbv iota; rewrite <- IH; f_equal; lia.
Qed.

Lemma scan_digits_uint (d : Decimal.uint) :
  scan_digits 0 (NilEmpty.string_of_uint d) = Some (Z.of_N (Pos.of_uint d)).
Proof.
  induction d as [ | d IH | d IH | d IH | d IH | d IH | d IH | d IH | d IH | d IH | d IH ];
    cbn [NilEmpty.string_of_uint scan_digits Pos.of_uint];
    [ reflexivity | .. ];
    match goal with
    | |- context [ digit_value ?c ] =>
        let v := eval vm_compute in (digit_value c) in
        change (digit_value c) with v
    end; cbv iota;
    [ exact IH | change (10 * 0 + ?k) with k; rewrite scan_digits_acc; reflexivity .. ].
Qed.

Lemma to_uint_not_Nil (p : positive) : Pos.to_uint p <> Decimal.Nil.
Proof.
  intro E. pose proof (DecimalPos.Unsigned.of_to p) as R.
  rewrite E in R. discriminate R.
Qed.

(** Reading the decimal text of an integer gives the integer back. *)
Lemma SetString10_Sprintf_d (n : Z) : SetString10 (Sprintf_d n) = Some n.
Proof.
  unfold Sprintf_d. destruct n as [ | p | p ]; [ reflexivity | | ];
    unfold Z.to_int, NilZero.string_of_int, NilZero.string_of_uint;
    pose proof (to_uint_not_Nil p) as NN;
    pose proof (scan_digits_uint (Pos.to_uint p)) as S;
    rewrite DecimalPos.Unsigned.of_to in S;
    destruct (Pos.to_uint p) as [ | d | d | d | d | d | d | d | d | d | d ];
    try congruence;
    cbn [NilEmpty.string_of_uint] in *;
    unfold SetString10;
    match goal with
    | |- context [ Ascii.eqb ?a ?b ] =>
        let v := eval vm_compute in (Ascii.eqb a b) in
        change (Ascii.eqb a b) with v
    end; cbv iota;
    repeat match goal with
    | |- context [ Ascii.eqb ?a ?b ] =>
        let v := eval vm_compute in (Ascii.eqb a b) in
        change (Ascii.eqb a b) with v
    end; cbv iota; rewrite S; reflexivity.
Qed.

(** The bytes of a value whose text is the decimal form of [n]. *)
Lemma parse_big_Sprintf_d `{Libraries} (n : Z) : utils.parse_big (Sprintf_d n) = Some n.
Proof.
  unfold utils.parse_big. rewrite SetString10_Sprintf_d. reflexivity.
Qed.

Lemma le_bytes_bound :
  forall (fuel : nat) (n : Z),
    0 <= n < 256 ^ Z.of_nat fuel ->
    n < 256 ^ Z.of_nat (List.length (le_bytes fuel n)).
Proof.
  induction fuel as [ | fuel IH]; intros n R.
  - cbn in *. lia.
  - cbn [le_bytes]. destruct (n <=? 0) eqn:P.
    + apply Z.leb_le in P. cbn. lia.
    + apply Z.leb_gt in P. cbn [List.length].
      rewrite Nat2Z.inj_succ, Z.pow_succ_r in * by lia.
      specialize (IH (n / 256)).
      assert (n / 256 < 256 ^ Z.of_nat (List.length (le_bytes fuel (n / 256)))).
      { apply IH. split; [ apply Z.div_pos; lia | apply Z.div_lt_upper_bound; lia ]. }
      pose proof (Z.div_mod n 256). pose proof (Z.mod_pos_bound n 256). lia.
Qed.

Lemma log2_fuel (n : Z) : 0 <= n -> n < 256 ^ Z.of_nat (S (Z.to_nat (Z.log2 n))).
Proof.
  intro P. destruct (Z.eq_dec n 0) as [Z | NZ]; [ subst n; reflexivity | ].
  rewrite Nat2Z.inj_succ, Z2Nat.id by apply Z.log2_nonneg.
  eapply Z.lt_le_trans; [ apply Z.log2_spec; lia | ].
  change 256 with (2 ^ 8). rewrite <- Z.pow_mul_r by (pose proof (Z.log2_nonneg n); lia).
  apply Z.pow_le_mono_r; pose proof (Z.log2_nonneg n); lia.
Qed.

(** [FillBytes] sees the magnitude only: into 32 zero bytes it writes the
    uint256 encoding of [|n|] when that is below [2^256], and panics
    otherwise. *)
Lemma FillBytes_magnitude (n : Z) :
  FillBytes (Some n) (make 32) =
    if Z.abs n <? 2 ^ 256
    then Returned (Spec.encode_uint256 (Z.abs n))
    else Panicked "math/big: buffer too small to fit value".
Proof.
  destruct (Z.abs n <? 2 ^ 256) eqn:C.
  - apply Z.ltb_lt in C. rewrite <- (FillBytes_uint256 (Z.abs n)).
    + unfold FillBytes, abs_bytes.
      rewrite (Z.abs_eq (Z.abs n)) by apply Z.abs_nonneg. reflexivity.
    + unfold Spec.uint256. lia.
  - apply Z.ltb_ge in C. unfold FillBytes, abs_bytes.
    pose proof (le_bytes_bound _ _ (conj (Z.abs_nonneg n) (log2_fuel _ (Z.abs_nonneg n))))
      as B.
    rewrite length_rev. change (List.length (make 32)) with 32%nat.
    destruct (_ <=? 32)%nat eqn:L; [ | reflexivity ].
    apply Nat.leb_le in L. exfalso.
    assert (256 ^ Z.of_nat (List.length (le_bytes (S (Z.to_nat (Z.log2 (Z.abs n)))) (Z.abs n)))
            <= 256 ^ 32) by (apply Z.pow_le_mono_r; lia).
    change (256 ^ 32) with (2 ^ 256) in *. lia.
Qed.

Lemma FillBytes_returns (x : bigInt) :
  (exists bytes, FillBytes x (make 32) = Returned bytes) <-> Built.fits_word x.
Proof.
  unfold Built.fits_word. destruct x as [n | ].
  - rewrite FillBytes_magnitude. destruct (Z.abs n <? 2 ^ 256) eqn:C.
    + apply Z.ltb_lt in C. split; intro; eauto.
    + apply Z.ltb_ge in C. split.
      * intros [bytes Q]. discriminate Q.
      * intros (m & Q & R). injection Q as Q. subst m. lia.
  - cbn. split.
    + intros [bytes Q]. discriminate Q.
    + intros (m & Q & _). discriminate Q.
Qed.

End Numbers.

(* ================================================================== *)
(** ** When the order digest exists, and what it does not see *)

Section DigestExists.
Context `{Libraries}.

Lemma FillBytes_Returned (x : bigInt) (bytes : list byte) :
  FillBytes x (make 32) = Returned bytes -> Built.fits_word x.
Proof.
  intro E. apply FillBytes_returns. exists bytes. exact E.
Qed.

Lemma FillBytes_Panicked (x : bigInt) (msg : string) :
  FillBytes x (make 32) = Panicked msg -> ~ Built.fits_word x.
Proof.
  intros E F. apply FillBytes_returns in F. destruct F as [bytes F]. congruence.
Qed.

Lemma CreateOrderStructHash_returns (orderData : types.OrderData) (salt : Z) :
  (exists structHash, utils.CreateOrderStructHash orderData salt = Returned structHash)
  <-> Built.hashed_numbers_fit orderData salt.
Proof.
  unfold Built.hashed_numbers_fit, utils.CreateOrderStructHash. cbv zeta.
  rewrite !store_uint8.
  repeat match goal with
  | |- context [ bind (FillBytes ?x (make 32)) _ ] =>
      let E := fresh "E" in
      destruct (FillBytes x (make 32)) eqn:E; cbn [bind];
      [ apply FillBytes_Returned in E
      | apply FillBytes_Panicked in E;
        split; [ intros [h Q]; discriminate Q | tauto ] ]
  end.
  split; [ tauto | eauto ].
Qed.

Lemma CreateOrderEIP712Hash_returns
    (orderData : types.OrderData) (salt : Z) (exchangeAddress : string) (chainID : Z)
    (orderHash : list byte) :
  utils.CreateOrderEIP712Hash orderData salt exchangeAddress chainID = Returned orderHash ->
  exists domainSeparator structHash,
    utils.CreatePolymarketDomain chainID exchangeAddress = Returned domainSeparator
    /\ utils.CreateOrderStructHash orderData salt = Returned structHash
    /\ orderHash = utils.CreateEIP712Hash domainSeparator structHash.
Proof.
  unfold utils.CreateOrderEIP712Hash.
  destruct (utils.CreatePolymarketDomain _ _) as [d | ]; cbn [bind]; [ | discriminate ].
  destruct (utils.CreateOrderStructHash _ _) as [h | ]; cbn [bind]; [ | discriminate ].
  intro Q. injection Q as Q. eauto.
Qed.

Lemma signOrder_panics_without_digest
    (ob : orderbuilder.OrderBuilder) (now : Z) (random : float)
    (orderData : types.OrderData) (exchangeAddress : string) :
  ~ Built.hashed_numbers_fit orderData (int_of_float (float_of_int now * random)) ->
  exists msg, orderbuilder.signOrder ob now random orderData exchangeAddress = Panicked msg.
Proof.
  intro N. unfold orderbuilder.signOrder. cbv zeta.
  destruct (utils.CreateOrderEIP712Hash _ _ _ _) as [h | msg] eqn:E; cbn [bind];
    [ | eauto ].
  exfalso. apply N. apply CreateOrderEIP712Hash_returns in E.
  destruct E as (d & sh & _ & E & _).
  apply CreateOrderStructHash_returns. eauto.
Qed.

End DigestExists.

Section DigestFacts.
Context `{Libraries}.

(** X3. The struct hash of an order exists exactly when its seven numbers
    fit 32 bytes in magnitude and both amounts are present; otherwise
    [CreateOrderStructHash] panics: on a nil amount, or on a salt, token id,
    amount, expiration, nonce or fee rate of magnitude [2^256] or more. *)
Theorem order_struct_hash_exists_iff_numbers_fit
    (orderData : types.OrderData) (salt : Z) :
  ((exists structHash,
      utils.CreateOrderStructHash orderData salt = Returned structHash)
   <-> Built.hashed_numbers_fit orderData salt)
  /\
  ((exists msg, utils.CreateOrderStructHash orderData salt = Panicked msg)
   <-> ~ Built.hashed_numbers_fit orderData salt).
Proof.
  pose proof (CreateOrderStructHash_returns orderData salt) as R.
  split; [ exact R | ].
  destruct (utils.CreateOrderStructHash orderData salt) as [h | msg].
  - split.
    + intros [msg Q]. discriminate Q.
    + intro N. exfalso. apply N, R. eauto.
  - split.
    + intros _ F. apply R in F. destruct F as [h Q]. discriminate Q.
    + eauto.
Qed.

(** A market computation that returns a nil amount makes
    [CreateMarketOrder] panic. *)
Lemma CreateMarketOrder_panics_on_nil_amount
    (ob ob1 : orderbuilder.OrderBuilder) (now : Z) (random : float)
    (orderArgs : types.MarketOrderArgs) (options : types.CreateOrderOptions)
    (exchangeAddress : string) (ordinal : Z) (maker taker : bigInt) :
  orderbuilder.getMarketOrderAmounts ob (types.mo_Side orderArgs)
    (types.mo_Amount orderArgs) (types.mo_Price orderArgs) (types.TickSize_ options)
    = Returned (Ok (ordinal, maker, taker), ob1) ->
  maker = None \/ taker = None ->
  exists msg,
    orderbuilder.CreateMarketOrder ob now random orderArgs options exchangeAddress
      = Panicked msg.
Proof.
  intros A N. unfold orderbuilder.CreateMarketOrder. rewrite A. cbn [bind].
  fold (Built.market_order_data ob1 orderArgs ordinal maker taker).
  destruct (signOrder_panics_without_digest ob1 now random
              (Built.market_order_data ob1 orderArgs ordinal maker taker)
              exchangeAddress) as [msg P].
  - unfold Built.hashed_numbers_fit, Built.fits_word.
    cbn [Built.market_order_data types.od_MakerAmount types.od_TakerAmount].
    intros (_ & _ & (m & M & _) & (t & T & _) & _).
    destruct N; congruence.
  - exists msg. rewrite P. reflexivity.
Qed.

(** X4. On a signed limit order every number reads back: the decimal
    strings of the two amounts are the integers the amount computation
    returned, both present and below [2^256] in magnitude, and the strings of
    fee rate, nonce and expiration are the integers of the order arguments. *)
Theorem signed_order_numbers_read_back
    (ob ob' : orderbuilder.OrderBuilder) (now : Z) (random : float)
    (orderArgs : types.OrderArgs) (options : types.CreateOrderOptions)
    (exchangeAddress : string) (signedOrder : types.SignedOrder) :
  orderbuilder.CreateOrder ob now random orderArgs options exchangeAddress
    = Returned (Ok signedOrder, ob') ->
  exists (ordinal maker taker : Z) (ob1 : orderbuilder.OrderBuilder),
    orderbuilder.getOrderAmounts ob (types.oa_Side orderArgs) (types.oa_Size orderArgs)
      (types.oa_Price orderArgs) (types.TickSize_ options)
      = Returned (Ok (ordinal, Some maker, Some taker), ob1)
    /\ Z.abs maker < 2 ^ 256 /\ Z.abs taker < 2 ^ 256
    /\ SetString10 (types.so_MakerAmount signedOrder) = Some maker
    /\ SetString10 (types.so_TakerAmount signedOrder) = Some taker
    /\ SetString10 (types.so_FeeRateBps signedOrder) = Some (types.oa_FeeRateBps orderArgs)
    /\ SetString10 (types.so_Nonce signedOrder) = Some (types.oa_Nonce orderArgs)
    /\ SetString10 (types.so_Expiration signedOrder)
       = Some (types.oa_Expiration orderArgs).
Proof.
  intro E. apply CreateOrder_returns in E.
  destruct E as (amounts & ob1 & A & E).
  destruct amounts as [[[ordinal maker] taker] | err]; [ | destruct E; discriminate ].
  destruct E as (signed & ob2 & Sg & E).
  apply signOrder_returns in Sg. cbv zeta in Sg.
  destruct Sg as (orderHash & sig & s & D & _ & Sg).
  destruct signed as [so | err]; [ | destruct E; discriminate ].
  destruct E as [E _]. injection E as E. subst so.
  destruct sig as [signature | err]; [ | destruct Sg; discriminate ].
  destruct Sg as [Sg _]. injection Sg as Sg.
  apply CreateOrderEIP712Hash_returns in D. destruct D as (d & sh & _ & D & _).
  assert (F : Built.hashed_numbers_fit
                (Built.limit_order_data ob1 orderArgs ordinal maker taker)
                (int_of_float (float_of_int now * random)))
    by (apply CreateOrderStructHash_returns; eauto).
  destruct F as (_ & _ & (m & M & Mfit) & (t & T & Tfit) & _).
  cbn [Built.limit_order_data types.od_MakerAmount types.od_TakerAmount] in M, T.
  subst maker taker signedOrder.
  exists ordinal, m, t, ob1.
  cbn [types.so_MakerAmount types.so_TakerAmount types.so_FeeRateBps types.so_Nonce
       types.so_Expiration Built.limit_order_data types.od_MakerAmount
       types.od_TakerAmount types.od_FeeRateBps types.od_Nonce types.od_Expiration
       bigInt_String].
  rewrite !SetString10_Sprintf_d. repeat split; assumption || reflexivity.
Qed.

(** X5. The order digest does not see signs: hashing writes the magnitude
    of every number, so the order data whose salt, amounts, fee rate, nonce
    and expiration are all negated has the digest of the order data with the
    numbers as they are. *)
Theorem order_digest_ignores_signs
    (orderData : types.OrderData) (salt fee nonce expiration : Z)
    (exchangeAddress : string) (chainID : Z) :
  utils.CreateOrderEIP712Hash (Built.negated orderData fee nonce expiration true)
    (- salt) exchangeAddress chainID
  = utils.CreateOrderEIP712Hash (Built.negated orderData fee nonce expiration false)
      salt exchangeAddress chainID.
Proof.
  unfold utils.CreateOrderEIP712Hash, utils.CreateOrderStructHash, Built.negated.
  cbv zeta.
  cbn [types.od_Maker types.od_Taker types.od_TokenID types.od_MakerAmount
       types.od_TakerAmount types.od_Side types.od_FeeRateBps types.od_Nonce
       types.od_Signer types.od_Expiration types.od_SignatureType].
  rewrite !parse_big_Sprintf_d.
  assert (A : forall x : bigInt,
            FillBytes (option_map (fun n => - n) x) (make 32)
            = FillBytes (option_map (fun n => n) x) (make 32)).
  { intros [n | ]; cbn [option_map]; [ | reflexivity ].
    rewrite !FillBytes_magnitude, Z.abs_opp. reflexivity. }
  rewrite !A.
  rewrite !(FillBytes_magnitude (- _)), !Z.abs_opp, <- !FillBytes_magnitude.
  reflexivity.
Qed.

End DigestFacts.

(** Scenario A read back: the amount strings are 5500000 and 10000000. *)
Lemma signed_order_numbers_read_back_scenario_A :
  match @orderbuilder.CreateOrder Sample.libraries Sample.a_builder 1700000000 0.5
          (Sample.order_at 0.55) Fixture.options_001
          "0x4bFb41d5B3570DeFd03C39a9A4D8dE6Bd8B8982E" with
  | Returned (Ok signedOrder, _) =>
      exists maker taker,
        SetString10 (types.so_MakerAmount signedOrder) = Some maker
        /\ SetString10 (types.so_TakerAmount signedOrder) = Some taker
  | _ => False
  end.
Proof.
  destruct (@orderbuilder.CreateOrder Sample.libraries Sample.a_builder 1700000000 0.5
              (Sample.order_at 0.55) Fixture.options_001
              "0x4bFb41d5B3570DeFd03C39a9A4D8dE6Bd8B8982E")
    as [[[signedOrder | err] ob'] | ] eqn:E; try (vm_compute in E; discriminate E).
  destruct (@signed_order_numbers_read_back Sample.libraries _ _ _ _ _ _ _ _ E)
    as (ordinal & maker & taker & ob1 & _ & _ & _ & M & T & _).
  exists maker, taker. split; assumption.
Defined.

(* ================================================================== *)
(** ** Metrics and failures of order creation *)

Section OrderMetrics.
Context `{Libraries}.

(** X6. Whatever [CreateOrder] returns, the builder's metrics only grow:
    the old ones are kept in front, two or three are added, the last of them
    is the order_creation metric, its success flag says whether an order was
    returned, and an order is returned exactly when every added metric is a
    success; funder and signature type are untouched. *)
Theorem order_creation_metrics
    (ob ob' : orderbuilder.OrderBuilder) (now : Z) (random : float)
    (orderArgs : types.OrderArgs) (options : types.CreateOrderOptions)
    (exchangeAddress : string) (r : result types.SignedOrder) :
  orderbuilder.CreateOrder ob now random orderArgs options exchangeAddress
    = Returned (r, ob') ->
  exists (earlier : list types.PerformanceMetrics) (errorMsg : string),
    orderbuilder.metrics ob'
      = (orderbuilder.metrics ob ++ earlier
           ++ [ {| types.Operation := "order_creation";
                   types.Success := Built.succeeded r;
                   types.Error := errorMsg |} ])%list
    /\ (1 <= List.length earlier <= 2)%nat
    /\ Built.succeeded r = forallb types.Success earlier
    /\ orderbuilder.funder ob' = orderbuilder.funder ob
    /\ orderbuilder.signatureType ob' = orderbuilder.signatureType ob.
Proof.
  intro E. apply CreateOrder_returns in E.
  destruct E as (amounts & ob1 & A & E).
  apply getOrderAmounts_returns in A.
  destruct A as [(_ & _ & A & Ob1) | (ordinal & maker & taker & A & Ob1 & _)];
    subst amounts ob1.
  - destruct E as [R Ob']. subst r ob'.
    eexists [_], _. cbn [orderbuilder.recordMetric orderbuilder.metrics
      orderbuilder.funder orderbuilder.signatureType Built.succeeded].
    rewrite <- app_assoc. repeat split; try reflexivity; cbn; lia.
  - destruct E as (signed & ob2 & Sg & E).
    apply signOrder_returns in Sg. cbv zeta in Sg.
    destruct Sg as (orderHash & sig & s & _ & _ & Sg).
    destruct sig as [signature | err]; destruct Sg as [Sg Ob2]; subst signed ob2;
      destruct E as [R Ob']; subst r ob';
      eexists [_; _], _;
      cbn [orderbuilder.recordMetric orderbuilder.metrics orderbuilder.with_signer
           orderbuilder.funder orderbuilder.signatureType Built.succeeded];
      rewrite <- !app_assoc; repeat split; try reflexivity; cbn; lia.
Qed.

(** X7. When the signing library fails on the order digest with [err],
    [CreateOrder] returns its error under the three prefixes of the call
    chain and no order. *)
Theorem signing_failure_is_reported
    (ob ob1 : orderbuilder.OrderBuilder) (now : Z) (random : float)
    (orderArgs : types.OrderArgs) (options : types.CreateOrderOptions)
    (exchangeAddress : string) (ordinal : Z) (maker taker : bigInt)
    (orderHash : list byte) (err : string) :
  orderbuilder.getOrderAmounts ob (types.oa_Side orderArgs) (types.oa_Size orderArgs)
    (types.oa_Price orderArgs) (types.TickSize_ options)
    = Returned (Ok (ordinal, maker, taker), ob1) ->
  utils.CreateOrderEIP712Hash
    (Built.limit_order_data ob orderArgs ordinal maker taker)
    (int_of_float (float_of_int now * random)) exchangeAddress
    (signer.ChainID (orderbuilder.signer_ ob)) = Returned orderHash ->
  crypto_Sign orderHash (signer.privateKey (orderbuilder.signer_ ob)) = Err err ->
  exists ob',
    orderbuilder.CreateOrder ob now random orderArgs options exchangeAddress
      = Returned
          (Err ("failed to sign order: failed to sign order hash: failed to sign message: "
                  ++ err), ob')
    /\ signer.privateKey (orderbuilder.signer_ ob')
       = signer.privateKey (orderbuilder.signer_ ob)
    /\ signer.address (orderbuilder.signer_ ob') = signer.address (orderbuilder.signer_ ob).
Proof.
  intros A D Sg.
  pose proof (getOrderAmounts_returns _ _ _ _ _ _ _ A) as R.
  destruct R as [(_ & _ & R & _) | (o & m & t & _ & Ob1 & _)]; [ discriminate R | ].
  subst ob1.
  unfold orderbuilder.CreateOrder. rewrite A. cbn [bind].
  unfold orderbuilder.signOrder. cbv zeta.
  change (utils.CreateOrderEIP712Hash _ _ _ _)
    with (utils.CreateOrderEIP712Hash
            (Built.limit_order_data ob orderArgs ordinal maker taker)
            (int_of_float (float_of_int now * random)) exchangeAddress
            (signer.ChainID (orderbuilder.signer_ ob))).
  rewrite D. cbn [bind].
  unfold signer.Sign.
  cbn [orderbuilder.recordMetric orderbuilder.signer_].
  rewrite Sg. cbn [bind].
  eexists. split; [ reflexivity | ]. split; reflexivity.
Qed.

End OrderMetrics.

(** Scenario A leaves three success metrics. *)
Lemma order_creation_metrics_scenario_A :
  match @orderbuilder.CreateOrder Sample.libraries Sample.a_builder 1700000000 0.5
          (Sample.order_at 0.55) Fixture.options_001
          "0x4bFb41d5B3570DeFd03C39a9A4D8dE6Bd8B8982E" with
  | Returned (r, ob') =>
      exists earlier errorMsg,
        @orderbuilder.metrics Sample.libraries ob'
          = (earlier ++ [ {| types.Operation := "order_creation";
                             types.Success := Built.succeeded r;
                             types.Error := errorMsg |} ])%list
  | _ => False
  end.
Proof.
  destruct (@orderbuilder.CreateOrder Sample.libraries Sample.a_builder 1700000000 0.5
              (Sample.order_at 0.55) Fixture.options_001
              "0x4bFb41d5B3570DeFd03C39a9A4D8dE6Bd8B8982E")
    as [[r ob'] | ] eqn:E; try (vm_compute in E; discriminate E).
  destruct (@order_creation_metrics Sample.libraries _ _ _ _ _ _ _ _ E)
    as (earlier & errorMsg & M & _).
  exists earlier, errorMsg. exact M.
Defined.

(** With a digest function that gives 31 bytes, the library refuses to sign
    and the failure surfaces from [CreateOrder]. *)
Lemma signing_failure_is_reported_for_short_digest :
  exists ob',
    @orderbuilder.CreateOrder Fixture.short_digest_libraries Fixture.failing_builder
      1700000000 0.5 (Sample.order_at 0.55) Fixture.options_001
      "0x4bFb41d5B3570DeFd03C39a9A4D8dE6Bd8B8982E"
    = Returned
        (Err ("failed to sign order: failed to sign order hash: failed to sign message: "
                ++ "hash is required to be exactly 32 bytes"), ob').
Proof.
  destruct (@signing_failure_is_reported Fixture.short_digest_libraries
              Fixture.failing_builder
              (@orderbuilder.recordMetric Fixture.short_digest_libraries
                 Fixture.failing_builder "order_amounts_calculation" true "")
              1700000000 0.5 (Sample.order_at 0.55) Fixture.options_001
              "0x4bFb41d5B3570DeFd03C39a9A4D8dE6Bd8B8982E"
              0 (Some 5500000) (Some 10000000) (repeat x00 31)
              "hash is required to be exactly 32 bytes")
    as (ob' & E & _); [ vm_compute; reflexivity .. | ].
  exists ob'. exact E.
Defined.

(* ================================================================== *)
(** ** Token decimals of every float *)

Section TokenDecimals.

Lemma digits2_pos_lower (m : positive) : 2 ^ (Zpos (digits2_pos m) - 1) <= Zpos m.
Proof.
  induction m as [m IH | m IH | ]; cbn [digits2_pos].
  - rewrite Pos2Z.inj_succ. replace (Z.succ (Zpos (digits2_pos m)) - 1)
      with (Z.succ (Zpos (digits2_pos m) - 1)) by lia.
    rewrite Z.pow_succ_r by lia. lia.
  - rewrite Pos2Z.inj_succ. replace (Z.succ (Zpos (digits2_pos m)) - 1)
      with (Z.succ (Zpos (digits2_pos m) - 1)) by lia.
    rewrite Z.pow_succ_r by lia. lia.
  - reflexivity.
Qed.

Lemma Zdigits2_le (m k : Z) : 0 <= m < 2 ^ k -> 0 <= k -> 0 <= Zdigits2 m <= k.
Proof.
  intros [P B] K. destruct m as [ | m | m ]; cbn [Zdigits2]; [ lia | | lia ].
  split; [ lia | ].
  pose proof (digits2_pos_lower m) as L.
  destruct (Z_le_gt_dec (Zpos (digits2_pos m)) k) as [ | G ]; [ assumption | exfalso ].
  assert (2 ^ k <= 2 ^ (Zpos (digits2_pos m) - 1)) by (apply Z.pow_le_mono_r; lia).
  lia.
Qed.

Lemma shr_1_bounds (mrs : shr_record) :
  0 <= shr_m mrs -> 0 <= shr_m (shr_1 mrs) <= shr_m mrs.
Proof.
  destruct mrs as [m r s]. cbn [shr_m shr_1].
  destruct m as [ | [p | p | ] | p ]; cbn [shr_m]; lia.
Qed.

Lemma iter_shr_1_bounds (p : positive) :
  forall mrs : shr_record,
    0 <= shr_m mrs -> 0 <= shr_m (iter_pos shr_1 p mrs) <= shr_m mrs.
Proof.
  induction p as [p IH | p IH | ]; intros mrs P; cbn [iter_pos].
  - pose proof (shr_1_bounds mrs P) as B1.
    pose proof (IH (shr_1 mrs) (proj1 B1)) as B2.
    pose proof (IH (iter_pos shr_1 p (shr_1 mrs)) (proj1 B2)). lia.
  - pose proof (IH mrs P) as B1.
    pose proof (IH (iter_pos shr_1 p mrs) (proj1 B1)). lia.
  - apply shr_1_bounds. exact P.
Qed.

Lemma shr_bounds (mrs : shr_record) (e n : Z) :
  0 <= shr_m mrs ->
  0 <= shr_m (fst (shr mrs e n)) <= shr_m mrs
  /\ snd (shr mrs e n) = e + Z.max n 0.
Proof.
  intro P. destruct n as [ | p | p ]; cbn [shr fst snd].
  - split; lia.
  - split; [ apply iter_shr_1_bounds; exact P | lia ].
  - split; lia.
Qed.

Lemma round_nearest_even_bounds (m : Z) (l : location) :
  m <= round_nearest_even m l <= m + 1.
Proof.
  destruct l as [ | [ | | ] ]; cbn [round_nearest_even]; try lia.
  destruct (Z.even m); lia.
Qed.

Lemma shr_record_of_loc_m (m : Z) (l : location) : shr_m (shr_record_of_loc m l) = m.
Proof.
  destruct l as [ | [ | | ] ]; reflexivity.
Qed.

(** A float64 times 1000000 in 53-bit arithmetic with the exponent range
    of big.Float neither overflows nor gives a NaN. *)
Lemma scaled_product_finite (s : bool) (m : positive) (e : Z) :
  Zpos m < 2 ^ 53 -> -1074 <= e <= 971 ->
  match binary_round_aux prec big_emax s (Zpos (m * 1000000)) (e + 0) loc_Exact with
  | S754_zero s' | S754_finite s' _ _ => s' = s
  | _ => False
  end.
Proof.
  intros M E. unfold binary_round_aux, shr_fexp.
  set (m1 := Zpos (m * 1000000)).
  assert (M1 : 0 <= m1 < 2 ^ 73).
  { unfold m1. rewrite Pos2Z.inj_mul.
    change (2 ^ 73) with (2 ^ 53 * 2 ^ 20). change (2 ^ 20) with 1048576.
    change (2 ^ 53) with 9007199254740992 in *. lia. }
  pose proof (Zdigits2_le m1 73 M1 ltac:(lia)) as D1.
  set (n1 := fexp prec big_emax (Zdigits2 m1 + (e + 0)) - (e + 0)).
  assert (N1 : n1 <= 20).
  { unfold n1, fexp, SpecFloat.emin, prec, big_emax.
    change (2 ^ 31) with 2147483648. lia. }
  pose proof (shr_bounds (shr_record_of_loc m1 loc_Exact) (e + 0) n1) as B1.
  rewrite shr_record_of_loc_m in B1. specialize (B1 (proj1 M1)).
  destruct (shr (shr_record_of_loc m1 loc_Exact) (e + 0) n1) as [mrs' e'].
  cbn [fst snd] in B1. destruct B1 as [B1 E1].
  set (m2 := round_nearest_even (shr_m mrs') (loc_of_shr_record mrs')).
  pose proof (round_nearest_even_bounds (shr_m mrs') (loc_of_shr_record mrs')) as R.
  fold m2 in R.
  assert (M2 : 0 <= m2 < 2 ^ 74).
  { change (2 ^ 74) with (2 * 2 ^ 73). lia. }
  pose proof (Zdigits2_le m2 74 M2 ltac:(lia)) as D2.
  set (n2 := fexp prec big_emax (Zdigits2 m2 + e') - e').
  assert (N2 : n2 <= 21).
  { unfold n2, fexp, SpecFloat.emin, prec, big_emax.
    change (2 ^ 31) with 2147483648. lia. }
  pose proof (shr_bounds (shr_record_of_loc m2 loc_Exact) e' n2) as B2.
  rewrite shr_record_of_loc_m in B2. specialize (B2 (proj1 M2)).
  destruct (shr (shr_record_of_loc m2 loc_Exact) e' n2) as [mrs'' e''].
  cbn [fst snd] in B2. destruct B2 as [B2 E2].
  destruct (shr_m mrs'') as [ | q | q ]; [ reflexivity | | lia ].
  destruct (e'' <=? big_emax - prec) eqn:C; [ reflexivity | ].
  apply Z.leb_gt in C. unfold big_emax, prec in C.
  change (2 ^ 31) with 2147483648 in C. lia.
Qed.

Lemma SFtrunc_sign (s : bool) (m : positive) (e : Z) :
  exists z, SFtrunc (S754_finite s m e) = Some z /\ (if s then z <= 0 else 0 <= z).
Proof.
  cbn [SFtrunc]. eexists. split; [ reflexivity | ].
  assert (0 <= match e with
               | Zneg p => Z.shiftr (Zpos m) (Zpos p)
               | _ => Z.shiftl (Zpos m) e
               end).
  { destruct e; [ apply Z.shiftl_nonneg | apply Z.shiftl_nonneg | apply Z.shiftr_nonneg ];
      lia. }
  destruct s; lia.
Qed.

(** X8. [ToTokenDecimals] on every float64: it panics exactly on a NaN,
    returns nil exactly on an infinity, and otherwise returns an integer,
    zero for a zero, not above zero for a negative float and not below zero
    for a positive one; the product with 10^6 never overflows. *)
Theorem token_decimals_of_every_float (amount : float) :
  match Prim2SF amount with
  | S754_nan => utils.ToTokenDecimals amount = Panicked "NewFloat(NaN)"
  | S754_infinity _ => utils.ToTokenDecimals amount = Returned None
  | S754_zero _ => utils.ToTokenDecimals amount = Returned (Some 0)
  | S754_finite s _ _ =>
      exists z : Z,
        utils.ToTokenDecimals amount = Returned (Some z)
        /\ (if s then z <= 0 else 0 <= z)
  end.
Proof.
  rewrite ToTokenDecimals_scaled_integer. unfold Spec.scaled_integer.
  destruct (Prim2SF amount) as [s | s | | s m e] eqn:P; try reflexivity.
  destruct (finite_float_shape amount s m e P) as [M E].
  cbn [SFmul]. rewrite xorb_false_r.
  pose proof (scaled_product_finite s m e M E) as F.
  destruct (binary_round_aux prec big_emax s (Zpos (m * 1000000)) (e + 0) loc_Exact)
    as [s' | s' | | s' m' e']; try contradiction; subst s'.
  - exists 0. split; [ reflexivity | destruct s; lia ].
  - destruct (SFtrunc_sign s m' e') as (z & T & Z). exists z. rewrite T.
    split; [ reflexivity | exact Z ].
Qed.

End TokenDecimals.

(* ================================================================== *)
(** ** The price gate for every tick size *)

Section PriceBounds.
Context `{Libraries}.

Lemma SFleb_trans (x y z : spec_float) :
  SFleb x y = true -> SFleb y z = true -> SFleb x z = true.
Proof.
  unfold SFleb.
  destruct x as [sx | sx | | sx mx ex], y as [sy | sy | | sy my ey],
    z as [sz | sz | | sz mz ez];
    cbn [SFcompare]; intros A B; try congruence;
    repeat match goal with
    | s : bool |- _ => destruct s
    end; try congruence.
  - change (Pos.compare_cont Eq mx my) with (Pos.compare mx my) in A.
    change (Pos.compare_cont Eq my mz) with (Pos.compare my mz) in B.
    change (Pos.compare_cont Eq mx mz) with (Pos.compare mx mz).
    destruct (Z.compare_spec ex ey), (Z.compare_spec ey ez), (Z.compare_spec ex ez);
      try congruence; try lia;
      destruct (Pos.compare_spec mx my), (Pos.compare_spec my mz),
        (Pos.compare_spec mx mz);
      cbn [CompOpp] in *; try congruence; lia.
  - change (Pos.compare_cont Eq mx my) with (Pos.compare mx my) in A.
    change (Pos.compare_cont Eq my mz) with (Pos.compare my mz) in B.
    change (Pos.compare_cont Eq mx mz) with (Pos.compare mx mz).
    destruct (Z.compare_spec ex ey), (Z.compare_spec ey ez), (Z.compare_spec ex ez);
      try congruence; try lia;
      destruct (Pos.compare_spec mx my), (Pos.compare_spec my mz),
        (Pos.compare_spec mx mz);
      cbn [CompOpp] in *; try congruence; lia.
Qed.

Lemma leb_trans (x y z : float) :
  (x <=? y)%float = true -> (y <=? z)%float = true -> (x <=? z)%float = true.
Proof.
  rewrite !leb_spec. apply SFleb_trans.
Qed.

(** Between two positive finite floats there are only positive finite
    floats. *)
Lemma between_positive (x lo hi : float) (ml mh : positive) (el eh : Z) :
  Prim2SF lo = S754_finite false ml el ->
  Prim2SF hi = S754_finite false mh eh ->
  (lo <=? x)%float = true -> (x <=? hi)%float = true ->
  exists m e, Prim2SF x = S754_finite false m e.
Proof.
  rewrite !leb_spec. intros L Hh. rewrite L, Hh. unfold SFleb.
  destruct (Prim2SF x) as [s | s | | s m e]; try destruct s;
    cbn [SFcompare]; cbv iota; intros A B; try congruence.
  eauto.
Qed.

(** Whatever the tick size text, an accepted price lies between 0.0001 and
    0.9999. *)
Lemma ValidatePrice_bounds (price : float) (tickSize : types.TickSize) :
  utils.ValidatePrice price tickSize = true ->
  (0.0001 <=? price)%float = true /\ (price <=? 0.9999)%float = true.
Proof.
  unfold utils.ValidatePrice, utils.ParseTickSize. cbv zeta.
  intro V. apply andb_prop in V. destruct V as [L U].
  repeat match type of L with
  | context [ String.eqb ?a ?b ] => destruct (String.eqb a b)
  end;
  (split; [ eapply leb_trans; [ | exact L ]; vm_compute; reflexivity
          | eapply leb_trans; [ exact U | ]; vm_compute; reflexivity ]).
Qed.

(** X9. Order creation by the client never signs a price outside
    [0.0001, 0.9999]: whatever tick size the market data or the caller
    supplies, recognized or not, an order is returned only for a price that
    is a positive finite number in that interval (never a NaN, a zero, a
    negative number or one). *)
Theorem signed_price_within_bounds
    (GetTickSize : client.ClobClient -> string -> result types.TickSize * client.ClobClient)
    (GetNegRisk : client.ClobClient -> string -> result bool * client.ClobClient)
    (c c' : client.ClobClient) (now : Z) (random : float)
    (orderArgs : types.OrderArgs) (options : option types.CreateOrderOptions)
    (signedOrder : types.SignedOrder) :
  client.CreateOrder GetTickSize GetNegRisk c now random orderArgs options
    = Returned (Ok signedOrder, c') ->
  (0.0001 <=? types.oa_Price orderArgs)%float = true
  /\ (types.oa_Price orderArgs <=? 0.9999)%float = true
  /\ exists m e, Prim2SF (types.oa_Price orderArgs) = S754_finite false m e.
Proof.
  unfold client.CreateOrder.
  destruct (client.authLevel c <? types.L1); [ discriminate | ].
  destruct (client.resolveOrderOptions _ _ _ _ _) as [[resolved | err] c1];
    [ | discriminate ].
  destruct (utils.ValidatePrice _ _) eqn:V; cbn [negb]; [ | discriminate ].
  intros _. apply ValidatePrice_bounds in V. destruct V as [L U].
  split; [ exact L | ]. split; [ exact U | ].
  eapply between_positive; [ | | exact L | exact U ]; vm_compute; reflexivity.
Qed.

End PriceBounds.

(** Scenario A through the client: the price 0.55 is signed. *)
Lemma signed_price_within_bounds_scenario_A :
  (0.0001 <=? 0.55)%float = true /\ (0.55 <=? 0.9999)%float = true.
Proof.
  destruct (@client.CreateOrder Sample.libraries Sample.tick_001 Sample.not_neg_risk
              Sample.a_client 1700000000 0.5 (Sample.order_at 0.55) None)
    as [[[signedOrder | err] c'] | ] eqn:E; try (vm_compute in E; discriminate E).
  destruct (@signed_price_within_bounds Sample.libraries _ _ _ _ _ _ _ _ _ E)
    as (L & U & _).
  split; [ exact L | exact U ].
Defined.

(* ================================================================== *)
(** ** The client: options, authentication and chains *)

Section ClientOrders.
Context `{Libraries}.
Variable GetTickSize :
  client.ClobClient -> string -> result types.TickSize * client.ClobClient.
Variable GetNegRisk :
  client.ClobClient -> string -> result bool * client.ClobClient.

(** X10. Of the options a caller passes to order creation only a non-empty
    tick size counts: the neg-risk flag is always replaced by the answer of
    the market data, so flipping it changes nothing, and a non-empty tick
    size is used as it is, whatever the tick size the market data would
    report. *)
Theorem caller_options_that_count
    (c : client.ClobClient) (now : Z) (random : float)
    (orderArgs : types.OrderArgs) (tickSize : types.TickSize) (negRisk : bool) :
  client.CreateOrder GetTickSize GetNegRisk c now random orderArgs
    (Some {| types.TickSize_ := tickSize; types.NegRisk := negRisk |})
  = client.CreateOrder GetTickSize GetNegRisk c now random orderArgs
      (Some {| types.TickSize_ := tickSize; types.NegRisk := negb negRisk |})
  /\
  (tickSize <> "" ->
   forall OtherTickSize :
     client.ClobClient -> string -> result types.TickSize * client.ClobClient,
     client.CreateOrder GetTickSize GetNegRisk c now random orderArgs
       (Some {| types.TickSize_ := tickSize; types.NegRisk := negRisk |})
     = client.CreateOrder OtherTickSize GetNegRisk c now random orderArgs
         (Some {| types.TickSize_ := tickSize; types.NegRisk := negRisk |})
     /\ forall resolved c',
          client.resolveOrderOptions GetTickSize GetNegRisk c
            (types.oa_TokenID orderArgs)
            (Some {| types.TickSize_ := tickSize; types.NegRisk := negRisk |})
            = (Ok resolved, c') ->
          types.TickSize_ resolved = tickSize
          /\ fst (GetNegRisk c (types.oa_TokenID orderArgs))
             = Ok (types.NegRisk resolved)).
Proof.
  split.
  - unfold client.CreateOrder, client.resolveOrderOptions.
    cbn [types.TickSize_ types.NegRisk].
    destruct (String.eqb tickSize ""); [ | reflexivity ].
    destruct (GetTickSize c (types.oa_TokenID orderArgs)) as [[t | err] c1]; reflexivity.
  - intros N Other. apply String.eqb_neq in N.
    unfold client.CreateOrder, client.resolveOrderOptions.
    cbn [types.TickSize_ types.NegRisk]. rewrite N.
    split; [ reflexivity | ].
    intros resolved c'.
    destruct (GetNegRisk c (types.oa_TokenID orderArgs)) as [[b | err] c1];
      cbn [fst]; intro Q; [ | discriminate Q ].
    injection Q as Q _. subst resolved. split; reflexivity.
Qed.

(** X11. The client returns a signed order only when it holds Level-1
    authentication at least and the chain it reads after resolving the
    options is one of the two of the contract tables, 137 and 80002; both
    tables know the same chains, so on any other chain no order is created
    whichever the neg-risk flag. *)
Theorem order_requires_auth_and_known_chain
    (c c' : client.ClobClient) (now : Z) (random : float)
    (orderArgs : types.OrderArgs) (options : option types.CreateOrderOptions)
    (signedOrder : types.SignedOrder) :
  client.CreateOrder GetTickSize GetNegRisk c now random orderArgs options
    = Returned (Ok signedOrder, c') ->
  types.L1 <= client.authLevel c
  /\ (client.chainID c' = 137 \/ client.chainID c' = 80002)
  /\ (forall negRisk : bool,
        (if negRisk then client.negRiskContractConfigs (client.chainID c')
         else client.contractConfigs (client.chainID c')) <> None).
Proof.
  unfold client.CreateOrder.
  destruct (client.authLevel c <? types.L1) eqn:A; [ discriminate | ].
  apply Z.ltb_ge in A.
  destruct (client.resolveOrderOptions _ _ _ _ _) as [[resolved | err] c1] eqn:R;
    [ | discriminate ].
  destruct (utils.ValidatePrice _ _); cbn [negb]; [ | discriminate ].
  assert (K : forall negRisk found,
            (if negRisk : bool
             then client.negRiskContractConfigs (client.chainID c1)
             else client.contractConfigs (client.chainID c1)) = Some found ->
            client.chainID c1 = 137 \/ client.chainID c1 = 80002).
  { intros negRisk found.
    unfold client.negRiskContractConfigs, client.contractConfigs.
    destruct (client.chainID c1 =? 80002) eqn:C1; [ apply Z.eqb_eq in C1; auto | ].
    destruct (client.chainID c1 =? 137) eqn:C2; [ apply Z.eqb_eq in C2; auto | ].
    destruct negRisk; discriminate. }
  destruct (if types.NegRisk resolved then _ else _) as [contractConfig | ] eqn:F;
    [ | discriminate ].
  apply K in F.
  destruct (client.orderBuilder c1) as [ob | ]; [ | discriminate ].
  destruct (orderbuilder.CreateOrder _ _ _ _ _ _) as [[[so | err] ob'] | ];
    cbn [bind]; try discriminate.
  intro Q. injection Q as _ Q. subst c'.
  cbn [client.recordMetric client.with_orderBuilder client.chainID client.authLevel].
  split; [ exact A | ]. split; [ exact F | ].
  intro negRisk. unfold client.negRiskContractConfigs, client.contractConfigs.
  destruct F as [F | F]; rewrite F; destruct negRisk; discriminate.
Qed.

End ClientOrders.

(** A caller-supplied tick size is used as it is. *)
Lemma caller_options_that_count_for_tick_01 :
  @client.CreateOrder Sample.libraries Sample.tick_001 Sample.not_neg_risk
    Sample.a_client 1700000000 0.5 (Sample.order_at 0.55)
    (Some {| types.TickSize_ := "0.1"; types.NegRisk := true |})
  = @client.CreateOrder Sample.libraries (fun c _ => (Err "unreachable", c))
      Sample.not_neg_risk
      Sample.a_client 1700000000 0.5 (Sample.order_at 0.55)
      (Some {| types.TickSize_ := "0.1"; types.NegRisk := true |}).
Proof.
  apply (proj2 (@caller_options_that_count Sample.libraries Sample.tick_001
                  Sample.not_neg_risk Sample.a_client 1700000000 0.5
                  (Sample.order_at 0.55) "0.1" true)).
  discriminate.
Defined.

(** Scenario A through the client: Level 1 on chain 137. *)
Lemma order_requires_auth_and_known_chain_scenario_A :
  types.L1 <= @client.authLevel Sample.libraries Sample.a_client.
Proof.
  destruct (@client.CreateOrder Sample.libraries Sample.tick_001 Sample.not_neg_risk
              Sample.a_client 1700000000 0.5 (Sample.order_at 0.55) None)
    as [[[signedOrder | err] c'] | ] eqn:E; try (vm_compute in E; discriminate E).
  destruct (@order_requires_auth_and_known_chain Sample.libraries _ _ _ _ _ _ _ _ _ E)
    as (A & _).
  exact A.
Defined.

(* ================================================================== *)
(** ** Constructing signers, builders and clients *)

Section Constructors.
Context `{Libraries}.
Variable crypto_HexToECDSA : string -> result PrivateKey.
Variable crypto_PubkeyToAddress : PrivateKey -> Address.

Lemma substring_all (s : string) : substring 0 (String.length s) s = s.
Proof.
  induction s as [ | c s IH]; [ reflexivity | ].
  cbn [String.length substring]. rewrite IH. reflexivity.
Qed.

(** X12. The hexadecimal prefix of a private key is optional: a non-empty
    key text that does not itself begin with 0x gives the same signer with
    and without the prefix 0x in front; the two characters 0x alone are not
    taken for a prefix and reach the key decoder as they are. *)
Theorem hex_prefix_is_optional (privateKeyHex : string) (chainID : Z) :
  privateKeyHex <> "" ->
  substring 0 2 privateKeyHex <> "0x" ->
  Construction.NewSigner crypto_HexToECDSA crypto_PubkeyToAddress
    ("0x" ++ privateKeyHex) chainID
  = Construction.NewSigner crypto_HexToECDSA crypto_PubkeyToAddress
      privateKeyHex chainID
  /\ Construction.NewSigner crypto_HexToECDSA crypto_PubkeyToAddress "0x" chainID
     = match crypto_HexToECDSA "0x" with
       | Err err => Err ("invalid private key: " ++ err)
       | Ok key =>
           Ok (signer.recordMetric
                 {| signer.privateKey := key;
                    signer.address := crypto_PubkeyToAddress key;
                    signer.chainID := chainID;
                    signer.metrics := [] |} "signer_creation" true "")
       end.
Proof.
  intros N P. split; [ | reflexivity ].
  unfold Construction.NewSigner.
  apply String.eqb_neq in P. rewrite P, andb_false_r.
  change (String.length ("0x" ++ privateKeyHex))
    with (S (S (String.length privateKeyHex))).
  change (substring 0 2 ("0x" ++ privateKeyHex))
    with (String "0" (String "x" (substring 0 0 privateKeyHex))).
  assert (Z0 : substring 0 0 privateKeyHex = "") by (destruct privateKeyHex; reflexivity).
  rewrite Z0.
  assert (L : (2 <? S (S (String.length privateKeyHex)))%nat = true).
  { apply Nat.ltb_lt. destruct privateKeyHex; [ congruence | cbn; lia ]. }
  rewrite L. cbn [andb String.eqb Ascii.eqb Bool.eqb].
  replace (S (S (String.length privateKeyHex)) - 2)%nat
    with (String.length privateKeyHex) by lia.
  change (substring 2 (String.length privateKeyHex) ("0x" ++ privateKeyHex))
    with (substring 0 (String.length privateKeyHex) privateKeyHex).
  rewrite substring_all. reflexivity.
Qed.

End Constructors.

Section FreshBuilders.
Context `{Libraries}.
Variable crypto_HexToECDSA : string -> result PrivateKey.
Variable crypto_PubkeyToAddress : PrivateKey -> Address.

(** X13. The defaults of a builder reach the signed order: an order signed
    by a builder made with no funder has the signer's address as maker and as
    signer, one made with no signature type has signature type 0 (EOA), and
    a funder or signature type that is given is the one the order carries. *)
Theorem builder_defaults_reach_the_order
    (s : signer.Signer) (signatureType : option Z) (funder : option string)
    (ob' : orderbuilder.OrderBuilder) (now : Z) (random : float)
    (orderArgs : types.OrderArgs) (options : types.CreateOrderOptions)
    (exchangeAddress : string) (signedOrder : types.SignedOrder) :
  orderbuilder.CreateOrder (Construction.NewOrderBuilder s signatureType funder)
    now random orderArgs options exchangeAddress = Returned (Ok signedOrder, ob') ->
  types.so_Signer signedOrder = signer.AddressHex s
  /\ types.so_Maker signedOrder
     = match funder with
       | Some funderAddr => funderAddr
       | None => signer.AddressHex s
       end
  /\ types.so_SignatureType signedOrder
     = match signatureType with
       | Some sigType => sigType
       | None => 0
       end.
Proof.
  intro E. apply CreateOrder_carries in E.
  destruct E as (_ & _ & _ & _ & _ & _ & _ & M & S & T & _).
  rewrite M, S, T. unfold Construction.NewOrderBuilder. cbv zeta.
  cbn [orderbuilder.funder orderbuilder.signer_ orderbuilder.signatureType].
  split; [ reflexivity | ].
  split; [ destruct funder | destruct signatureType ]; reflexivity.
Qed.

(** The ways [NewClobClient] returns. *)
Lemma NewClobClient_returns
    (host : string) (chainID : Z) (privateKey : string)
    (creds : option types.ApiCreds) (signatureType : option Z)
    (funder : option string) (c : ClientState.ClobClient) :
  ClientState.NewClobClient crypto_HexToECDSA crypto_PubkeyToAddress
    host chainID privateKey creds signatureType funder = Ok c ->
  ClientState.chainID c = chainID
  /\ ClientState.creds c = creds
  /\ ClientState.authLevel c = ClientState.getAuthLevel c
  /\ ClientState.metrics c
     = [ {| types.Operation := "client_creation"; types.Success := true;
            types.Error := "" |} ]
  /\ ((privateKey = "" /\ ClientState.signer_ c = None
       /\ ClientState.headerBuilder c = None /\ ClientState.orderBuilder c = None)
      \/
      (privateKey <> "" /\
       exists s,
         Construction.NewSigner crypto_HexToECDSA crypto_PubkeyToAddress
           privateKey chainID = Ok s
         /\ ClientState.signer_ c = Some s
         /\ ClientState.headerBuilder c = Some (Construction.NewHeaderBuilder s)
         /\ ClientState.orderBuilder c
            = Some (Construction.NewOrderBuilder s signatureType funder))).
Proof.
  unfold ClientState.NewClobClient. cbv zeta.
  destruct (String.eqb privateKey "") eqn:K; cbn [negb].
  - apply String.eqb_eq in K. intro Q. injection Q as Q. subst c.
    repeat split. left. repeat split. exact K.
  - apply String.eqb_neq in K.
    destruct (Construction.NewSigner _ _ _ _) as [s | err] eqn:S; [ | discriminate ].
    intro Q. injection Q as Q. subst c.
    repeat split. right. split; [ exact K | ]. exists s. repeat split.
Qed.

(** X14. The authentication level of a client follows what it holds: a
    client made without a private key is at Level 0 and has no order builder,
    even when credentials are given; one made with a key is at Level 2 with
    credentials and at Level 1 without; and setting credentials later moves a
    keyed client between Level 1 and Level 2 and leaves a keyless one at
    Level 0. *)
Theorem auth_level_follows_key_and_credentials
    (host : string) (chainID : Z) (privateKey : string)
    (creds : option types.ApiCreds) (signatureType : option Z)
    (funder : option string) (c : ClientState.ClobClient) :
  ClientState.NewClobClient crypto_HexToECDSA crypto_PubkeyToAddress
    host chainID privateKey creds signatureType funder = Ok c ->
  let level (held : option types.ApiCreds) :=
    if String.eqb privateKey "" then types.L0
    else match held with
         | Some _ => types.L2
         | None => types.L1
         end in
  ClientState.authLevel c = level creds
  /\ (ClientState.orderBuilder c = None <-> privateKey = "")
  /\ (privateKey = "" -> ClientState.GetAddress c = "")
  /\ forall later : option types.ApiCreds,
       ClientState.authLevel (ClientState.SetAPICredentials c later) = level later
       /\ ClientState.creds (ClientState.SetAPICredentials c later) = later
       /\ ClientState.orderBuilder (ClientState.SetAPICredentials c later)
          = ClientState.orderBuilder c.
Proof.
  intro E. apply NewClobClient_returns in E.
  destruct E as (_ & Cr & A & _ & [(K & S & _ & O) | (K & s & _ & S & _ & O)]);
    cbv zeta.
  - subst privateKey. cbn [String.eqb].
    rewrite A. unfold ClientState.getAuthLevel, ClientState.GetAddress. rewrite S.
    split; [ reflexivity | ]. split; [ tauto | ]. split; [ reflexivity | ].
    intro later.
    unfold ClientState.SetAPICredentials, ClientState.getAuthLevel,
      ClientState.orderBuilder.
    cbn [ClientState.with_authLevel ClientState.authLevel ClientState.signer_
         ClientState.creds ClientState.orderBuilder_].
    rewrite S. repeat split.
  - apply String.eqb_neq in K. rewrite K.
    rewrite A. unfold ClientState.getAuthLevel. rewrite S, Cr.
    split; [ destruct creds; reflexivity | ].
    split; [ rewrite O; apply String.eqb_neq in K; split; [ discriminate | tauto ] | ].
    split; [ apply String.eqb_neq in K; tauto | ].
    intro later.
    unfold ClientState.SetAPICredentials, ClientState.getAuthLevel,
      ClientState.orderBuilder.
    cbn [ClientState.with_authLevel ClientState.authLevel ClientState.signer_
         ClientState.creds ClientState.orderBuilder_].
    rewrite S. destruct later; repeat split.
Qed.

(** X15. A client made without a private key can never create an order:
    whatever the credentials, the market data, the order and the options,
    order creation returns the Level-1 error, reaches neither the market data
    nor a builder, and leaves one failure metric. *)
Theorem keyless_client_creates_no_order
    (host : string) (chainID : Z) (creds : option types.ApiCreds)
    (signatureType : option Z) (funder : option string) :
  exists c : ClientState.ClobClient,
    ClientState.NewClobClient crypto_HexToECDSA crypto_PubkeyToAddress
      host chainID "" creds signatureType funder = Ok c
    /\ forall
         (GetTickSize :
            client.ClobClient -> string -> result types.TickSize * client.ClobClient)
         (GetNegRisk : client.ClobClient -> string -> result bool * client.ClobClient)
         (later : option types.ApiCreds) (now : Z) (random : float)
         (orderArgs : types.OrderArgs) (options : option types.CreateOrderOptions),
         let made := ClientState.order_part (ClientState.SetAPICredentials c later) in
         client.CreateOrder GetTickSize GetNegRisk made now random orderArgs options
         = Returned (Err "Level 1 authentication required",
                     client.recordMetric made "order_creation" false
                       "insufficient auth level").
Proof.
  eexists. split; [ reflexivity | ].
  intros GetTickSize GetNegRisk later now random orderArgs options. reflexivity.
Qed.

End FreshBuilders.

(** The key [ab] gives the same signer with and without its prefix. *)
Lemma hex_prefix_is_optional_for_ab :
  @Construction.NewSigner Sample.libraries Fixture.HexToECDSA Fixture.PubkeyToAddress
    "0xab" 137
  = @Construction.NewSigner Sample.libraries Fixture.HexToECDSA Fixture.PubkeyToAddress
      "ab" 137.
Proof.
  apply (@hex_prefix_is_optional Sample.libraries Fixture.HexToECDSA
           Fixture.PubkeyToAddress "ab" 137); discriminate.
Defined.

(** A builder with defaults signs scenario A with maker and signer equal. *)
Lemma builder_defaults_reach_the_order_scenario_A :
  match @orderbuilder.CreateOrder Sample.libraries
          (@Construction.NewOrderBuilder Sample.libraries Sample.a_signer None None)
          1700000000 0.5 (Sample.order_at 0.55) Fixture.options_001
          "0x4bFb41d5B3570DeFd03C39a9A4D8dE6Bd8B8982E" with
  | Returned (Ok signedOrder, _) =>
      types.so_Maker signedOrder = types.so_Signer signedOrder
      /\ types.so_SignatureType signedOrder = 0
  | _ => False
  end.
Proof.
  destruct (@orderbuilder.CreateOrder Sample.libraries
              (@Construction.NewOrderBuilder Sample.libraries Sample.a_signer None None)
              1700000000 0.5 (Sample.order_at 0.55) Fixture.options_001
              "0x4bFb41d5B3570DeFd03C39a9A4D8dE6Bd8B8982E")
    as [[[signedOrder | err] ob'] | ] eqn:E; try (vm_compute in E; discriminate E).
  destruct (@builder_defaults_reach_the_order Sample.libraries _ _ _ _ _ _ _ _ _ _ E)
    as (S & M & T).
  split; [ congruence | exact T ].
Defined.

(** A client made with the key [ab] and credentials is at Level 2. *)
Lemma auth_level_follows_key_and_credentials_for_ab :
  match @ClientState.NewClobClient Sample.libraries Fixture.HexToECDSA
          Fixture.PubkeyToAddress "https://clob.example/" 137 "ab"
          (Some Sample.credentials) None None with
  | Ok c =>
      @ClientState.authLevel Sample.libraries c = types.L2
      /\ @ClientState.authLevel Sample.libraries
           (@ClientState.SetAPICredentials Sample.libraries c None) = types.L1
  | Err _ => False
  end.
Proof.
  destruct (@ClientState.NewClobClient Sample.libraries Fixture.HexToECDSA
              Fixture.PubkeyToAddress "https://clob.example/" 137 "ab"
              (Some Sample.credentials) None None) as [c | err] eqn:E;
    try (vm_compute in E; discriminate E).
  destruct (@auth_level_follows_key_and_credentials Sample.libraries _ _ _ _ _ _ _ _ _ E)
    as (A & _ & _ & L).
  split; [ exact A | exact (proj1 (L None)) ].
Defined.

(* ================================================================== *)
(** ** Market data: requests and caches *)

Section MarketData.
Context `{Libraries}.
Variable Request : Type.
Variable http_NewRequest : string -> string -> option string -> result Request.
Variable Header_Set : Request -> string -> string -> Request.
Variable httpClient_Do : Request -> result ClientState.Response.
Variable json_Unmarshal : list byte -> result (string -> ClientState.any).

Lemma same_but_metrics_refl (c : ClientState.ClobClient) :
  ClientState.same_but_metrics c c.
Proof.
  repeat split.
Qed.

Lemma same_but_metrics_recordMetric
    (c c' : ClientState.ClobClient) (operation : string) (success : bool)
    (errorMsg : string) :
  ClientState.same_but_metrics c c' ->
  ClientState.same_but_metrics c (ClientState.recordMetric c' operation success errorMsg).
Proof.
  unfold ClientState.same_but_metrics. cbn. tauto.
Qed.

(** The ways [makeRequest] returns. *)
Lemma makeRequest_returns
    (c c' : ClientState.ClobClient) (method url : string)
    (headers : list (string * string)) (body : option body_value)
    (r : result (list byte)) :
  ClientState.makeRequest http_NewRequest Header_Set httpClient_Do
    c method url headers body = (r, c') ->
  ClientState.same_but_metrics c c'
  /\ (exists errorMsg,
        ClientState.metrics c'
        = (ClientState.metrics c
             ++ [ {| types.Operation := "http_request";
                     types.Success := Built.succeeded r;
                     types.Error := errorMsg |} ])%list)
  /\ (forall respBody, r = Ok respBody ->
        exists req resp,
          httpClient_Do req = Ok resp
          /\ ClientState.StatusCode resp < 400
          /\ ClientState.ReadAll resp = Ok respBody)
  /\ (forall req resp respBody,
        body = None ->
        http_NewRequest method url None = Ok req ->
        httpClient_Do
          (fold_left (fun req kv => Header_Set req (fst kv) (snd kv)) headers
             (Header_Set req "Content-Type" "application/json")) = Ok resp ->
        ClientState.ReadAll resp = Ok respBody ->
        400 <= ClientState.StatusCode resp ->
        r = Err ("HTTP " ++ Sprintf_d (ClientState.StatusCode resp) ++ ": "
                   ++ string_of_list_byte respBody)).
Proof.
  unfold ClientState.makeRequest. cbv zeta.
  assert (M : forall (reqBody : option string) (r : result (list byte))
                     (c' : ClientState.ClobClient),
    match http_NewRequest method url reqBody with
    | Err err =>
        (Err ("failed to create request: " ++ err),
         ClientState.recordMetric c "http_request" false err)
    | Ok req =>
        match httpClient_Do
                (fold_left (fun req kv => Header_Set req (fst kv) (snd kv)) headers
                   (Header_Set req "Content-Type" "application/json")) with
        | Err err =>
            (Err ("failed to make request: " ++ err),
             ClientState.recordMetric c "http_request" false err)
        | Ok resp =>
            match ClientState.ReadAll resp with
            | Err err =>
                (Err ("failed to read response: " ++ err),
                 ClientState.recordMetric c "http_request" false err)
            | Ok respBody =>
                if ClientState.StatusCode resp >=? 400
                then
                  (Err ("HTTP " ++ Sprintf_d (ClientState.StatusCode resp) ++ ": "
                          ++ string_of_list_byte respBody),
                   ClientState.recordMetric c "http_request" false
                     ("HTTP " ++ Sprintf_d (ClientState.StatusCode resp) ++ ": "
                        ++ string_of_list_byte respBody))
                else (Ok respBody, ClientState.recordMetric c "http_request" true "")
            end
        end
    end = (r, c') ->
    ClientState.same_but_metrics c c'
    /\ (exists errorMsg,
          ClientState.metrics c'
          = (ClientState.metrics c
               ++ [ {| types.Operation := "http_request";
                       types.Success := Built.succeeded r;
                       types.Error := errorMsg |} ])%list)
    /\ (forall respBody, r = Ok respBody ->
          exists req resp,
            httpClient_Do req = Ok resp
            /\ ClientState.StatusCode resp < 400
            /\ ClientState.ReadAll resp = Ok respBody)
    /\ (forall req resp respBody,
          http_NewRequest method url reqBody = Ok req ->
          httpClient_Do
            (fold_left (fun req kv => Header_Set req (fst kv) (snd kv)) headers
               (Header_Set req "Content-Type" "application/json")) = Ok resp ->
          ClientState.ReadAll resp = Ok respBody ->
          400 <= ClientState.StatusCode resp ->
          r = Err ("HTTP " ++ Sprintf_d (ClientState.StatusCode resp) ++ ": "
                     ++ string_of_list_byte respBody))).
  { intros reqBody r0 c0.
    destruct (http_NewRequest method url reqBody) as [req | err].
    2:{ intro Q. injection Q as Q1 Q2. subst r0 c0.
        split; [ apply same_but_metrics_recordMetric, same_but_metrics_refl | ].
        split; [ eexists; reflexivity | ].
        split; [ discriminate | intros; discriminate ]. }
    destruct (httpClient_Do _) as [resp | err] eqn:D.
    2:{ intro Q. injection Q as Q1 Q2. subst r0 c0.
        split; [ apply same_but_metrics_recordMetric, same_but_metrics_refl | ].
        split; [ eexists; reflexivity | ].
        split; [ discriminate | ].
        intros req0 resp0 respBody Q. injection Q as Q. subst req0.
        rewrite D. discriminate. }
    destruct (ClientState.ReadAll resp) as [respBody | err] eqn:Rd.
    2:{ intro Q. injection Q as Q1 Q2. subst r0 c0.
        split; [ apply same_but_metrics_recordMetric, same_but_metrics_refl | ].
        split; [ eexists; reflexivity | ].
        split; [ discriminate | ].
        intros req0 resp0 respBody Q. injection Q as Q. subst req0.
        rewrite D. intro Q. injection Q as Q. subst resp0. congruence. }
    destruct (ClientState.StatusCode resp >=? 400) eqn:St;
      intro Q; injection Q as Q1 Q2; subst r0 c0;
      (split; [ apply same_but_metrics_recordMetric, same_but_metrics_refl | ]);
      (split; [ eexists; reflexivity | ]).
    - split; [ discriminate | ].
      intros req0 resp0 respBody0 Q. injection Q as Q. subst req0.
      rewrite D. intro Q. injection Q as Q. subst resp0.
      rewrite Rd. intro Q. injection Q as Q. subst respBody0. reflexivity.
    - split.
      + intros respBody0 Q. injection Q as Q. subst respBody0.
        exists (fold_left (fun req kv => Header_Set req (fst kv) (snd kv)) headers
                  (Header_Set req "Content-Type" "application/json")), resp.
        split; [ exact D | ]. split; [ | exact Rd ]. lia.
      + intros req0 resp0 respBody0 Q. injection Q as Q. subst req0.
        rewrite D. intro Q. injection Q as Q. subst resp0. lia. }
  destruct body as [b | ].
  - destruct (json_Marshal b) as [bodyBytes | err].
    + intro Q. destruct (M _ _ _ Q) as (S & Me & B & _).
      split; [ exact S | ]. split; [ exact Me | ]. split; [ exact B | ].
      intros; discriminate.
    + intro Q. injection Q as Q1 Q2. subst r c'.
      split; [ apply same_but_metrics_recordMetric, same_but_metrics_refl | ].
      split; [ eexists; reflexivity | ].
      split; [ discriminate | intros; discriminate ].
  - intro Q. destruct (M _ _ _ Q) as (S & Me & B & E).
    split; [ exact S | ]. split; [ exact Me | ]. split; [ exact B | ].
    intros req resp respBody _. apply E.
Qed.

(** X16. A request with or without a body returns a body exactly for a
    response that could be read and whose status is below 400: the request
    sent is the one made of the method, the URL and the JSON text of the body
    (none for a nil body), with the content type and then the caller's
    headers set; a status of 400 or above gives the error HTTP, the status
    and the body text, a status below 400 gives the body read; a body that
    cannot be serialized gives the marshalling error and no request.
    Whatever the outcome, the client changes in its metrics only, which gain
    one http_request entry whose success flag is the outcome. *)
Theorem body_only_below_status_400
    (c c' : ClientState.ClobClient) (method url : string)
    (headers : list (string * string)) (body : option body_value)
    (r : result (list byte)) :
  ClientState.makeRequest http_NewRequest Header_Set httpClient_Do
    c method url headers body = (r, c') ->
  let sent (req : Request) :=
    fold_left (fun req kv => Header_Set req (fst kv) (snd kv)) headers
      (Header_Set req "Content-Type" "application/json") in
  let carries (reqBody : option string) :=
    (body = None /\ reqBody = None)
    \/ (exists b text, body = Some b /\ json_Marshal b = Ok text /\ reqBody = Some text) in
  ClientState.same_but_metrics c c'
  /\ (exists errorMsg,
        ClientState.metrics c'
        = (ClientState.metrics c
             ++ [ {| types.Operation := "http_request";
                     types.Success := Built.succeeded r;
                     types.Error := errorMsg |} ])%list)
  /\ (forall respBody, r = Ok respBody ->
        exists reqBody req resp,
          carries reqBody
          /\ http_NewRequest method url reqBody = Ok req
          /\ httpClient_Do (sent req) = Ok resp
          /\ ClientState.StatusCode resp < 400
          /\ ClientState.ReadAll resp = Ok respBody)
  /\ (forall reqBody req resp respBody,
        carries reqBody ->
        http_NewRequest method url reqBody = Ok req ->
        httpClient_Do (sent req) = Ok resp ->
        ClientState.ReadAll resp = Ok respBody ->
        (400 <= ClientState.StatusCode resp ->
         r = Err ("HTTP " ++ Sprintf_d (ClientState.StatusCode resp) ++ ": "
                    ++ string_of_list_byte respBody))
        /\ (ClientState.StatusCode resp < 400 -> r = Ok respBody))
  /\ (forall b err,
        body = Some b -> json_Marshal b = Err err ->
        r = Err ("failed to marshal body: " ++ err)).
Proof.
  intros M sent carries.
  destruct (makeRequest_returns _ _ _ _ _ _ _ M) as (S & Me & _).
  split; [ exact S | ]. split; [ exact Me | ].
  clear S Me. revert M. unfold ClientState.makeRequest. cbv zeta.
  assert (Sent : forall (reqBody : option string),
    carries reqBody ->
    match http_NewRequest method url reqBody with
    | Err err =>
        (Err ("failed to create request: " ++ err),
         ClientState.recordMetric c "http_request" false err)
    | Ok req =>
        match httpClient_Do (sent req) with
        | Err err =>
            (Err ("failed to make request: " ++ err),
             ClientState.recordMetric c "http_request" false err)
        | Ok resp =>
            match ClientState.ReadAll resp with
            | Err err =>
                (Err ("failed to read response: " ++ err),
                 ClientState.recordMetric c "http_request" false err)
            | Ok respBody =>
                if ClientState.StatusCode resp >=? 400
                then
                  (Err ("HTTP " ++ Sprintf_d (ClientState.StatusCode resp) ++ ": "
                          ++ string_of_list_byte respBody),
                   ClientState.recordMetric c "http_request" false
                     ("HTTP " ++ Sprintf_d (ClientState.StatusCode resp) ++ ": "
                        ++ string_of_list_byte respBody))
                else (Ok respBody, ClientState.recordMetric c "http_request" true "")
            end
        end
    end = (r, c') ->
    (forall respBody, r = Ok respBody ->
       exists reqBody req resp,
         carries reqBody
         /\ http_NewRequest method url reqBody = Ok req
         /\ httpClient_Do (sent req) = Ok resp
         /\ ClientState.StatusCode resp < 400
         /\ ClientState.ReadAll resp = Ok respBody)
    /\ (forall req resp respBody,
          http_NewRequest method url reqBody = Ok req ->
          httpClient_Do (sent req) = Ok resp ->
          ClientState.ReadAll resp = Ok respBody ->
          (400 <= ClientState.StatusCode resp ->
           r = Err ("HTTP " ++ Sprintf_d (ClientState.StatusCode resp) ++ ": "
                      ++ string_of_list_byte respBody))
          /\ (ClientState.StatusCode resp < 400 -> r = Ok respBody))).
  { intros reqBody Carries.
    destruct (http_NewRequest method url reqBody) as [req | err] eqn:N.
    2:{ intro Q. injection Q as Q1 Q2. subst r c'.
        split; [ discriminate | intros; discriminate ]. }
    destruct (httpClient_Do (sent req)) as [resp | err] eqn:D.
    2:{ intro Q. injection Q as Q1 Q2. subst r c'.
        split; [ discriminate | ].
        intros req0 resp0 respBody Q. injection Q as Q. subst req0.
        rewrite D. discriminate. }
    destruct (ClientState.ReadAll resp) as [respBody | err] eqn:Rd.
    2:{ intro Q. injection Q as Q1 Q2. subst r c'.
        split; [ discriminate | ].
        intros req0 resp0 respBody Q. injection Q as Q. subst req0.
        rewrite D. intro Q. injection Q as Q. subst resp0. congruence. }
    destruct (ClientState.StatusCode resp >=? 400) eqn:St;
      intro Q; injection Q as Q1 Q2; subst r c'.
    - split; [ discriminate | ].
      intros req0 resp0 respBody0 Q. injection Q as Q. subst req0.
      rewrite D. intro Q. injection Q as Q. subst resp0.
      rewrite Rd. intro Q. injection Q as Q. subst respBody0.
      split; [ reflexivity | lia ].
    - split.
      + intros respBody0 Q. injection Q as Q. subst respBody0.
        exists reqBody, req, resp.
        split; [ exact Carries | ]. split; [ exact N | ].
        split; [ exact D | ]. split; [ lia | exact Rd ].
      + intros req0 resp0 respBody0 Q. injection Q as Q. subst req0.
        rewrite D. intro Q. injection Q as Q. subst resp0.
        rewrite Rd. intro Q. injection Q as Q. subst respBody0.
        split; [ lia | reflexivity ]. }
  destruct body as [b | ].
  - destruct (json_Marshal b) as [text | err] eqn:J.
    + intro Q.
      destruct (Sent (Some text)) as (A & B);
        [ right; exists b, text; auto | exact Q | ].
      split; [ exact A | ]. split.
      * intros reqBody req resp respBody [[X _] | (b0 & text0 & X & Y & Z)];
          [ discriminate X | ].
        injection X as X. subst b0. rewrite J in Y. injection Y as Y. subst text0 reqBody.
        apply B.
      * intros b0 err X Y. injection X as X. subst b0. congruence.
    + intro Q. injection Q as Q1 Q2. subst r c'.
      split; [ discriminate | ]. split.
      * intros reqBody req resp respBody [[X _] | (b0 & text0 & X & Y & Z)];
          [ discriminate X | ].
        injection X as X. subst b0. congruence.
      * intros b0 err0 X Y. injection X as X. subst b0.
        rewrite J in Y. injection Y as Y. subst err0. reflexivity.
  - intro Q.
    destruct (Sent None) as (A & B); [ left; auto | exact Q | ].
    split; [ exact A | ]. split.
    + intros reqBody req resp respBody [[_ X] | (b0 & text0 & X & _)];
        [ | discriminate X ].
      subst reqBody. apply B.
    + intros b0 err X. discriminate X.
Qed.

(** X17. A tick size that was retrieved is cached: after a successful
    retrieval the cache holds the answer for that token and is unchanged for
    every other token, and a later retrieval for the token gives the same
    answer from the cache whatever the network and the decoder then are,
    recording the from_cache metric. *)
Theorem tick_size_is_cached
    (c c1 : ClientState.ClobClient) (tokenID : string) (tickSize : types.TickSize) :
  ClientState.GetTickSize http_NewRequest Header_Set httpClient_Do json_Unmarshal
    c tokenID = (Ok tickSize, c1) ->
  ClientState.tickSizes c1 tokenID = Some tickSize
  /\ (forall other, other <> tokenID ->
        ClientState.tickSizes c1 other = ClientState.tickSizes c other)
  /\ ClientState.negRisks c1 = ClientState.negRisks c
  /\ forall (Request' : Type)
            (http_NewRequest' : string -> string -> option string -> result Request')
            (Header_Set' : Request' -> string -> string -> Request')
            (httpClient_Do' : Request' -> result ClientState.Response)
            (json_Unmarshal' : list byte -> result (string -> ClientState.any)),
       ClientState.GetTickSize http_NewRequest' Header_Set' httpClient_Do'
         json_Unmarshal' c1 tokenID
       = (Ok tickSize,
          ClientState.recordMetric c1 "tick_size_retrieval" true "from_cache").
Proof.
  intro E.
  assert (R : ClientState.tickSizes c1 tokenID = Some tickSize
              /\ (forall other, other <> tokenID ->
                    ClientState.tickSizes c1 other = ClientState.tickSizes c other)
              /\ ClientState.negRisks c1 = ClientState.negRisks c).
  { revert E. unfold ClientState.GetTickSize.
    destruct (ClientState.tickSizes c tokenID) as [cached | ] eqn:C.
    - intro Q. injection Q as Q1 Q2. subst cached c1. cbn. auto.
    - destruct (ClientState.makeRequest _ _ _ _ _ _ _ _) as [[resp | err] c0] eqn:M;
        [ | discriminate ].
      apply makeRequest_returns in M. destruct M as (S & _).
      destruct S as (_ & _ & _ & _ & _ & _ & _ & T & N).
      destruct (json_Unmarshal resp) as [result | err]; [ | discriminate ].
      destruct (result "minimum_tick_size") as [ | b | x | v | | ];
        try discriminate; intro Q; injection Q as Q1 Q2; subst c1;
        cbn [ClientState.recordMetric ClientState.with_tickSize ClientState.tickSizes
             ClientState.negRisks];
        rewrite String.eqb_refl, T, N;
        (split; [ congruence | ]); (split; [ | reflexivity ]);
        intros other O; apply String.eqb_neq in O; rewrite O; reflexivity. }
  destruct R as (R1 & R2 & R3). repeat split; try assumption.
  intros. unfold ClientState.GetTickSize. rewrite R1. reflexivity.
Qed.

(** X18. A retrieval that fails caches nothing: when the tick size or the
    neg-risk retrieval returns an error, the client differs from the one
    before in its metrics only. *)
Theorem failed_retrieval_caches_nothing
    (c c1 : ClientState.ClobClient) (tokenID : string) (err : string) :
  (ClientState.GetTickSize http_NewRequest Header_Set httpClient_Do json_Unmarshal
     c tokenID = (Err err, c1) ->
   ClientState.same_but_metrics c c1)
  /\
  (ClientState.GetNegRisk http_NewRequest Header_Set httpClient_Do json_Unmarshal
     c tokenID = Returned (Err err, c1) ->
   ClientState.same_but_metrics c c1).
Proof.
  split.
  - unfold ClientState.GetTickSize.
    destruct (ClientState.tickSizes c tokenID) as [cached | ]; [ discriminate | ].
    destruct (ClientState.makeRequest _ _ _ _ _ _ _ _) as [[resp | e] c0] eqn:M;
      apply makeRequest_returns in M; destruct M as (S & _).
    + destruct (json_Unmarshal resp) as [result | e].
      * destruct (result "minimum_tick_size") as [ | b | x | v | | ];
          try discriminate; intro Q; injection Q as _ Q; subst c1;
          apply same_but_metrics_recordMetric; exact S.
      * intro Q; injection Q as _ Q; subst c1.
        apply same_but_metrics_recordMetric; exact S.
    + intro Q; injection Q as _ Q; subst c1.
      apply same_but_metrics_recordMetric; exact S.
  - unfold ClientState.GetNegRisk.
    destruct (ClientState.negRisks c tokenID) as [cached | ]; [ discriminate | ].
    destruct (ClientState.makeRequest _ _ _ _ _ _ _ _) as [[resp | e] c0] eqn:M;
      apply makeRequest_returns in M; destruct M as (S & _).
    + destruct (json_Unmarshal resp) as [result | e].
      * destruct (result "neg_risk") as [ | b | x | v | | ]; discriminate.
      * intro Q; injection Q as _ Q; subst c1.
        apply same_but_metrics_recordMetric; exact S.
    + intro Q; injection Q as _ Q; subst c1.
      apply same_but_metrics_recordMetric; exact S.
Qed.

(** X19. A neg-risk answer that is not a JSON boolean (a missing field, a
    null, a number, a text such as true in quotes) makes the neg-risk
    retrieval panic on its type assertion, where the tick size retrieval
    returns an error for an answer that is neither a text nor a number; in
    both cases nothing is cached. *)
Theorem neg_risk_of_wrong_type_panics
    (c c0 : ClientState.ClobClient) (tokenID : string) (resp : list byte)
    (result : string -> ClientState.any) :
  json_Unmarshal resp = Ok result ->
  (ClientState.negRisks c tokenID = None ->
   ClientState.makeRequest http_NewRequest Header_Set httpClient_Do c "GET"
     (ClientState.host c ++ "/neg-risk" ++ "?token_id=" ++ tokenID) [] None
     = (Ok resp, c0) ->
   (forall b, result "neg_risk" <> ClientState.bool_value b) ->
   ClientState.GetNegRisk http_NewRequest Header_Set httpClient_Do json_Unmarshal
     c tokenID
   = Panicked ("interface conversion: interface {} is "
                 ++ ClientState.dynamic_type (result "neg_risk") ++ ", not bool"))
  /\
  (ClientState.tickSizes c tokenID = None ->
   ClientState.makeRequest http_NewRequest Header_Set httpClient_Do c "GET"
     (ClientState.host c ++ "/tick-size" ++ "?token_id=" ++ tokenID) [] None
     = (Ok resp, c0) ->
   (forall v, result "minimum_tick_size" <> ClientState.string_value v) ->
   (forall x, result "minimum_tick_size" <> ClientState.float64_value x) ->
   ClientState.GetTickSize http_NewRequest Header_Set httpClient_Do json_Unmarshal
     c tokenID
   = (Err ("invalid tick size type: "
             ++ ClientState.type_name (result "minimum_tick_size")),
      ClientState.recordMetric c0 "tick_size_retrieval" false "invalid tick size type")).
Proof.
  intro U. split.
  - intros C M B. unfold ClientState.GetNegRisk. rewrite C, M, U.
    destruct (result "neg_risk") as [ | b | x | v | | ]; try reflexivity.
    exfalso. apply (B b). reflexivity.
  - intros C M S F. unfold ClientState.GetTickSize. rewrite C, M, U.
    destruct (result "minimum_tick_size") as [ | b | x | v | | ]; try reflexivity.
    + exfalso. apply (F x). reflexivity.
    + exfalso. apply (S v). reflexivity.
Qed.

(** X20. A numeric tick size is stored as the recognized text: when the
    answer holds one of the numbers 0.1, 0.01, 0.001 and 0.0001, the tick
    size returned is one of the four recognized texts and parses back to
    that number. *)
Theorem numeric_tick_size_is_recognized
    (c c0 : ClientState.ClobClient) (tokenID : string) (resp : list byte)
    (result : string -> ClientState.any) (x : float) :
  ClientState.tickSizes c tokenID = None ->
  ClientState.makeRequest http_NewRequest Header_Set httpClient_Do c "GET"
    (ClientState.host c ++ "/tick-size" ++ "?token_id=" ++ tokenID) [] None
    = (Ok resp, c0) ->
  json_Unmarshal resp = Ok result ->
  result "minimum_tick_size" = ClientState.float64_value x ->
  In x [0.1; 0.01; 0.001; 0.0001]%float ->
  exists (tickSize : types.TickSize) (c1 : ClientState.ClobClient),
    ClientState.GetTickSize http_NewRequest Header_Set httpClient_Do json_Unmarshal
      c tokenID = (Ok tickSize, c1)
    /\ Spec.recognized tickSize
    /\ utils.ParseTickSize tickSize = x
    /\ ClientState.tickSizes c1 tokenID = Some tickSize.
Proof.
  intros C M U R I. unfold ClientState.GetTickSize. rewrite C, M, U, R.
  cbn [In] in I.
  destruct I as [I | [I | [I | [I | []]]]]; subst x;
    match goal with
    | |- context [ ClientState.TrimRight (ClientState.TrimRight ?s ?a) ?b ] =>
        let v := eval vm_compute in (ClientState.TrimRight (ClientState.TrimRight s a) b) in
        change (ClientState.TrimRight (ClientState.TrimRight s a) b) with v
    end; cbv zeta;
    eexists; eexists; (split; [ reflexivity | ]);
    (split; [ unfold Spec.recognized; cbn [In]; tauto | ]);
    (split; [ reflexivity | ]);
    cbn [ClientState.recordMetric ClientState.with_tickSize ClientState.tickSizes];
    rewrite String.eqb_refl; reflexivity.
Qed.

End MarketData.

(** An order posted to a server that answers 404: the caller gets the HTTP
    error with the status and the text, and the client keeps all but its
    metrics. *)
Lemma body_only_below_status_400_at_404 :
  match @ClientState.makeRequest Sample.libraries _ Fixture.NewRequest
          Fixture.keep_header (Fixture.Do 404 "not found")
          Fixture.a_client "POST" "https://clob.example/order"
          [("POLY_API_KEY", "key")]
          (Some (Sample.serializable "{}" : @body_value Sample.libraries)) with
  | (r, c') =>
      r = Err "HTTP 404: not found"
      /\ ClientState.same_but_metrics Fixture.a_client c'
  end.
Proof.
  destruct (@ClientState.makeRequest Sample.libraries _ Fixture.NewRequest
              Fixture.keep_header (Fixture.Do 404 "not found")
              Fixture.a_client "POST" "https://clob.example/order"
              [("POLY_API_KEY", "key")]
              (Some (Sample.serializable "{}" : @body_value Sample.libraries)))
    as [r c'] eqn:E.
  destruct (@body_only_below_status_400 Sample.libraries _ _ _ _ _ _ _ _ _ _ _ E)
    as (S & _ & _ & Sent & _).
  split; [ | exact S ].
  refine (proj1 (Sent (Some "{}") ("POST", "https://clob.example/order")
                   {| ClientState.StatusCode := 404;
                      ClientState.ReadAll := Ok (list_byte_of_string "not found") |}
                   (list_byte_of_string "not found") _ eq_refl eq_refl eq_refl) _).
  - right. exists (Sample.serializable "{}"), "{}". repeat split.
  - cbn [ClientState.StatusCode]. lia.
Defined.

(** A server that answers the text 0.01: the tick size is cached. *)
Lemma tick_size_is_cached_for_001 :
  match @ClientState.GetTickSize Sample.libraries _ Fixture.NewRequest
          Fixture.keep_header (Fixture.Do 200 "{}")
          (Fixture.Unmarshal (ClientState.string_value "0.01"))
          Fixture.a_client "1234" with
  | (Ok tickSize, c1) =>
      @ClientState.tickSizes Sample.libraries c1 "1234" = Some tickSize
  | _ => False
  end.
Proof.
  destruct (@ClientState.GetTickSize Sample.libraries _ Fixture.NewRequest
              Fixture.keep_header (Fixture.Do 200 "{}")
              (Fixture.Unmarshal (ClientState.string_value "0.01"))
              Fixture.a_client "1234") as [[tickSize | err] c1] eqn:E;
    try (vm_compute in E; discriminate E).
  exact (proj1 (@tick_size_is_cached Sample.libraries _ _ _ _ _ _ _ _ _ E)).
Defined.

(** A server that answers 500: nothing is cached. *)
Lemma failed_retrieval_caches_nothing_at_500 :
  match @ClientState.GetTickSize Sample.libraries _ Fixture.NewRequest
          Fixture.keep_header (Fixture.Do 500 "oops")
          (Fixture.Unmarshal (ClientState.string_value "0.01"))
          Fixture.a_client "1234" with
  | (Err err, c1) => ClientState.same_but_metrics Fixture.a_client c1
  | _ => False
  end.
Proof.
  destruct (@ClientState.GetTickSize Sample.libraries _ Fixture.NewRequest
              Fixture.keep_header (Fixture.Do 500 "oops")
              (Fixture.Unmarshal (ClientState.string_value "0.01"))
              Fixture.a_client "1234") as [[tickSize | err] c1] eqn:E;
    try (vm_compute in E; discriminate E).
  exact (proj1 (@failed_retrieval_caches_nothing Sample.libraries _ _ _ _ _
                  _ _ _ _) E).
Defined.

(** A neg-risk answer without the field: the retrieval panics. *)
Lemma neg_risk_of_wrong_type_panics_on_null :
  @ClientState.GetNegRisk Sample.libraries _ Fixture.NewRequest
    Fixture.keep_header (Fixture.Do 200 "{}") (Fixture.Unmarshal ClientState.nil_value)
    Fixture.a_client "1234"
  = Panicked "interface conversion: interface {} is nil, not bool".
Proof.
  apply (proj1 (@neg_risk_of_wrong_type_panics Sample.libraries _ Fixture.NewRequest
                  Fixture.keep_header (Fixture.Do 200 "{}")
                  (Fixture.Unmarshal ClientState.nil_value)
                  Fixture.a_client
                  (@ClientState.recordMetric Sample.libraries Fixture.a_client
                     "http_request" true "")
                  "1234" (list_byte_of_string "{}") (fun _ => ClientState.nil_value)
                  eq_refl)).
  - reflexivity.
  - reflexivity.
  - discriminate.
Defined.

(** A numeric answer 0.001 is stored as the text 0.001. *)
Lemma numeric_tick_size_is_recognized_for_0001 :
  exists tickSize c1,
    @ClientState.GetTickSize Sample.libraries _ Fixture.NewRequest
      Fixture.keep_header (Fixture.Do 200 "{}")
      (Fixture.Unmarshal (ClientState.float64_value 0.001))
      Fixture.a_client "1234" = (Ok tickSize, c1)
    /\ Spec.recognized tickSize.
Proof.
  destruct (@numeric_tick_size_is_recognized Sample.libraries _ Fixture.NewRequest
              Fixture.keep_header (Fixture.Do 200 "{}")
              (Fixture.Unmarshal (ClientState.float64_value 0.001))
              Fixture.a_client
              (@ClientState.recordMetric Sample.libraries Fixture.a_client
                 "http_request" true "")
              "1234" (list_byte_of_string "{}")
              (fun _ => ClientState.float64_value 0.001) 0.001%float
              eq_refl eq_refl eq_refl eq_refl)
    as (tickSize & c1 & E & R & _).
  - cbn [In]. tauto.
  - exists tickSize, c1. split; assumption.
Defined.

(* ================================================================== *)
(** ** Signatures and Level-1 headers *)

Section Level1Headers.
Context `{Libraries}.

(** [Sign] touches the signer's metrics only. *)
Lemma Sign_state (s s' : signer.Signer) (digest : list byte)
    (signed : result (list byte)) :
  signer.Sign s digest = Returned (signed, s') ->
  exists errorMsg,
    s' = signer.recordMetric s "message_signing" (Built.succeeded signed) errorMsg.
Proof.
  unfold signer.Sign.
  destruct (crypto_Sign digest (signer.privateKey s)) as [raw | err].
  - destruct (load raw 64) as [v | ]; cbn [bind]; [ | discriminate ].
    destruct (if Z_of_byte v <? 27 then _ else _) as [sig | ]; cbn [bind];
      [ | discriminate ].
    intro Q. injection Q as Q1 Q2. subst. eexists. reflexivity.
  - intro Q. injection Q as Q1 Q2. subst. eexists. reflexivity.
Qed.

(** X21. Whatever the signing library returns, a signature that [Sign]
    returns has a recovery id of 27 at least: an id below 27 is raised by 27,
    an id of 27 or more (a library that already answers 27 or 28) is kept, so
    the adjustment is made once at most; and a library answer shorter than 65
    bytes makes [Sign] panic on the index. *)
Theorem recovery_id_at_least_27 (s : signer.Signer) (digest : list byte) :
  (forall s' sig,
     signer.Sign s digest = Returned (Ok sig, s') ->
     exists (raw : list byte) (v v' : byte),
       crypto_Sign digest (signer.privateKey s) = Ok raw
       /\ nth_error raw 64 = Some v
       /\ nth_error sig 64 = Some v'
       /\ 27 <= Z_of_byte v'
       /\ (27 <= Z_of_byte v -> sig = raw)
       /\ (Z_of_byte v < 27 -> Z_of_byte v' = Z_of_byte v + 27))
  /\
  (forall raw,
     crypto_Sign digest (signer.privateKey s) = Ok raw ->
     (List.length raw < 65)%nat ->
     signer.Sign s digest = Panicked "index out of range").
Proof.
  split.
  - intros s' sig. unfold signer.Sign.
    destruct (crypto_Sign digest (signer.privateKey s)) as [raw | err];
      [ | discriminate ].
    destruct (load raw 64) as [v | ] eqn:Lv; cbn [bind]; [ | discriminate ].
    apply load_inv in Lv. destruct Lv as [Nv _].
    pose proof (Z_of_byte_range v) as R.
    destruct (Z_of_byte v <? 27) eqn:Low.
    + apply Z.ltb_lt in Low.
      destruct (store raw 64 (byte_of_Z (Z_of_byte v + 27))) as [stored | ] eqn:St;
        cbn [bind]; [ | discriminate ].
      apply store_inv in St. destruct St as (_ & N & _).
      intro Q. injection Q as Q _. subst stored.
      exists raw, v, (byte_of_Z (Z_of_byte v + 27)).
      rewrite Z_of_byte_of_Z, Z.mod_small by lia.
      repeat split; try assumption; lia.
    + apply Z.ltb_ge in Low. cbn [bind]. intro Q. injection Q as Q _. subst sig.
      exists raw, v, v. repeat split; try assumption; lia.
  - intros raw E L. unfold signer.Sign. rewrite E.
    unfold load.
    destruct (nth_error raw 64) eqn:N; [ | reflexivity ].
    assert (NN : nth_error raw 64 <> None) by congruence.
    apply nth_error_Some in NN. lia.
Qed.

Lemma FillBytes_word (n : Z) :
  Z.abs n < 2 ^ 256 ->
  FillBytes (Some n) (make 32) = Returned (Spec.encode_uint256 (Z.abs n)).
Proof.
  intro F. rewrite FillBytes_magnitude.
  apply Z.ltb_lt in F. rewrite F. reflexivity.
Qed.

(** The digest of the CLOB auth message is the typed-data digest of the
    attestation. *)
Lemma SignClobAuth_digest (s : signer.Signer) (timestamp nonce : Z) :
  Z.abs nonce < 2 ^ 256 ->
  Z.abs (signer.chainID s) < 2 ^ 256 ->
  ClobAuth.SignClobAuth s timestamp nonce =
    bind (ClobAuth.SignEIP712 s
            (ClobAuth.auth_domain (Z.abs (signer.chainID s)))
            (ClobAuth.auth_struct_hash (HexToAddress (signer.AddressHex s))
               (Sprintf_d timestamp) (Z.abs nonce) ClobAuth.attestation))
      (fun '(signed, s) =>
         match signed with
         | Err err =>
             Returned (Err err, signer.recordMetric s "clob_auth_signing" false err)
         | Ok signature =>
             Returned (Ok ("0x" ++ Sprintf_x signature),
                       signer.recordMetric s "clob_auth_signing" true "")
         end).
Proof.
  intros N C. unfold ClobAuth.SignClobAuth, ClobAuth.CreateClobAuthDomain,
    ClobAuth.EncodeClobAuth. cbv zeta.
  cbn [ClobAuth.ca_Address ClobAuth.ca_Timestamp ClobAuth.ca_Nonce ClobAuth.ca_Message].
  rewrite !FillBytes_word by assumption. cbn [bind].
  fold (utils.pad_address (HexToAddress (signer.AddressHex s))).
  rewrite pad_address_encode.
  unfold ClobAuth.auth_domain, ClobAuth.auth_struct_hash, ClobAuth.auth_type_hash,
    ClobAuth.attestation, utils.bytes_of_string, ClobAuth.ClobDomainName,
    ClobAuth.ClobVersion.
  cbn [app]. rewrite !app_assoc. reflexivity.
Qed.

(** X22. The Level-1 headers attest control of the wallet: what is signed
    is the typed-data digest keccak256(0x19 0x01, domain, struct) of the
    ClobAuth message over the signer's address, the decimal timestamp, the
    nonce and the fixed attestation text, in the ClobAuthDomain of the
    signer's chain; the headers are the signer's address, the signature as
    0x and hexadecimal digits, and the same timestamp and nonce in decimal.
    Hashing takes the magnitudes of nonce and chain id, so the header of a
    negative nonce carries the sign that the signed message lacks. A signing
    failure is returned under the prefix of header creation. *)
Theorem level1_headers_attest_the_wallet
    (h : auth.HeaderBuilder) (timestamp nonce : Z)
    (signed : result (list byte)) (s' : signer.Signer) :
  Z.abs nonce < 2 ^ 256 ->
  Z.abs (signer.chainID (auth.signer_ h)) < 2 ^ 256 ->
  let digest :=
    Spec.signing_digest
      (ClobAuth.auth_domain (Z.abs (signer.chainID (auth.signer_ h))))
      (ClobAuth.auth_struct_hash
         (HexToAddress (signer.AddressHex (auth.signer_ h)))
         (Sprintf_d timestamp) (Z.abs nonce) ClobAuth.attestation) in
  signer.Sign (auth.signer_ h) digest = Returned (signed, s') ->
  exists h' : auth.HeaderBuilder,
    ClobAuth.CreateLevel1Headers h timestamp nonce
    = Returned
        (match signed with
         | Ok signature =>
             Ok [ ("POLY_ADDRESS", signer.AddressHex (auth.signer_ h));
                  ("POLY_SIGNATURE", "0x" ++ Sprintf_x signature);
                  ("POLY_TIMESTAMP", Sprintf_d timestamp);
                  ("POLY_NONCE", Sprintf_d nonce) ]
         | Err err => Err ("failed to sign CLOB auth: " ++ err)
         end, h')
    /\ signer.address (auth.signer_ h') = signer.address (auth.signer_ h)
    /\ signer.privateKey (auth.signer_ h') = signer.privateKey (auth.signer_ h).
Proof.
  intros N C digest Sg.
  unfold ClobAuth.CreateLevel1Headers. rewrite SignClobAuth_digest by assumption.
  unfold ClobAuth.SignEIP712.
  change (utils.CreateEIP712Hash _ _) with digest.
  rewrite Sg. cbn [bind].
  apply Sign_state in Sg. destruct Sg as [errorMsg Sg]. subst s'.
  destruct signed as [signature | err]; cbn [bind];
    eexists; (split; [ reflexivity | ]); split; reflexivity.
Qed.

End Level1Headers.

(** The stand-in signer attests at time 1700000000 with nonce 0. *)
Lemma level1_headers_attest_the_wallet_with_sample :
  exists signature h',
    @ClobAuth.CreateLevel1Headers Sample.libraries Sample.a_header_builder
      1700000000 0
    = Returned
        (Ok [ ("POLY_ADDRESS", "0x0000000000000000000000000000000000000000");
              ("POLY_SIGNATURE", "0x" ++ Sprintf_x signature);
              ("POLY_TIMESTAMP", "1700000000");
              ("POLY_NONCE", "0") ], h').
Proof.
  destruct (@signer.Sign Sample.libraries Sample.a_signer (repeat x00 32))
    as [[[sig | err] s'] | ] eqn:E; try (vm_compute in E; discriminate E).
  destruct (@level1_headers_attest_the_wallet Sample.libraries
              Sample.a_header_builder 1700000000 0 (Ok sig) s')
    as (h' & Q & _).
  - vm_compute. reflexivity.
  - vm_compute. reflexivity.
  - exact E.
  - exists sig, h'. exact Q.
Defined.

(** The stand-in library answers the recovery id 1; [Sign] returns 28. *)
Lemma recovery_id_at_least_27_with_sample :
  match @signer.Sign Sample.libraries Sample.a_signer (repeat x00 32) with
  | Returned (Ok sig, _) => exists v, nth_error sig 64 = Some v /\ 27 <= Z_of_byte v
  | _ => False
  end.
Proof.
  destruct (@signer.Sign Sample.libraries Sample.a_signer (repeat x00 32))
    as [[[sig | err] s'] | ] eqn:E; try (vm_compute in E; discriminate E).
  destruct (proj1 (@recovery_id_at_least_27 Sample.libraries Sample.a_signer
                     (repeat x00 32)) s' sig E)
    as (raw & v & v' & _ & _ & N & L & _).
  exists v'. split; assumption.
Defined.

(* ================================================================== *)
(** ** The range of the decimal-place count *)

Section DecimalPlacesRange.

(** X23. The decimal-place count is between 0 and 10 for every float64,
    it is 0 for a zero, an infinity and a NaN, and it does not depend on the
    sign: the repair of a leg compares a count that never exceeds ten with
    the profile's amount decimals. *)
Theorem decimal_places_between_0_and_10 (value : float) :
  0 <= utils.DecimalPlaces value <= 10
  /\ utils.DecimalPlaces (- value) = utils.DecimalPlaces value
  /\ match Prim2SF value with
     | S754_finite _ _ _ => True
     | _ => utils.DecimalPlaces value = 0
     end.
Proof.
  rewrite !DecimalPlaces_decimal_places. unfold Spec.decimal_places.
  rewrite opp_spec.
  destruct (Prim2SF value) as [s | s | | s m e]; cbn [SFopp];
    try (repeat split; lia).
  pose proof (trailing_zeros_le 10 (scaled_decimal 10 m e mod 10 ^ 10)).
  repeat split; lia.
Qed.

End DecimalPlacesRange.

(* ================================================================== *)
(** ** Limit orders: every float gives amounts *)

Section Magnitudes.

Lemma pow2_pos (k : Z) : 0 <= k -> 0 < 2 ^ k.
Proof. intro K. apply Z.pow_pos_nonneg; lia. Qed.

Lemma pow2_split (a b : Z) : 0 <= a -> 0 <= b -> 2 ^ (a + b) = 2 ^ a * 2 ^ b.
Proof. intros. apply Z.pow_add_r; lia. Qed.

Lemma shr_1_half (mrs : shr_record) :
  0 <= shr_m mrs -> shr_m (shr_1 mrs) = shr_m mrs / 2.
Proof.
  destruct mrs as [m r s]. cbn [shr_m shr_1]. intro P.
  destruct m as [ | [q | q | ] | q ]; cbn [shr_m]; try reflexivity; try lia.
  - rewrite Pos2Z.inj_xI. apply Z.div_unique with 1; lia.
  - rewrite Pos2Z.inj_xO. apply Z.div_unique with 0; lia.
Qed.

Lemma iter_shr_1_div (p : positive) :
  forall mrs : shr_record,
    0 <= shr_m mrs -> shr_m (iter_pos shr_1 p mrs) = shr_m mrs / 2 ^ Zpos p.
Proof.
  induction p as [p IH | p IH | ]; intros mrs P; cbn [iter_pos].
  - pose proof (shr_1_bounds mrs P) as B1.
    pose proof (iter_shr_1_bounds p (shr_1 mrs) (proj1 B1)) as B2.
    rewrite IH by lia. rewrite IH by lia. rewrite shr_1_half by exact P.
    assert (Q : 2 ^ Zpos p~1 = 2 * (2 ^ Zpos p * 2 ^ Zpos p)).
    { rewrite <- Z.pow_add_r by lia. rewrite <- Z.pow_succ_r by lia. f_equal. lia. }
    pose proof (pow2_pos (Zpos p) ltac:(lia)).
    rewrite Q, !Z.div_div by nia. reflexivity.
  - pose proof (iter_shr_1_bounds p mrs P) as B1.
    rewrite IH by lia. rewrite IH by lia.
    assert (Q : 2 ^ Zpos p~0 = 2 ^ Zpos p * 2 ^ Zpos p).
    { rewrite <- Z.pow_add_r by lia. f_equal. lia. }
    pose proof (pow2_pos (Zpos p) ltac:(lia)).
    rewrite Q, !Z.div_div by nia. reflexivity.
  - rewrite shr_1_half by exact P. reflexivity.
Qed.

Lemma SFbelow_mono (B B' : Z) (v : spec_float) :
  Magnitude.SFbelow B v -> B <= B' -> Magnitude.SFbelow B' v.
Proof.
  destruct v as [s | s | | s m e]; cbn [Magnitude.SFbelow]; auto.
  intros L M. destruct (Z_lt_le_dec (B - e) 0) as [N | N].
  - rewrite Z.pow_neg_r in L by exact N. lia.
  - eapply Z.lt_le_trans; [ exact L | ]. apply Z.pow_le_mono_r; lia.
Qed.

(** A shift to the right keeps a mantissa below [2^(B - e)], with [B] raised
    to the new exponent where that is larger. *)
Lemma shr_below (mrs : shr_record) (e n B : Z) :
  0 <= shr_m mrs -> e <= B -> shr_m mrs < 2 ^ (B - e) ->
  let B' := Z.max B (snd (shr mrs e n)) in
  0 <= shr_m (fst (shr mrs e n)) < 2 ^ (B' - snd (shr mrs e n))
  /\ snd (shr mrs e n) = e + Z.max n 0.
Proof.
  intros P EB L. cbv zeta.
  destruct n as [ | p | p ]; cbn [shr fst snd].
  - rewrite Z.max_l by lia. split; [ lia | lia ].
  - split; [ | lia ].
    rewrite iter_shr_1_div by exact P.
    split; [ apply Z.div_pos; [ exact P | apply pow2_pos; lia ] | ].
    destruct (Z_le_gt_dec (e + Zpos p) B) as [C | C].
    + rewrite Z.max_l by lia.
      apply Z.div_lt_upper_bound; [ apply pow2_pos; lia | ].
      rewrite <- pow2_split by lia.
      replace (Zpos p + (B - (e + Zpos p))) with (B - e) by lia. exact L.
    + rewrite Z.max_r by lia. rewrite Z.sub_diag. change (2 ^ 0) with 1.
      assert (shr_m mrs / 2 ^ Zpos p = 0); [ | lia ].
      apply Z.div_small. split; [ exact P | ].
      eapply Z.lt_le_trans; [ exact L | ]. apply Z.pow_le_mono_r; lia.
  - rewrite Z.max_l by lia. split; lia.
Qed.

(** Rounding a mantissa below [2^(B - e)] neither overflows nor loses the
    bound by more than one bit. *)
Lemma binary_round_aux_below (p emx : Z) (s : bool) (m e : Z) (l : location) (B : Z) :
  0 < p -> 0 <= m -> e <= B -> m < 2 ^ (B - e) ->
  SpecFloat.emin p emx <= B -> B <= emx - p ->
  Magnitude.SFbelow (B + 1) (binary_round_aux p emx s m e l).
Proof.
  intros Pp Pm EB L Emin Over. unfold binary_round_aux, shr_fexp.
  assert (D1 : 0 <= Zdigits2 m <= B - e) by (apply Zdigits2_le; lia).
  set (n1 := fexp p emx (Zdigits2 m + e) - e).
  assert (N1 : e + Z.max n1 0 <= B) by (unfold n1, fexp; lia).
  pose proof (shr_below (shr_record_of_loc m l) e n1 B) as S1.
  rewrite shr_record_of_loc_m in S1. specialize (S1 Pm EB L). cbv zeta in S1.
  destruct (shr (shr_record_of_loc m l) e n1) as [mrs' e'].
  cbn [fst snd] in S1. destruct S1 as [S1 E1].
  rewrite Z.max_l in S1 by lia.
  set (m2 := round_nearest_even (shr_m mrs') (loc_of_shr_record mrs')).
  pose proof (round_nearest_even_bounds (shr_m mrs') (loc_of_shr_record mrs')) as R.
  fold m2 in R.
  assert (L2 : m2 < 2 ^ (B + 1 - e')).
  { replace (B + 1 - e') with (1 + (B - e')) by lia.
    rewrite pow2_split by lia. change (2 ^ 1) with 2. lia. }
  assert (D2 : 0 <= Zdigits2 m2 <= B + 1 - e') by (apply Zdigits2_le; lia).
  set (n2 := fexp p emx (Zdigits2 m2 + e') - e').
  assert (N2 : e' + Z.max n2 0 <= B) by (unfold n2, fexp; lia).
  pose proof (shr_below (shr_record_of_loc m2 loc_Exact) e' n2 (B + 1)) as S2.
  rewrite shr_record_of_loc_m in S2.
  specialize (S2 ltac:(lia) ltac:(lia) L2). cbv zeta in S2.
  destruct (shr (shr_record_of_loc m2 loc_Exact) e' n2) as [mrs'' e''].
  cbn [fst snd] in S2. destruct S2 as [S2 E2].
  rewrite Z.max_l in S2 by lia.
  destruct (shr_m mrs'') as [ | q | q ]; [ exact I | | lia ].
  destruct (e'' <=? emx - p) eqn:C.
  - cbn [Magnitude.SFbelow]. lia.
  - apply Z.leb_gt in C. lia.
Qed.

Lemma below_exponent (B e : Z) (m : positive) : Zpos m < 2 ^ (B - e) -> e < B.
Proof.
  intro L. destruct (Z_lt_le_dec e B) as [ | G ]; [ assumption | exfalso ].
  assert (2 ^ (B - e) <= 1); [ | lia ].
  destruct (Z.eq_dec B e) as [Q | Q].
  - subst. rewrite Z.sub_diag. reflexivity.
  - rewrite Z.pow_neg_r by lia. lia.
Qed.

Lemma SFmul_below (p emx : Z) (x y : spec_float) (B1 B2 : Z) :
  Magnitude.SFbelow B1 x -> Magnitude.SFbelow B2 y ->
  0 < p -> SpecFloat.emin p emx <= B1 + B2 -> B1 + B2 <= emx - p ->
  Magnitude.SFbelow (B1 + B2 + 1) (SFmul p emx x y).
Proof.
  destruct x as [sx | sx | | sx mx ex], y as [sy | sy | | sy my ey];
    cbn [Magnitude.SFbelow SFmul]; try contradiction; auto.
  intros X Y Pp Emin Over.
  pose proof (below_exponent _ _ _ X). pose proof (below_exponent _ _ _ Y).
  apply binary_round_aux_below; try lia.
  rewrite Pos2Z.inj_mul.
  replace (B1 + B2 - (ex + ey)) with ((B1 - ex) + (B2 - ey)) by lia.
  rewrite pow2_split by lia.
  apply Z.mul_lt_mono_nonneg; lia.
Qed.

Lemma digits_above (m : positive) (k : Z) :
  0 <= k -> 2 ^ k <= Zpos m -> k < Zdigits2 (Zpos m).
Proof.
  intros K L. cbn [Zdigits2]. pose proof (digits2_pos_bound m) as U.
  destruct (Z_lt_le_dec k (Zpos (digits2_pos m))) as [ | G ]; [ assumption | exfalso ].
  assert (2 ^ Zpos (digits2_pos m) <= 2 ^ k) by (apply Z.pow_le_mono_r; lia).
  lia.
Qed.

Lemma SFdiv_below (p emx : Z) (x y : spec_float) (B : Z) :
  Magnitude.SFbelow B x -> Magnitude.SFat_least_one y ->
  0 < p -> SpecFloat.emin p emx <= B -> B <= emx - p ->
  Magnitude.SFbelow (B + 1) (SFdiv p emx x y).
Proof.
  destruct x as [sx | sx | | sx mx ex], y as [sy | sy | | sy my ey];
    cbn [Magnitude.SFbelow Magnitude.SFat_least_one SFdiv]; try contradiction; auto.
  intros X [Ey Y] Pp Emin Over.
  pose proof (below_exponent _ _ _ X) as Ex.
  unfold SFdiv_core_binary.
  set (d1 := Zdigits2 (Zpos mx)). set (d2 := Zdigits2 (Zpos my)).
  assert (D1 : 0 <= d1 <= B - ex) by (apply Zdigits2_le; lia).
  assert (D2 : - ey < d2) by (apply digits_above; lia).
  set (e' := Z.min (fexp p emx (d1 + ex - (d2 + ey))) (ex - ey)).
  assert (E' : e' <= B) by (unfold e', fexp; lia).
  assert (S : 0 <= ex - ey - e') by (unfold e'; lia).
  set (m' := match ex - ey - e' with
             | Zpos _ => Z.shiftl (Zpos mx) (ex - ey - e')
             | 0 => Zpos mx
             | Zneg _ => 0
             end).
  assert (M' : m' = Zpos mx * 2 ^ (ex - ey - e')).
  { unfold m'. destruct (ex - ey - e') as [ | k | k ] eqn:Q.
    - change (2 ^ 0) with 1. lia.
    - apply Z.shiftl_mul_pow2. lia.
    - lia. }
  clearbody m'.
  destruct (Z.div_eucl m' (Zpos my)) as [q r] eqn:DE.
  assert (Q : q = m' / Zpos my) by (unfold Z.div; rewrite DE; reflexivity).
  assert (P2 : 0 < 2 ^ (ex - ey - e')) by (apply pow2_pos; exact S).
  apply binary_round_aux_below; try lia.
  - subst q. apply Z.div_pos; nia.
  - subst q. apply Z.div_lt_upper_bound; [ lia | ].
    apply Z.lt_le_trans with (2 ^ (- ey) * 2 ^ (B - e')).
    + rewrite <- pow2_split by lia.
      replace (- ey + (B - e')) with ((B - ex) + (ex - ey - e')) by lia.
      rewrite pow2_split by lia. rewrite M'.
      apply Z.mul_lt_mono_pos_r; assumption.
    + apply Z.mul_le_mono_nonneg_r; [ | exact Y ].
      apply Z.lt_le_incl, pow2_pos. lia.
Qed.

Lemma iter_xO (d m : positive) : Zpos (Pos.iter xO m d) = Zpos m * 2 ^ Zpos d.
Proof.
  induction d as [ | d IH ] using Pos.peano_ind.
  - cbn [Pos.iter]. rewrite Pos2Z.inj_xO. change (2 ^ 1) with 2. lia.
  - rewrite Pos.iter_succ, Pos2Z.inj_xO, IH, Pos2Z.inj_succ, Z.pow_succ_r by lia. ring.
Qed.

Lemma binary_round_below (s : bool) (m : positive) (B : Z) :
  Zpos m < 2 ^ B -> 0 <= B <= emax - prec ->
  Magnitude.SFbelow (B + 1) (binary_round prec emax s m 0).
Proof.
  intros L R. unfold binary_round, shl_align.
  destruct (fexp prec emax (Zpos (digits2_pos m) + 0) - 0) as [ | d | d ] eqn:Q.
  - apply binary_round_aux_below; try (unfold SpecFloat.emin, prec, emax in *; lia).
    rewrite Z.sub_0_r. exact L.
  - apply binary_round_aux_below; try (unfold SpecFloat.emin, prec, emax in *; lia).
    rewrite Z.sub_0_r. exact L.
  - assert (F : fexp prec emax (Zpos (digits2_pos m) + 0) = Zneg d) by lia.
    rewrite F.
    apply binary_round_aux_below; try (unfold SpecFloat.emin, prec, emax in *; lia).
    rewrite iter_xO.
    replace (B - Zneg d) with (B + Zpos d) by lia.
    rewrite pow2_split by lia.
    apply Z.mul_lt_mono_pos_r; [ apply pow2_pos; lia | exact L ].
Qed.

Lemma binary_round_aux_opp (p emx : Z) (m e : Z) (l : location) :
  binary_round_aux p emx true m e l = SFopp (binary_round_aux p emx false m e l).
Proof.
  unfold binary_round_aux.
  destruct (shr_fexp p emx m e l) as [mrs' e'].
  destruct (shr_fexp p emx _ e' loc_Exact) as [mrs'' e''].
  destruct (shr_m mrs''); [ reflexivity | | reflexivity ].
  destruct (e'' <=? emx - p); reflexivity.
Qed.

Lemma valid_binary_SFopp (v : spec_float) :
  valid_binary (SFopp v) = valid_binary v.
Proof.
  destruct v; reflexivity.
Qed.

(** The conversion of an int64 is the rounded integer, negative ones
    included. *)
Lemma Prim2SF_float_of_int64 (n : Z) :
  int64_min <= n <= int64_max ->
  Prim2SF (float_of_int n) = binary_normalize prec emax n 0 false.
Proof.
  unfold int64_min, int64_max. intro R.
  destruct (Z_le_gt_dec 0 n) as [P | N]; [ apply Prim2SF_float_of_int; lia | ].
  destruct (Z.eq_dec n (- 2 ^ 63)) as [Q | Q]; [ subst n; vm_compute; reflexivity | ].
  destruct n as [ | m | m ]; try lia.
  unfold float_of_int. apply Prim2SF_SF2Prim.
  assert (V : valid_binary (binary_normalize prec emax (Zpos m) 0 false) = true).
  { rewrite <- Prim2SF_float_of_int by lia. apply Prim2SF_valid. }
  cbn [binary_normalize] in *. unfold binary_round in *.
  destruct (shl_align m 0 (fexp prec emax (Zpos (digits2_pos m) + 0))) as [mz ez].
  rewrite binary_round_aux_opp, valid_binary_SFopp. exact V.
Qed.

Lemma float_of_int_below (n : Z) :
  int64_min <= n <= int64_max -> Magnitude.below 65 (float_of_int n).
Proof.
  intro R. unfold Magnitude.below. rewrite Prim2SF_float_of_int64 by exact R.
  unfold int64_min, int64_max in R.
  assert (P63 : 2 ^ 63 < 2 ^ 64) by (vm_compute; reflexivity).
  destruct n as [ | m | m ]; cbn [binary_normalize]; [ exact I | | ];
    apply (binary_round_below _ m 64); try (unfold emax, prec; lia); lia.
Qed.

Lemma scale_at_least_one (d : Z) :
  0 <= d <= 10 -> Magnitude.SFat_least_one (Prim2SF (Spec.scale d)).
Proof.
  intro R.
  assert (C : In d [0; 1; 2; 3; 4; 5; 6; 7; 8; 9; 10]) by (cbn [In]; lia).
  cbn [In] in C.
  repeat (destruct C as [C | C]; [ subst d; vm_compute; split; discriminate | ]).
  contradiction.
Qed.

(** Every value on a decimal grid of an int64 numerator is finite and below
    [2^66]. *)
Lemma on_grid_below (n d : Z) :
  int64_min <= n <= int64_max -> 0 <= d <= 10 ->
  Magnitude.below 66 (float_of_int n / Spec.scale d).
Proof.
  intros R D. unfold Magnitude.below. rewrite div_spec.
  apply (SFdiv_below prec emax _ _ 65).
  - apply float_of_int_below. exact R.
  - apply scale_at_least_one. exact D.
  - reflexivity.
  - vm_compute. discriminate.
  - vm_compute. discriminate.
Qed.

Lemma computed_round_down_below (x : float) (d : Z) :
  0 <= d <= 10 -> Magnitude.below 66 (Spec.computed_round_down x d).
Proof.
  intro D. apply on_grid_below; [ apply int_of_float_range | exact D ].
Qed.

Lemma computed_round_normal_below (x : float) (d : Z) :
  0 <= d <= 10 -> Magnitude.below 66 (Spec.computed_round_normal x d).
Proof.
  intro D. apply on_grid_below; [ apply int_of_float_range | exact D ].
Qed.

Lemma computed_round_up_below (x : float) (d : Z) :
  0 <= d <= 10 -> Magnitude.below 66 (Spec.computed_round_up x d).
Proof.
  intro D. apply on_grid_below; [ | exact D ].
  pose proof (int_of_float_range (x * Spec.scale d)).
  pose proof (int_of_float_below_max (x * Spec.scale d)). lia.
Qed.

Lemma below_mono (B B' : Z) (x : float) :
  Magnitude.below B x -> B <= B' -> Magnitude.below B' x.
Proof. apply SFbelow_mono. Qed.

Lemma product_below (x y : float) :
  Magnitude.below 66 x -> Magnitude.below 66 y -> Magnitude.below 133 (x * y).
Proof.
  intros X Y. unfold Magnitude.below. rewrite mul_spec.
  apply (SFmul_below prec emax _ _ 66 66 X Y).
  - reflexivity.
  - vm_compute. discriminate.
  - vm_compute. discriminate.
Qed.

Lemma computed_repair_below (profile : types.RoundConfig) (leg : float) :
  0 <= types.Amount profile <= 6 ->
  Magnitude.below 133 leg ->
  Magnitude.below 133 (Spec.computed_repair profile leg).
Proof.
  intros A L. unfold Spec.computed_repair.
  destruct (types.Amount profile <? Spec.decimal_places leg); [ | exact L ].
  destruct (types.Amount profile <? Spec.decimal_places _).
  - eapply below_mono; [ apply computed_round_down_below | ]; lia.
  - eapply below_mono; [ apply computed_round_up_below | ]; lia.
Qed.

Lemma SFtrunc_below (v : spec_float) (B : Z) :
  0 <= B -> Magnitude.SFbelow B v ->
  exists z, SFtrunc v = Some z /\ Z.abs z < 2 ^ B.
Proof.
  intros PB. destruct v as [s | s | | s m e]; cbn [Magnitude.SFbelow SFtrunc];
    try contradiction.
  - intros _. exists 0. split; [ reflexivity | ]. pose proof (pow2_pos B PB). lia.
  - intro L. pose proof (below_exponent _ _ _ L) as E.
    eexists. split; [ reflexivity | ].
    assert (A : 0 <= match e with
                     | Zneg q => Z.shiftr (Zpos m) (Zpos q)
                     | _ => Z.shiftl (Zpos m) e
                     end < 2 ^ B).
    { destruct e as [ | q | q ].
      - rewrite Z.shiftl_0_r. rewrite Z.sub_0_r in L. lia.
      - rewrite Z.shiftl_mul_pow2 by lia.
        assert (Q : 2 ^ B = 2 ^ (B - Zpos q) * 2 ^ Zpos q)
          by (rewrite <- pow2_split by lia; f_equal; lia).
        rewrite Q.
        pose proof (pow2_pos (Zpos q) ltac:(lia)). split; [ nia | ].
        apply Z.mul_lt_mono_pos_r; assumption.
      - rewrite Z.shiftr_div_pow2 by lia.
        pose proof (pow2_pos (Zpos q) ltac:(lia)).
        split; [ apply Z.div_pos; lia | ].
        apply Z.div_lt_upper_bound; [ assumption | ].
        rewrite <- pow2_split by lia.
        replace (Zpos q + B) with (B - Zneg q) by lia. exact L. }
    destruct s; lia.
Qed.

(** A leg that is finite and below [2^133] has a 10^6-scaled integer. *)
Lemma scaled_integer_below (leg : float) :
  Magnitude.below 133 leg ->
  exists z, Spec.scaled_integer leg = Returned (Some z) /\ Z.abs z < 2 ^ 154.
Proof.
  unfold Magnitude.below, Spec.scaled_integer. intro L.
  assert (M : Magnitude.SFbelow 154
                (SFmul prec big_emax (Prim2SF leg) (S754_finite false 1000000 0))).
  { apply (SFmul_below prec big_emax _ _ 133 20 L).
    - cbn [Magnitude.SFbelow]. vm_compute. reflexivity.
    - reflexivity.
    - vm_compute. discriminate.
    - vm_compute. discriminate. }
  destruct (SFtrunc_below _ 154 ltac:(lia) M) as (z & T & Z).
  exists z. split; [ | exact Z ].
  destruct (Prim2SF leg); try contradiction; rewrite T; reflexivity.
Qed.

End Magnitudes.

Section LimitOrdersAreTotal.
Context `{Libraries}.

(** The limit computation returns two integers, whatever the floats. *)
Lemma getOrderAmounts_total
    (ob : orderbuilder.OrderBuilder) (s : Spec.side) (size price : float)
    (tickSize : types.TickSize) :
  exists maker taker : Z,
    orderbuilder.getOrderAmounts ob (Spec.wire s) size price tickSize
    = Returned (Ok (Spec.ordinal s, Some maker, Some taker),
                orderbuilder.recordMetric ob "order_amounts_calculation" true "")
    /\ Z.abs maker < 2 ^ 154 /\ Z.abs taker < 2 ^ 154.
Proof.
  rewrite getOrderAmounts_computes.
  pose proof (GetRoundingConfig_small tickSize) as G. cbv zeta in G.
  destruct G as (P & S & A).
  set (profile := utils.GetRoundingConfig tickSize) in *.
  assert (Size : Magnitude.below 66 (Spec.computed_round_down size (types.Size profile)))
    by (apply computed_round_down_below; lia).
  assert (Price : Magnitude.below 66 (Spec.computed_round_normal price (types.Price profile)))
    by (apply computed_round_normal_below; lia).
  assert (Leg : Magnitude.below 133
                  (Spec.computed_repair profile
                     (Spec.computed_round_down size (types.Size profile)
                      * Spec.computed_round_normal price (types.Price profile))))
    by (apply computed_repair_below; [ lia | apply product_below; assumption ]).
  destruct (scaled_integer_below _ (below_mono _ 133 _ Size ltac:(lia)))
    as (a & Ea & Ba).
  destruct (scaled_integer_below _ Leg) as (b & Eb & Bb).
  unfold Spec.computed_limit_amounts, Spec.amounts.
  destruct s; cbv zeta; rewrite Ea, Eb; cbn [bind Spec.ordinal].
  - exists b, a. repeat split; assumption.
  - exists a, b. repeat split; assumption.
Qed.

(** X24. The limit amount computation is total: for the sides BUY and SELL
    and for every size, price and tick size, NaN and the infinities
    included, it returns two integers (neither a panic nor a nil), each
    below 2^154 in magnitude, with the success metric. *)
Theorem limit_amounts_for_every_float
    (ob : orderbuilder.OrderBuilder) (s : Spec.side) (size price : float)
    (tickSize : types.TickSize) :
  exists maker taker : Z,
    orderbuilder.getOrderAmounts ob (Spec.wire s) size price tickSize
    = Returned (Ok (Spec.ordinal s, Some maker, Some taker),
                orderbuilder.recordMetric ob "order_amounts_calculation" true "")
    /\ Z.abs maker < 2 ^ 154 /\ Z.abs taker < 2 ^ 154.
Proof.
  apply getOrderAmounts_total.
Qed.

(** X25. Limit order creation never panics: for the sides BUY and SELL, a
    token id that fits 32 bytes, fee rate, nonce, expiration and chain id
    below 2^256 in magnitude, and a signing library whose signatures have 65
    bytes at least, [CreateOrder] returns, a signed order or an error,
    whatever the size, the price, the tick size, the clock and the random
    draw. *)
Theorem limit_order_creation_never_panics
    (ob : orderbuilder.OrderBuilder) (now : Z) (random : float)
    (orderArgs : types.OrderArgs) (options : types.CreateOrderOptions)
    (exchangeAddress : string) (s : Spec.side) :
  types.oa_Side orderArgs = Spec.wire s ->
  Built.fits_word (utils.parse_big (types.oa_TokenID orderArgs)) ->
  Z.abs (types.oa_FeeRateBps orderArgs) < 2 ^ 256 ->
  Z.abs (types.oa_Nonce orderArgs) < 2 ^ 256 ->
  Z.abs (types.oa_Expiration orderArgs) < 2 ^ 256 ->
  Z.abs (signer.chainID (orderbuilder.signer_ ob)) < 2 ^ 256 ->
  (forall digest raw,
     crypto_Sign digest (signer.privateKey (orderbuilder.signer_ ob)) = Ok raw ->
     (65 <= List.length raw)%nat) ->
  exists (r : result types.SignedOrder) (ob' : orderbuilder.OrderBuilder),
    orderbuilder.CreateOrder ob now random orderArgs options exchangeAddress
    = Returned (r, ob').
Proof.
  intros Side Token Fee Nonce Expiration Chain Library.
  unfold orderbuilder.CreateOrder. rewrite Side.
  destruct (getOrderAmounts_total ob s (types.oa_Size orderArgs)
              (types.oa_Price orderArgs) (types.TickSize_ options))
    as (maker & taker & A & Bm & Bt).
  rewrite A. cbn [bind].
  set (ob1 := orderbuilder.recordMetric ob "order_amounts_calculation" true "").
  fold (Built.limit_order_data ob1 orderArgs (Spec.ordinal s) (Some maker) (Some taker)).
  set (orderData := Built.limit_order_data ob1 orderArgs (Spec.ordinal s)
                      (Some maker) (Some taker)).
  unfold orderbuilder.signOrder. cbv zeta.
  set (salt := int_of_float (float_of_int now * random)).
  assert (P154 : 2 ^ 154 < 2 ^ 256) by (vm_compute; reflexivity).
  assert (P63 : 2 ^ 63 < 2 ^ 256) by (vm_compute; reflexivity).
  assert (F : Built.hashed_numbers_fit orderData salt).
  { unfold Built.hashed_numbers_fit, Built.fits_word, orderData,
      Built.limit_order_data.
    cbn [types.od_TokenID types.od_MakerAmount types.od_TakerAmount
         types.od_Expiration types.od_Nonce types.od_FeeRateBps].
    rewrite !parse_big_Sprintf_d.
    pose proof (int_of_float_range (float_of_int now * random)) as R.
    unfold int64_min, int64_max in R. fold salt in R.
    repeat split; try exact Token; eexists; (split; [ reflexivity | lia ]). }
  apply CreateOrderStructHash_returns in F. destruct F as [structHash F].
  unfold utils.CreateOrderEIP712Hash, utils.CreatePolymarketDomain. cbv zeta.
  cbn [orderbuilder.signer_ ob1 orderbuilder.recordMetric signer.ChainID].
  rewrite FillBytes_word by exact Chain. cbn [bind].
  rewrite F. cbn [bind].
  unfold signer.Sign.
  destruct (crypto_Sign _ (signer.privateKey (orderbuilder.signer_ ob)))
    as [raw | err] eqn:Sg; [ | cbn [bind]; eauto ].
  apply Library in Sg.
  unfold load. destruct (nth_error raw 64) as [v | ] eqn:N.
  - cbn [bind].
    destruct (Z_of_byte v <? 27).
    + unfold store.
      destruct (64 <? List.length raw)%nat eqn:L;
        [ cbn [bind]; eauto | apply Nat.ltb_ge in L; lia ].
    + cbn [bind]. eauto.
  - apply nth_error_None in N. lia.
Qed.

End LimitOrdersAreTotal.

(** With the stand-in library a limit BUY of a NaN size at a NaN price
    returns. *)
Lemma limit_order_creation_never_panics_on_NaN :
  exists r ob',
    @orderbuilder.CreateOrder Sample.libraries Sample.a_builder 1700000000 0.5
      {| types.oa_TokenID := "1234"; types.oa_Price := nan; types.oa_Size := nan;
         types.oa_Side := "BUY"; types.oa_FeeRateBps := 0; types.oa_Nonce := 0;
         types.oa_Expiration := 0;
         types.oa_Taker := "0x0000000000000000000000000000000000000000" |}
      Fixture.options_001 "0x4bFb41d5B3570DeFd03C39a9A4D8dE6Bd8B8982E"
    = Returned (r, ob').
Proof.
  apply (@limit_order_creation_never_panics Sample.libraries Sample.a_builder
           1700000000 0.5 _ Fixture.options_001
           "0x4bFb41d5B3570DeFd03C39a9A4D8dE6Bd8B8982E" Spec.Buy).
  - reflexivity.
  - exists 1234. split; [ reflexivity | vm_compute; reflexivity ].
  - vm_compute. reflexivity.
  - vm_compute. reflexivity.
  - vm_compute. reflexivity.
  - vm_compute. reflexivity.
  - intros digest raw. cbn [crypto_Sign Sample.libraries].
    destruct (List.length digest =? 32)%nat; [ | discriminate ].
    intro Q. injection Q as Q. subst raw. cbn. lia.
Defined.

Section MarketBuyAtZeroPrice.
Context `{Libraries}.

(** X26. A market SELL is computed as a limit SELL of the same number of
    shares, and like it for every float: whatever the amount, the price and
    the tick size, the market computation for SELL returns the two integers
    that the limit computation returns for SELL, with its own success
    metric. *)
Theorem market_sell_amounts_for_every_float
    (ob : orderbuilder.OrderBuilder) (amount price : float)
    (tickSize : types.TickSize) :
  exists maker taker : Z,
    orderbuilder.getMarketOrderAmounts ob types.SELL amount price tickSize
    = Returned (Ok (1, Some maker, Some taker),
                orderbuilder.recordMetric ob "market_order_amounts_calculation" true "")
    /\ orderbuilder.getOrderAmounts ob types.SELL amount price tickSize
       = Returned (Ok (1, Some maker, Some taker),
                   orderbuilder.recordMetric ob "order_amounts_calculation" true "")
    /\ Z.abs maker < 2 ^ 154 /\ Z.abs taker < 2 ^ 154.
Proof.
  destruct (getOrderAmounts_total ob Spec.Sell amount price tickSize)
    as (maker & taker & L & Bm & Bt).
  exists maker, taker. split; [ | split; [ exact L | split; assumption ] ].
  change types.SELL with (Spec.wire Spec.Sell).
  rewrite getMarketOrderAmounts_computes.
  rewrite getOrderAmounts_computes in L.
  unfold Spec.computed_market_amounts, Spec.computed_limit_amounts in *.
  destruct (Spec.amounts 1 _ _) as [r | msg]; cbn [bind] in *; [ | discriminate L ].
  injection L as L. subst r. reflexivity.
Qed.

(** X27. A market BUY whose price rounds to zero at the profile's price
    decimals (a price below half a tick, a zero, a negative fraction of a
    tick) never yields an order or an error: the share leg is an infinity or,
    when the amount rounds to zero too, a NaN, and [CreateMarketOrder]
    panics, on the nil amount or on the NaN. *)
Theorem market_buy_at_zero_price_panics
    (ob : orderbuilder.OrderBuilder) (now : Z) (random : float)
    (orderArgs : types.MarketOrderArgs) (options : types.CreateOrderOptions)
    (exchangeAddress : string) (zero_sign : bool) :
  types.mo_Side orderArgs = types.BUY ->
  Prim2SF (utils.RoundNormal (types.mo_Price orderArgs)
             (types.Price (utils.GetRoundingConfig (types.TickSize_ options))))
    = S754_zero zero_sign ->
  exists msg,
    orderbuilder.CreateMarketOrder ob now random orderArgs options exchangeAddress
    = Panicked msg.
Proof.
  intros Side Zero.
  pose proof (GetRoundingConfig_small (types.TickSize_ options)) as G. cbv zeta in G.
  destruct G as (P & S & A).
  rewrite RoundNormal_computed in Zero by lia.
  set (profile := utils.GetRoundingConfig (types.TickSize_ options)) in *.
  pose proof (computed_round_down_below (types.mo_Amount orderArgs) (types.Size profile)
                ltac:(lia)) as Maker.
  destruct (scaled_integer_below _ (below_mono _ 133 _ Maker ltac:(lia)))
    as (a & Ea & _).
  set (leg := (Spec.computed_round_down (types.mo_Amount orderArgs) (types.Size profile)
               / Spec.computed_round_normal (types.mo_Price orderArgs) (types.Price profile))%float).
  assert (L : Prim2SF leg = S754_nan \/ exists s, Prim2SF leg = S754_infinity s).
  { unfold leg. rewrite div_spec, Zero. unfold Magnitude.below in Maker.
    destruct (Prim2SF (Spec.computed_round_down _ _)) as [s | s | | s m e];
      try contradiction; cbn [SFdiv];
      [ left; reflexivity | right; eexists; reflexivity ]. }
  assert (R : Spec.computed_repair profile leg = leg).
  { unfold Spec.computed_repair.
    assert (D : Spec.decimal_places leg = 0).
    { unfold Spec.decimal_places. destruct L as [L | [s L]]; rewrite L; reflexivity. }
    rewrite D. destruct (types.Amount profile <? 0) eqn:C; [ | reflexivity ].
    apply Z.ltb_lt in C. lia. }
  assert (Amounts :
    orderbuilder.getMarketOrderAmounts ob (types.mo_Side orderArgs)
      (types.mo_Amount orderArgs) (types.mo_Price orderArgs) (types.TickSize_ options)
    = bind (Spec.scaled_integer leg) (fun taker =>
        Returned (Ok (0, Some a, taker),
                  orderbuilder.recordMetric ob "market_order_amounts_calculation"
                    true ""))).
  { rewrite Side. change types.BUY with (Spec.wire Spec.Buy).
    rewrite getMarketOrderAmounts_computes.
    unfold Spec.computed_market_amounts, Spec.amounts. cbv zeta.
    fold profile. fold leg. rewrite R, Ea. cbn [bind].
    destruct (Spec.scaled_integer leg); reflexivity. }
  destruct L as [L | [s L]].
  - unfold orderbuilder.CreateMarketOrder. rewrite Amounts.
    unfold Spec.scaled_integer. rewrite L. cbn [bind]. eauto.
  - eapply (CreateMarketOrder_panics_on_nil_amount ob _ now random orderArgs options
              exchangeAddress 0 (Some a) None); [ | right; reflexivity ].
    rewrite Amounts. unfold Spec.scaled_integer. rewrite L. reflexivity.
Qed.

End MarketBuyAtZeroPrice.

(** A market BUY of 10 at price 0.001 with tick size "0.01": the price
    rounds to zero and the share leg is an infinity. *)
Lemma market_buy_at_zero_price_panics_at_0001 :
  exists msg,
    @orderbuilder.CreateMarketOrder Sample.libraries Sample.a_builder 1700000000 0.5
      (Fixture.market_buy_at 0.001) Fixture.options_001
      "0x4bFb41d5B3570DeFd03C39a9A4D8dE6Bd8B8982E" = Panicked msg.
Proof.
  apply (@market_buy_at_zero_price_panics Sample.libraries Sample.a_builder
           1700000000 0.5 (Fixture.market_buy_at 0.001) Fixture.options_001
           "0x4bFb41d5B3570DeFd03C39a9A4D8dE6Bd8B8982E" false).
  - reflexivity.
  - vm_compute. reflexivity.
Defined.

(* ================================================================== *)
(** ** Rounding to decimals: what the code computes and what the words say *)

Section NormalRounding.





End NormalRounding.


Section WordedRounding.






End WordedRounding.


Section HalfAdded.





End HalfAdded.


Section ScaledPrice.







End ScaledPrice.


Section AmendedAlgorithm.
Context `{Libraries}.





End AmendedAlgorithm.

Section AmendedClaims.
Context `{Libraries}.







End AmendedClaims.





(* ================================================================== *)
(** ** API keys *)

Section ApiKeys.
Context `{Libraries}.
Variable Request : Type.
Variable http_NewRequest : string -> string -> option string -> result Request.
Variable Header_Set : Request -> string -> string -> Request.
Variable httpClient_Do : Request -> result ClientState.Response.
Variable json_Unmarshal : list byte -> result (string -> ClientState.any).

Lemma same_key_refl (s : option signer.Signer) : ClientState.same_key s s.
Proof.
  destruct s; cbn; auto.
Qed.

Lemma same_but_headers_refl (c : ClientState.ClobClient) :
  ClientState.same_but_headers c c.
Proof.
  unfold ClientState.same_but_headers. pose proof (same_key_refl (ClientState.signer_ c)).
  tauto.
Qed.

Lemma same_but_headers_recordMetric
    (c c' : ClientState.ClobClient) (operation : string) (success : bool)
    (errorMsg : string) :
  ClientState.same_but_headers c c' ->
  ClientState.same_but_headers c
    (ClientState.recordMetric c' operation success errorMsg).
Proof.
  unfold ClientState.same_but_headers. cbn [ClientState.recordMetric
    ClientState.host ClientState.chainID ClientState.signer_ ClientState.creds
    ClientState.authLevel ClientState.headerBuilder_ ClientState.orderBuilder_
    ClientState.tickSizes ClientState.negRisks]. tauto.
Qed.

Lemma same_but_headers_metrics (a b c : ClientState.ClobClient) :
  ClientState.same_but_headers a b -> ClientState.same_but_metrics b c ->
  ClientState.same_but_headers a c.
Proof.
  unfold ClientState.same_but_headers, ClientState.same_but_metrics.
  intros (A1 & A2 & A3 & A4 & A5 & A6 & A7 & A8 & A9)
         (B1 & B2 & B3 & B4 & B5 & B6 & B7 & B8 & B9).
  rewrite B1, B2, B3, B4, B5, B6, B7, B8, B9. tauto.
Qed.

Lemma same_but_headers_trans (a b c : ClientState.ClobClient) :
  ClientState.same_but_headers a b -> ClientState.same_but_headers b c ->
  ClientState.same_but_headers a c.
Proof.
  unfold ClientState.same_but_headers.
  intros (A1 & A2 & A3 & A4 & A5 & A6 & A7 & A8 & A9)
         (B1 & B2 & B3 & B4 & B5 & B6 & B7 & B8 & B9).
  repeat split; try congruence; try tauto.
  unfold ClientState.same_key in *.
  destruct (ClientState.signer_ a), (ClientState.signer_ b), (ClientState.signer_ c);
    try tauto.
  destruct A3 as (K1 & K2 & K3), B3 as (L1 & L2 & L3). repeat split; congruence.
Qed.

(** Making the Level-1 headers touches metrics only: the key, the address
    and the chain of the signer stay. *)
Lemma CreateLevel1Headers_keeps_key
    (h h' : auth.HeaderBuilder) (timestamp nonce : Z)
    (made : result (list (string * string))) :
  ClobAuth.CreateLevel1Headers h timestamp nonce = Returned (made, h') ->
  signer.privateKey (auth.signer_ h') = signer.privateKey (auth.signer_ h)
  /\ signer.address (auth.signer_ h') = signer.address (auth.signer_ h)
  /\ signer.chainID (auth.signer_ h') = signer.chainID (auth.signer_ h).
Proof.
  unfold ClobAuth.CreateLevel1Headers, ClobAuth.SignClobAuth, ClobAuth.SignEIP712.
  cbv zeta.
  destruct (ClobAuth.CreateClobAuthDomain _) as [domain | ]; cbn [bind];
    [ | discriminate ].
  destruct (ClobAuth.EncodeClobAuth _) as [structHash | ]; cbn [bind];
    [ | discriminate ].
  destruct (signer.Sign _ _) as [[signed s1] | ] eqn:Sg; cbn [bind]; [ | discriminate ].
  apply Sign_state in Sg. destruct Sg as [errorMsg Sg]. subst s1.
  destruct signed as [signature | err]; cbn [bind];
    intro Q; injection Q as _ Q; subst h'; repeat split.
Qed.

(** The client after its header builder made headers. *)
Lemma same_but_headers_after_headers
    (c : ClientState.ClobClient) (h h' : auth.HeaderBuilder) (timestamp nonce : Z)
    (made : result (list (string * string))) :
  ClientState.headerBuilder c = Some h ->
  ClobAuth.CreateLevel1Headers h timestamp nonce = Returned (made, h') ->
  ClientState.same_but_headers c (ClientState.with_headerBuilder c h').
Proof.
  intros HB L1. apply CreateLevel1Headers_keeps_key in L1.
  unfold ClientState.headerBuilder in HB.
  destruct (ClientState.headerBuilder_ c) as [hs | ] eqn:Hs; [ | discriminate HB ].
  destruct (ClientState.signer_ c) as [s | ] eqn:Ss; [ | discriminate HB ].
  injection HB as HB. subst h. cbn [auth.signer_] in L1.
  unfold ClientState.same_but_headers, ClientState.with_headerBuilder.
  cbn [ClientState.host ClientState.chainID ClientState.signer_ ClientState.creds
       ClientState.authLevel ClientState.headerBuilder_ ClientState.orderBuilder_
       ClientState.tickSizes ClientState.negRisks ClientState.same_key].
  rewrite Hs, Ss. cbn [ClientState.same_key].
  repeat split; try tauto; try discriminate.
Qed.

Lemma same_but_headers_request
    (c c1 : ClientState.ClobClient) (h h' : auth.HeaderBuilder) (timestamp nonce : Z)
    (made : result (list (string * string))) (method url : string)
    (headers : list (string * string)) (r : result (list byte)) :
  ClientState.headerBuilder c = Some h ->
  ClobAuth.CreateLevel1Headers h timestamp nonce = Returned (made, h') ->
  ClientState.makeRequest http_NewRequest Header_Set httpClient_Do
    (ClientState.with_headerBuilder c h') method url headers None = (r, c1) ->
  ClientState.same_but_headers c c1.
Proof.
  intros HB L1 M. apply makeRequest_returns in M. destruct M as (S & _).
  eapply same_but_headers_metrics; [ | exact S ].
  eapply same_but_headers_after_headers; eassumption.
Qed.

Ltac api_key_step :=
  match goal with
  | |- context [ ClientState.authLevel ?c <? types.L1 ] =>
      destruct (ClientState.authLevel c <? types.L1)
  | |- context [ ClientState.headerBuilder ?c ] =>
      let HB := fresh "HB" in
      destruct (ClientState.headerBuilder c) eqn:HB
  | |- context [ ClobAuth.CreateLevel1Headers ?h ?t ?n ] =>
      let L1 := fresh "L1" in
      destruct (ClobAuth.CreateLevel1Headers h t n) as [[[? | ?] ?] | ] eqn:L1;
      cbn [bind]
  | HB : ClientState.headerBuilder ?c = Some ?h,
    L1 : ClobAuth.CreateLevel1Headers ?h ?t ?n = Returned (_, ?h')
    |- context [ ClientState.makeRequest ?a ?b ?d
                   (ClientState.with_headerBuilder ?c ?h') ?m ?u ?hs ?bd ] =>
      let M := fresh "M" in
      destruct (ClientState.makeRequest a b d (ClientState.with_headerBuilder c h')
                  m u hs bd) as [[? | ?] ?] eqn:M;
      apply (same_but_headers_request _ _ _ _ _ _ _ _ _ _ _ HB L1) in M
  | |- context [ json_Unmarshal ?r ] =>
      destruct (json_Unmarshal r)
  | |- context [ ClientState.assert_string ?v ] =>
      destruct (ClientState.assert_string v); cbn [bind]
  end.

Ltac api_key_call :=
  repeat api_key_step;
  let Q := fresh "Q" in
  intro Q; try discriminate Q; injection Q as _ Q; subst;
  apply same_but_headers_recordMetric;
  first [ assumption
        | eapply same_but_headers_after_headers; eassumption
        | apply same_but_headers_refl ].

Lemma CreateAPIKey_installs_nothing
    (c c' : ClientState.ClobClient) (now nonce : Z) (r : result types.ApiCreds) :
  ClientState.CreateAPIKey http_NewRequest Header_Set httpClient_Do json_Unmarshal
    c now nonce = Returned (r, c') ->
  ClientState.same_but_headers c c'.
Proof.
  unfold ClientState.CreateAPIKey. api_key_call.
Qed.

Lemma DeriveAPIKey_installs_nothing
    (c c' : ClientState.ClobClient) (now nonce : Z) (r : result types.ApiCreds) :
  ClientState.DeriveAPIKey http_NewRequest Header_Set httpClient_Do json_Unmarshal
    c now nonce = Returned (r, c') ->
  ClientState.same_but_headers c c'.
Proof.
  unfold ClientState.DeriveAPIKey. api_key_call.
Qed.

(** The signer the builders of a client point to is the signer of the
    client. *)
Lemma builders_share_the_signer (c : ClientState.ClobClient) :
  (forall h, ClientState.headerBuilder c = Some h ->
             ClientState.signer_ c = Some (auth.signer_ h))
  /\ (forall ob, ClientState.orderBuilder c = Some ob ->
                 ClientState.signer_ c = Some (orderbuilder.signer_ ob)).
Proof.
  unfold ClientState.headerBuilder, ClientState.orderBuilder.
  destruct (ClientState.headerBuilder_ c), (ClientState.orderBuilder_ c),
    (ClientState.signer_ c); split; intros x Q; try discriminate Q;
    injection Q as Q; subst x; reflexivity.
Qed.

(** X28. Creating or deriving an API key installs nothing: whatever
    [CreateOrDeriveAPIKey] returns, the client keeps its host, its chain,
    its credentials, its authentication level, the key and the address of
    its signer, its order builder and its caches - what changes is metrics:
    the client's, the header builder's, and those of the one signer that
    client, header builder and order builder share - so the credentials
    returned take effect only once the caller sets them; and at Level 0 it
    returns the Level-1 error of the derivation without making headers or a
    request. *)
Theorem api_key_calls_install_nothing
    (c : ClientState.ClobClient) (now later nonce : Z) :
  (forall (r : result types.ApiCreds) (c' : ClientState.ClobClient),
     ClientState.CreateOrDeriveAPIKey http_NewRequest Header_Set httpClient_Do
       json_Unmarshal c now later nonce = Returned (r, c') ->
     ClientState.same_but_headers c c'
     /\ (forall h, ClientState.headerBuilder c' = Some h ->
                   ClientState.signer_ c' = Some (auth.signer_ h))
     /\ (forall ob, ClientState.orderBuilder c' = Some ob ->
                    ClientState.signer_ c' = Some (orderbuilder.signer_ ob)))
  /\
  (ClientState.authLevel c < types.L1 ->
   ClientState.CreateOrDeriveAPIKey http_NewRequest Header_Set httpClient_Do
     json_Unmarshal c now later nonce
   = Returned
       (Err "Level 1 authentication required",
        ClientState.recordMetric
          (ClientState.recordMetric c "api_key_creation" false "insufficient auth level")
          "api_key_derivation" false "insufficient auth level")).
Proof.
  split.
  - intros r c' E. split; [ | apply builders_share_the_signer ].
    revert E. unfold ClientState.CreateOrDeriveAPIKey.
    destruct (ClientState.CreateAPIKey _ _ _ _ c now nonce)
      as [[[creds | err] c1] | ] eqn:C; cbn [bind]; [ | | discriminate ].
    + intro Q. injection Q as _ Q. subst c'.
      eapply CreateAPIKey_installs_nothing. exact C.
    + intro D. eapply same_but_headers_trans.
      * eapply CreateAPIKey_installs_nothing. exact C.
      * eapply DeriveAPIKey_installs_nothing. exact D.
  - intro A. apply Z.ltb_lt in A.
    unfold ClientState.CreateOrDeriveAPIKey, ClientState.CreateAPIKey.
    rewrite A. cbn [bind]. unfold ClientState.DeriveAPIKey.
    cbn [ClientState.recordMetric ClientState.authLevel]. rewrite A. reflexivity.
Qed.

End ApiKeys.

(** A client made with the key [ab] asks a server that answers every
    request with the status 200 for an API key: the credentials come back
    and nothing is installed; signing the headers left three metrics more on
    the one signer, which the client, the header builder and the order
    builder all see. *)
Lemma api_key_calls_install_nothing_for_keyed_client :
  match @ClientState.NewClobClient Sample.libraries Fixture.HexToECDSA
          Fixture.PubkeyToAddress "https://clob.example" 137 "ab" None None None with
  | Ok c =>
      match @ClientState.CreateOrDeriveAPIKey Sample.libraries _ Fixture.NewRequest
              Fixture.keep_header (Fixture.Do 200 "{}")
              (Fixture.Unmarshal (ClientState.string_value "x"))
              c 1700000000 1700000001 0 with
      | Returned (r, c') =>
          r = Ok {| types.ApiKey := "x"; types.ApiSecret := "x";
                    types.ApiPassphrase := "x" |}
          /\ ClientState.same_but_headers c c'
          /\ ClientState.creds c' = None
          /\ ClientState.authLevel c' = types.L1
          /\ option_map (fun s => List.length (signer.metrics s))
               (ClientState.signer_ c) = Some 1%nat
          /\ option_map (fun s => List.length (signer.metrics s))
               (ClientState.signer_ c') = Some 4%nat
          /\ option_map (fun h => List.length (signer.metrics (auth.signer_ h)))
               (ClientState.headerBuilder c') = Some 4%nat
          /\ option_map (fun ob => List.length (signer.metrics (orderbuilder.signer_ ob)))
               (ClientState.orderBuilder c') = Some 4%nat
      | Panicked _ => False
      end
  | Err _ => False
  end.
Proof.
  destruct (@ClientState.NewClobClient Sample.libraries Fixture.HexToECDSA
              Fixture.PubkeyToAddress "https://clob.example" 137 "ab" None None None)
    as [c | err] eqn:N; try (vm_compute in N; discriminate N).
  destruct (@ClientState.CreateOrDeriveAPIKey Sample.libraries _ Fixture.NewRequest
              Fixture.keep_header (Fixture.Do 200 "{}")
              (Fixture.Unmarshal (ClientState.string_value "x"))
              c 1700000000 1700000001 0)
    as [[r c'] | ] eqn:E.
  - destruct (proj1 (@api_key_calls_install_nothing Sample.libraries _ Fixture.NewRequest
                       Fixture.keep_header (Fixture.Do 200 "{}")
                       (Fixture.Unmarshal (ClientState.string_value "x"))
                       c 1700000000 1700000001 0) r c' E) as (SB & _).
    vm_compute in N. injection N as N. subst c.
    vm_compute in E. injection E as Er Ec. subst r c'.
    split; [ reflexivity | ]. split; [ exact SB | ].
    repeat split.
  - vm_compute in N. injection N as N. subst c.
    vm_compute in E. discriminate E.
Defined.
